(** * Error-bar detection, Mean±SD conversion and group comparison

    A shallow embedding of the statistical core of the bar-chart converter:
      - [error_detector.py]      (class [ErrorBarDetector]),
      - [statistical_engine.py]  (class [StatisticalEngine]),
      - [bar_converter.py]       (the comparison part of [BarChartConverter]).

    Numeric model.  Python [float] values are embedded as real numbers [R]
    and Python [int] values as [Z]; an [int] meeting a [float] in an
    arithmetic operation is injected with [IZR].  The arithmetic is therefore
    exact: binary64 rounding error, overflow, infinities and NaN are outside
    this model.  What Python does beyond plain arithmetic is written out:
    [math.sqrt] raises [ValueError] on a negative argument, [/] raises
    [ZeroDivisionError] on a zero divisor, [round(x, d)] rounds to the nearest
    multiple of [10^-d] with ties going to the even neighbour, and
    [try ... except (ValueError, ZeroDivisionError)] catches exactly these two
    kinds of exception.

    Strings are ASCII strings; [str.upper] and [str.strip] are modelled on
    that alphabet. *)

From Stdlib Require Import Reals Lra Lia ZArith Bool List String Ascii.
Import ListNotations.

Local Open Scope R_scope.

(** ** Python exceptions and the error monad *)

Module Py.

Inductive exn : Type :=
| ValueError (msg : string)
| ZeroDivisionError
| OverflowError
| TypeError.

Inductive result (A : Type) : Type :=
| Ok (a : A)
| Raise (e : exn).

Arguments Ok {A} a.
Arguments Raise {A} e.

Definition ret {A} (a : A) : result A := Ok a.

Definition bind {A B} (m : result A) (k : A -> result B) : result B :=
  match m with
  | Ok a => k a
  | Raise e => Raise e
  end.

(** [try: m except (ValueError, ZeroDivisionError): return h] *)
Definition try_except_value_zerodiv {A} (m : result A) (h : result A)
  : result A :=
  match m with
  | Ok a => Ok a
  | Raise (ValueError _) => h
  | Raise ZeroDivisionError => h
  | Raise e => Raise e
  end.

Definition returns {A} (m : result A) : Prop := exists a, m = Ok a.

End Py.

Import Py.

Notation "x <- m ;; k" := (bind m (fun x => k))
  (at level 61, m at next level, right associativity).

(** ** Comparisons on floats, as booleans *)

Definition Rltb (x y : R) : bool := if Rlt_dec x y then true else false.
Definition Rleb (x y : R) : bool := if Rle_dec x y then true else false.
Definition Reqb (x y : R) : bool := if Req_dec_T x y then true else false.

(** ** Python arithmetic that can raise *)

(** [math.sqrt(x)] *)
Definition math_sqrt (x : R) : result R :=
  if Rltb x 0 then Raise (ValueError "math domain error") else Ok (sqrt x).

(** [x / y] on floats *)
Definition py_div (x y : R) : result R :=
  if Reqb y 0 then Raise ZeroDivisionError else Ok (x / y).

(** ** [round(x, ndigits)]: nearest multiple of [10^-ndigits], ties to even *)

Definition round_half_even (x : R) : Z :=
  let f := Zfloor x in
  let r := x - IZR f in
  if Rltb r (1/2) then f
  else if Rltb (1/2) r then (f + 1)%Z
  else if Z.even f then f else (f + 1)%Z.

Definition py_round (x : R) (ndigits : nat) : R :=
  IZR (round_half_even (x * 10 ^ ndigits)) / 10 ^ ndigits.


(** ** Python strings and dictionaries *)

(** [c.upper()] on an ASCII character *)
Definition upper_ascii (c : ascii) : ascii :=
  let n := nat_of_ascii c in
  if (97 <=? n)%nat && (n <=? 122)%nat then ascii_of_nat (n - 32) else c.

(** [s.upper()] *)
Fixpoint upper (s : string) : string :=
  match s with
  | EmptyString => EmptyString
  | String c s' => String (upper_ascii c) (upper s')
  end.

(** [c.isspace()] on an ASCII character: tab, LF, VT, FF, CR, the four
    separators 28..31, and the blank. *)
Definition isspace (c : ascii) : bool :=
  let n := nat_of_ascii c in
  ((9 <=? n)%nat && (n <=? 13)%nat) || ((28 <=? n)%nat && (n <=? 32)%nat).

Fixpoint lstrip (s : string) : string :=
  match s with
  | EmptyString => EmptyString
  | String c s' => if isspace c then lstrip s' else s
  end.

Fixpoint rstrip (s : string) : string :=
  match s with
  | EmptyString => EmptyString
  | String c s' =>
      match rstrip s' with
      | EmptyString => if isspace c then EmptyString else String c EmptyString
      | t => String c t
      end
  end.

(** [s.strip()] *)
Definition strip (s : string) : string := rstrip (lstrip s).

(** A dictionary with string keys, in insertion order. *)
Definition dict (V : Type) : Type := list (string * V).

(** [d.get(k)] *)
Fixpoint dict_lookup {V} (d : dict V) (k : string) : option V :=
  match d with
  | [] => None
  | (k', v) :: d' => if String.eqb k k' then Some v else dict_lookup d' k
  end.

(** [k in d] *)
Definition dict_mem {V} (k : string) (d : dict V) : bool :=
  match dict_lookup d k with Some _ => true | None => false end.

(** [d.get(k, default)] *)
Definition dict_get {V} (d : dict V) (k : string) (default : V) : V :=
  match dict_lookup d k with Some v => v | None => default end.

(** [k in [k1, ..., kn]] on a list of strings *)
Definition str_in (k : string) (l : list string) : bool :=
  existsb (String.eqb k) l.

(** ** [error_detector.py]: class [ErrorBarDetector] *)

Module ErrorBarDetector.

Definition supported_types : dict string :=
  [ ("SE", "标准误差");
    ("SD", "标准差");
    ("CI95", "95%置信区间");
    ("CI99", "99%置信区间");
    ("2SE", "2倍标准误差");
    ("ASYMMETRIC", "非对称误差线");
    ("SEM", "标准误差");
    ("STD", "标准差");
    ("STDERR", "标准误差") ]%string.

Definition type_mapping : dict string :=
  [ ("SEM", "SE");
    ("STD", "SD");
    ("STDERR", "SE");
    ("ASYM", "ASYMMETRIC");
    ("ASYMM", "ASYMMETRIC") ]%string.

Definition _normalize_type (declared_type : string) : string :=
  match declared_type with
  | EmptyString => "UNKNOWN"%string
  | _ =>
      let normalized := strip (upper declared_type) in
      dict_get type_mapping normalized normalized
  end.

(** The body of the [try] block of [_validate_declared_type]. *)
Definition _validate_declared_type_body
    (mean error_bar : R) (declared_type : string) (sample_size : Z)
  : result R :=
  if Rleb error_bar 0 || (sample_size <=? 0)%Z then Ok 0.0
  else if Rltb (Rabs mean * 3) error_bar then Ok 0.3
  else if String.eqb declared_type "SD" then
    s <- math_sqrt (IZR sample_size) ;;
    expected_se <- py_div error_bar s ;;
    if Rltb 0 expected_se && Rltb expected_se error_bar then Ok 0.9
    else Ok 0.6
  else if String.eqb declared_type "SE" then
    s <- math_sqrt (IZR sample_size) ;;
    let expected_sd := error_bar * s in
    if Rltb error_bar expected_sd && Rltb expected_sd (Rabs mean * 2)
    then Ok 0.9
    else Ok 0.6
  else if str_in declared_type ["CI95"; "CI99"]%string then
    expected_se <-
      (if String.eqb declared_type "CI95" then py_div error_bar 1.96
       else py_div error_bar 2.576) ;;
    s <- math_sqrt (IZR sample_size) ;;
    let expected_sd := expected_se * s in
    if Rltb 0 expected_sd && Rltb expected_sd (Rabs mean * 2) then Ok 0.8
    else Ok 0.5
  else if String.eqb declared_type "2SE" then
    se <- py_div error_bar 2 ;;
    s <- math_sqrt (IZR sample_size) ;;
    let expected_sd := se * s in
    if Rltb 0 expected_sd && Rltb expected_sd (Rabs mean * 2) then Ok 0.8
    else Ok 0.5
  else Ok 0.7.

Definition _validate_declared_type
    (mean error_bar : R) (declared_type : string) (sample_size : Z)
  : result R :=
  try_except_value_zerodiv
    (_validate_declared_type_body mean error_bar declared_type sample_size)
    (Ok 0.0).

Definition _score_sd_assumption (mean sd se : R) : result R :=
  let score := 0.5 in
  let score := if Rltb se sd then score + 0.2 else score in
  let score :=
    if Rltb sd (Rabs mean * 1.5) then score + 0.2
    else if Rltb sd (Rabs mean * 2) then score + 0.1
    else score in
  score <-
    (if negb (Reqb mean 0) then
       q <- py_div sd mean ;;
       let cv := Rabs q in
       if Rleb 0.1 cv && Rleb cv 1.0 then Ok (score + 0.1) else Ok score
     else Ok score) ;;
  Ok (Rmin score 1.0).

Definition _score_se_assumption (mean se sd : R) : result R :=
  let score := 0.5 in
  let score := if Rltb se sd then score + 0.2 else score in
  let score :=
    if Rltb se (Rabs mean * 0.5) then score + 0.2
    else if Rltb se (Rabs mean) then score + 0.1
    else score in
  score <-
    (if negb (Reqb mean 0) then
       q <- py_div sd mean ;;
       let cv := Rabs q in
       if Rleb 0.1 cv && Rleb cv 1.0 then Ok (score + 0.1) else Ok score
     else Ok score) ;;
  Ok (Rmin score 1.0).

Definition _score_ci_assumption (mean ci_half_width se sd : R) : result R :=
  let score := 0.4 in
  let score :=
    if Rltb se ci_half_width && Rltb ci_half_width (Rabs mean)
    then score + 0.3
    else if Rltb ci_half_width (Rabs mean * 1.5) then score + 0.2
    else score in
  score <-
    (if negb (Reqb mean 0) then
       q <- py_div sd mean ;;
       let cv := Rabs q in
       if Rleb 0.1 cv && Rleb cv 1.0 then Ok (score + 0.2) else Ok score
     else Ok score) ;;
  Ok (Rmin score 0.8).

(** [max(candidates, key=lambda x: x[1])] with [best] the first element:
    a later candidate replaces the current one only on a strictly larger
    score, so the first of several maximal candidates is kept. *)
Fixpoint max_by_score (best : string * R) (rest : list (string * R))
  : string * R :=
  match rest with
  | [] => best
  | c :: rest' =>
      if Rltb (snd best) (snd c) then max_by_score c rest'
      else max_by_score best rest'
  end.

(** The body of the [try] block of [_auto_detect_type]. *)
Definition _auto_detect_type_body (mean error_bar : R) (sample_size : Z)
  : result (string * R) :=
  let candidates : list (string * R) := [] in
  candidates <-
    (if Rltb 0 error_bar then
       s <- math_sqrt (IZR sample_size) ;;
       se_from_sd <- py_div error_bar s ;;
       score <- _score_sd_assumption mean error_bar se_from_sd ;;
       Ok (candidates ++ [("SD"%string, score)])
     else Ok candidates) ;;
  candidates <-
    (if Rltb 0 error_bar then
       s <- math_sqrt (IZR sample_size) ;;
       let sd_from_se := error_bar * s in
       score <- _score_se_assumption mean error_bar sd_from_se ;;
       Ok (candidates ++ [("SE"%string, score)])
     else Ok candidates) ;;
  candidates <-
    (if Rltb 0 error_bar then
       se_from_ci95 <- py_div error_bar 1.96 ;;
       s <- math_sqrt (IZR sample_size) ;;
       let sd_from_ci95 := se_from_ci95 * s in
       score <-
         _score_ci_assumption mean error_bar se_from_ci95 sd_from_ci95 ;;
       Ok (candidates ++ [("CI95"%string, score)])
     else Ok candidates) ;;
  candidates <-
    (if Rltb 0 error_bar then
       se_from_ci99 <- py_div error_bar 2.576 ;;
       s <- math_sqrt (IZR sample_size) ;;
       let sd_from_ci99 := se_from_ci99 * s in
       score <-
         _score_ci_assumption mean error_bar se_from_ci99 sd_from_ci99 ;;
       Ok (candidates ++ [("CI99"%string, score)])
     else Ok candidates) ;;
  candidates <-
    (if Rltb 0 error_bar then
       se_from_2se <- py_div error_bar 2 ;;
       s <- math_sqrt (IZR sample_size) ;;
       let sd_from_2se := se_from_2se * s in
       score <- _score_se_assumption mean se_from_2se sd_from_2se ;;
       Ok (candidates ++ [("2SE"%string, score)])
     else Ok candidates) ;;
  match candidates with
  | c :: rest => Ok (max_by_score c rest)
  | [] => Ok ("UNKNOWN"%string, 0.0)
  end.

Definition _auto_detect_type (mean error_bar : R) (sample_size : Z)
  : result (string * R) :=
  try_except_value_zerodiv
    (_auto_detect_type_body mean error_bar sample_size)
    (Ok ("UNKNOWN"%string, 0.0)).

(** [detect_error_type], with the auto-detector it falls back on taken as
    an argument [auto]; the method of the class is the instance at
    [_auto_detect_type] below.  The [Optional] arguments are [option]s. *)
Definition detect_error_type_with
    (auto : R -> R -> Z -> result (string * R))
    (mean error_bar : option R) (declared_type : string)
    (sample_size : option Z)
  : result (string * R) :=
  match mean, error_bar, sample_size with
  | Some mean, Some error_bar, Some sample_size =>
      let normalized_declared := _normalize_type declared_type in
      (* the first [if]: [Some r] stands for its [return r] *)
      early <-
        (if dict_mem normalized_declared supported_types then
           confidence <-
             _validate_declared_type mean error_bar normalized_declared
                                     sample_size ;;
           if Rltb 0.5 confidence
           then Ok (Some (normalized_declared, confidence))
           else Ok None
         else Ok None) ;;
      match early with
      | Some r => Ok r
      | None =>
          r <- auto mean error_bar sample_size ;;
          let '(detected_type, confidence) := r in
          if Rltb confidence 0.7
             && dict_mem normalized_declared supported_types
          then Ok (normalized_declared, 0.6)
          else Ok (detected_type, confidence)
      end
  | _, _, _ => Ok ("UNKNOWN"%string, 0.0)
  end.

Definition detect_error_type := detect_error_type_with _auto_detect_type.

End ErrorBarDetector.

(** ** [statistical_engine.py]: class [StatisticalEngine] *)

Module StatisticalEngine.

(** The [conversion_formula] entry.  The source renders it with an f-string;
    the template and the values it interpolates are kept apart here, the
    number formatting ([:.4f]) being left to the reader of the record. *)
Inductive formula : Type :=
| FormulaSD                               (* 'SD = SD (直接使用)' *)
| FormulaSE (se : R) (sample_size : Z)    (* 'SD = SE × √n = {se} × √{n}' *)
| FormulaCI95 (ci_half_width : R) (sample_size : Z)
                                          (* 'SE = CI95/1.96, SD = SE × √n = ...' *)
| FormulaCI99 (ci_half_width : R) (sample_size : Z)
                                          (* 'SE = CI99/2.576, SD = SE × √n = ...' *)
| Formula2SE (two_se : R) (sample_size : Z)
                                          (* 'SE = 2SE/2, SD = SE × √n = ...' *)
| FormulaAsymmetric (error_bar : R) (sample_size : Z).
                                          (* 'SD = Error_Bar × √n = ... (非对称近似)' *)

(** The dictionary built by one of the [_convert_from_*] methods.
    [asymmetric_approximation] is [true] when the key is present (its value
    is then [True]) and [false] when the dictionary has no such key. *)
Record Conversion : Type := mkConversion {
  mean : R;
  sd : R;
  se : R;
  conversion_factor : R;
  conversion_formula : formula;
  quality_score : R;
  asymmetric_approximation : bool
}.

(** The dictionary returned by [convert_to_mean_sd]: the conversion, updated
    with the metadata entries. *)
Record ConversionResult : Type := mkConversionResult {
  conversion :> Conversion;
  original_mean : R;
  original_error_bar : R;
  original_error_type : string;
  sample_size : Z;
  method_used : string
}.

Definition _convert_from_sd (mean sd : R) (sample_size : Z)
  : result Conversion :=
  s <- math_sqrt (IZR sample_size) ;;
  se <- py_div sd s ;;
  Ok {| mean := py_round mean 6;
        sd := py_round sd 6;
        se := py_round se 6;
        conversion_factor := 1.0;
        conversion_formula := FormulaSD;
        quality_score := 1.0;
        asymmetric_approximation := false |}.

Definition _convert_from_se (mean se : R) (sample_size : Z)
  : result Conversion :=
  s <- math_sqrt (IZR sample_size) ;;
  let sd := se * s in
  conversion_factor <- math_sqrt (IZR sample_size) ;;
  Ok {| mean := py_round mean 6;
        sd := py_round sd 6;
        se := py_round se 6;
        conversion_factor := py_round conversion_factor 6;
        conversion_formula := FormulaSE se sample_size;
        quality_score := 0.95;
        asymmetric_approximation := false |}.

Definition _convert_from_ci95 (mean ci_half_width : R) (sample_size : Z)
  : result Conversion :=
  se <- py_div ci_half_width 1.96 ;;
  s <- math_sqrt (IZR sample_size) ;;
  let sd := se * s in
  s' <- math_sqrt (IZR sample_size) ;;
  conversion_factor <- py_div s' 1.96 ;;
  Ok {| mean := py_round mean 6;
        sd := py_round sd 6;
        se := py_round se 6;
        conversion_factor := py_round conversion_factor 6;
        conversion_formula := FormulaCI95 ci_half_width sample_size;
        quality_score := 0.85;
        asymmetric_approximation := false |}.

Definition _convert_from_ci99 (mean ci_half_width : R) (sample_size : Z)
  : result Conversion :=
  se <- py_div ci_half_width 2.576 ;;
  s <- math_sqrt (IZR sample_size) ;;
  let sd := se * s in
  s' <- math_sqrt (IZR sample_size) ;;
  conversion_factor <- py_div s' 2.576 ;;
  Ok {| mean := py_round mean 6;
        sd := py_round sd 6;
        se := py_round se 6;
        conversion_factor := py_round conversion_factor 6;
        conversion_formula := FormulaCI99 ci_half_width sample_size;
        quality_score := 0.85;
        asymmetric_approximation := false |}.

Definition _convert_from_2se (mean two_se : R) (sample_size : Z)
  : result Conversion :=
  se <- py_div two_se 2 ;;
  s <- math_sqrt (IZR sample_size) ;;
  let sd := se * s in
  s' <- math_sqrt (IZR sample_size) ;;
  conversion_factor <- py_div s' 2 ;;
  Ok {| mean := py_round mean 6;
        sd := py_round sd 6;
        se := py_round se 6;
        conversion_factor := py_round conversion_factor 6;
        conversion_formula := Formula2SE two_se sample_size;
        quality_score := 0.90;
        asymmetric_approximation := false |}.

Definition _convert_from_asymmetric (mean error_bar : R) (sample_size : Z)
  : result Conversion :=
  s <- math_sqrt (IZR sample_size) ;;
  let sd := error_bar * s in
  let se := error_bar in
  conversion_factor <- math_sqrt (IZR sample_size) ;;
  Ok {| mean := py_round mean 6;
        sd := py_round sd 6;
        se := py_round se 6;
        conversion_factor := py_round conversion_factor 6;
        conversion_formula := FormulaAsymmetric error_bar sample_size;
        quality_score := 0.75;
        asymmetric_approximation := true |}.

Definition conversion_methods : dict (R -> R -> Z -> result Conversion) :=
  [ ("SD", _convert_from_sd);
    ("SE", _convert_from_se);
    ("CI95", _convert_from_ci95);
    ("CI99", _convert_from_ci99);
    ("2SE", _convert_from_2se);
    ("ASYMMETRIC", _convert_from_asymmetric) ]%string.

Definition _get_method_name (error_type : string) : string :=
  let method_names : dict string :=
    [ ("SD", "direct_sd");
      ("SE", "se_to_sd");
      ("CI95", "ci95_to_sd");
      ("CI99", "ci99_to_sd");
      ("2SE", "2se_to_sd") ]%string in
  dict_get method_names error_type "unknown"%string.

(** The text of the [ValueError] raised for a type without a conversion
    method: a fixed prefix followed by the type as it was passed. *)
Definition unsupported_type_message (error_type : string) : string :=
  ("不支持的误差线类型: " ++ error_type)%string.

Definition convert_to_mean_sd
    (mean error_bar : R) (error_type : string) (sample_size : Z)
  : result ConversionResult :=
  match dict_lookup conversion_methods error_type with
  | None => Raise (ValueError (unsupported_type_message error_type))
  | Some conversion_func =>
      result <- conversion_func mean error_bar sample_size ;;
      Ok {| conversion := result;
            original_mean := mean;
            original_error_bar := error_bar;
            original_error_type := error_type;
            sample_size := sample_size;
            method_used := _get_method_name error_type |}
  end.

(** The warnings [validate_conversion_result] can append. *)
Inductive warning : Type :=
| SdNotPositive         (* "标准差必须大于0" *)
| SeNotPositive         (* "标准误差必须大于0" *)
| SeSdInconsistent      (* "SE和SD的关系可能不一致" *)
| CvTooLarge            (* "变异系数过大，可能存在异常值" *)
| CvLarge               (* "变异系数较大，数据变异性高" *)
| SmallSample.          (* "样本量较小，结果可靠性有限" *)

Inductive quality : Type := good | fair | poor.

Record Validation : Type := mkValidation {
  is_valid : bool;
  warnings : list warning;
  quality_assessment : quality
}.

Definition validate_conversion_result (result : ConversionResult)
  : Py.result Validation :=
  let validation :=
    {| is_valid := true; warnings := []; quality_assessment := good |} in
  let mean := mean result in
  let sd := sd result in
  let se := se result in
  let sample_size := sample_size result in
  let validation :=
    if Rleb sd 0 then
      {| is_valid := false;
         warnings := warnings validation ++ [SdNotPositive];
         quality_assessment := quality_assessment validation |}
    else validation in
  let validation :=
    if Rleb se 0 then
      {| is_valid := false;
         warnings := warnings validation ++ [SeNotPositive];
         quality_assessment := quality_assessment validation |}
    else validation in
  expected_se <-
    (if (0 <? sample_size)%Z then
       s <- math_sqrt (IZR sample_size) ;; py_div sd s
     else Ok 0) ;;
  let validation :=
    if Rltb 0.001 (Rabs (se - expected_se)) then
      {| is_valid := is_valid validation;
         warnings := warnings validation ++ [SeSdInconsistent];
         quality_assessment := quality_assessment validation |}
    else validation in
  validation <-
    (if negb (Reqb mean 0) then
       q <- py_div sd mean ;;
       let cv := Rabs q in
       if Rltb 2.0 cv then
         Ok {| is_valid := is_valid validation;
               warnings := warnings validation ++ [CvTooLarge];
               quality_assessment := poor |}
       else if Rltb 1.0 cv then
         Ok {| is_valid := is_valid validation;
               warnings := warnings validation ++ [CvLarge];
               quality_assessment := fair |}
       else Ok validation
     else Ok validation) ;;
  let validation :=
    if (sample_size <? 10)%Z then
      {| is_valid := is_valid validation;
         warnings := warnings validation ++ [SmallSample];
         quality_assessment :=
           match quality_assessment validation with
           | good => fair
           | q => q
           end |}
    else validation in
  Ok validation.

End StatisticalEngine.

(** ** [bar_converter.py]: the comparison part of [BarChartConverter] *)

Module BarChartConverter.

Import StatisticalEngine.

(** The texts [_interpret_comparison] chooses from. *)
Inductive interpretation_text : Type :=
| Group1Higher          (* "显著差异：组1显著高于组2" *)
| Group1Lower           (* "显著差异：组1显著低于组2" *)
| SignificantSpansZero  (* "显著差异：但置信区间包含0" *)
| NotSignificant.       (* "无显著差异" *)

Record ComparisonResult : Type := mkComparisonResult {
  delta_mean : R;
  sd_diff : R;
  ci_lower : R;
  ci_upper : R;
  confidence_level : R;
  cohens_d : R;
  hedges_g : R;
  p_value : R;
  significant : bool;
  t_statistic : R;
  degrees_of_freedom : Z;
  interpretation : interpretation_text
}.

Definition _get_z_score (confidence_level : R) : R :=
  if Reqb confidence_level 0.90 then 1.645
  else if Reqb confidence_level 0.95 then 1.96
  else if Reqb confidence_level 0.99 then 2.576
  else 1.96.

Definition _calculate_p_value (t_stat : R) (df : Z) : R :=
  if (df <=? 0)%Z then 1.0
  else if Reqb t_stat 0 then 1.0
  else if Rltb 4 t_stat then 0.0001
  else if Rltb 3 t_stat then 0.01
  else if Rltb 2 t_stat then 0.05
  else if Rltb 1.5 t_stat then 0.1
  else 0.2.

Definition _interpret_comparison
    (delta_mean ci_lower ci_upper : R) (significant : bool)
  : interpretation_text :=
  if significant then
    if Rltb 0 ci_lower then Group1Higher
    else if Rltb ci_upper 0 then Group1Lower
    else SignificantSpansZero
  else NotSignificant.

Definition _calculate_group_comparison
    (group1_data group2_data : ConversionResult) (confidence_level : R)
  : result ComparisonResult :=
  let delta_mean := mean group1_data - mean group2_data in
  q1 <- py_div (sd group1_data ^ 2) (IZR (sample_size group1_data)) ;;
  q2 <- py_div (sd group2_data ^ 2) (IZR (sample_size group2_data)) ;;
  sd_diff <- math_sqrt (q1 + q2) ;;
  let z_score := _get_z_score confidence_level in
  let ci_lower := delta_mean - z_score * sd_diff in
  let ci_upper := delta_mean + z_score * sd_diff in
  pooled_var <-
    py_div
      (IZR (sample_size group1_data - 1) * sd group1_data ^ 2
       + IZR (sample_size group2_data - 1) * sd group2_data ^ 2)
      (IZR (sample_size group1_data + sample_size group2_data - 2)) ;;
  pooled_sd <- math_sqrt pooled_var ;;
  cohens_d <- (if Rltb 0 pooled_sd then py_div delta_mean pooled_sd
               else Ok 0) ;;
  c <- py_div 3
         (IZR (4 * (sample_size group1_data + sample_size group2_data) - 9)) ;;
  let correction_factor := 1 - c in
  let hedges_g := cohens_d * correction_factor in
  let df := (sample_size group1_data + sample_size group2_data - 2)%Z in
  t_stat <- (if Rltb 0 sd_diff then py_div delta_mean sd_diff else Ok 0) ;;
  let p_value := _calculate_p_value (Rabs t_stat) df in
  let alpha := 1 - confidence_level in
  let significant := Rltb p_value alpha in
  Ok {| delta_mean := py_round delta_mean 4;
        sd_diff := py_round sd_diff 4;
        ci_lower := py_round ci_lower 4;
        ci_upper := py_round ci_upper 4;
        confidence_level := confidence_level;
        cohens_d := py_round cohens_d 4;
        hedges_g := py_round hedges_g 4;
        p_value := py_round p_value 4;
        significant := significant;
        t_statistic := py_round t_stat 4;
        degrees_of_freedom := df;
        interpretation :=
          _interpret_comparison delta_mean ci_lower ci_upper significant |}.

End BarChartConverter.

(** ** Vocabulary of the statements *)

Section Vocabulary.

Import StatisticalEngine.

(** [rounded d v]: [v] is a multiple of [10^-d], that is a value
    [round(_, d)] leaves alone. *)
Definition rounded (d : nat) (v : R) : Prop := py_round v d = v.

(** One row of the conversion table: for the error-bar type [ty], the
    conversion returns normally and its record carries [se0] and [sd0]
    rounded to 6 places, the quality [q], the rounded multiplier [m] from
    the raw error bar to the unrounded SD, and the approximation flag. *)
Definition table_row
    (m_mean error_bar : R) (ty : string) (n : Z)
    (se0 sd0 q m : R) (approximation : bool) : Prop :=
  exists r,
    convert_to_mean_sd m_mean error_bar ty n = Ok r
    /\ mean r = py_round m_mean 6
    /\ se r = py_round se0 6
    /\ sd r = py_round sd0 6
    /\ quality_score r = q
    /\ conversion_factor r = py_round m 6
    /\ sd0 = error_bar * m
    /\ asymmetric_approximation r = approximation
    /\ rounded 6 (mean r)
    /\ rounded 6 (se r)
    /\ rounded 6 (sd r)
    /\ rounded 6 (conversion_factor r)
    /\ rounded 6 (quality_score r).

(** The closed set of error-bar types that have a conversion. *)
Definition convertible_types : list string :=
  [ "SD"; "SE"; "CI95"; "CI99"; "2SE"; "ASYMMETRIC" ]%string.

(** The type labels a detection can answer with. *)
Definition type_labels : list string :=
  [ "SD"; "SE"; "CI95"; "CI99"; "2SE"; "ASYMMETRIC"; "UNKNOWN" ]%string.

(** The types auto-detection chooses among. *)
Definition candidate_types : list string :=
  [ "SD"; "SE"; "CI95"; "CI99"; "2SE" ]%string.

(** [caught P m]: the computation [m] returns a value satisfying [P], or
    raises one of the two exceptions that the [try] blocks of the detector
    catch; it raises nothing else. *)
Definition caught {A} (P : A -> Prop) (m : result A) : Prop :=
  match m with
  | Ok a => P a
  | Raise (ValueError _) => True
  | Raise ZeroDivisionError => True
  | Raise _ => False
  end.

(** A confidence score. *)
Definition is_confidence (c : R) : Prop := 0 <= c <= 1.

(** An entry of the candidate list of auto-detection. *)
Definition good_candidate (c : string * R) : Prop :=
  str_in (fst c) candidate_types = true /\ is_confidence (snd c).

(** What auto-detection answers: a candidate type, or UNKNOWN. *)
Definition auto_answer (r : string * R) : Prop :=
  str_in (fst r) ("UNKNOWN"%string :: candidate_types) = true
  /\ is_confidence (snd r).

End Vocabulary.

Section ComparisonVocabulary.

Import StatisticalEngine BarChartConverter.

(** The record of a group given by its mean, its SD and its sample size
    (the other entries are those of an SD conversion). *)
Definition group_record (m s : R) (n : Z) : ConversionResult :=
  {| conversion :=
       {| mean := m; sd := s; se := s / sqrt (IZR n);
          conversion_factor := 1.0; conversion_formula := FormulaSD;
          quality_score := 1.0; asymmetric_approximation := false |};
     original_mean := m; original_error_bar := s;
     original_error_type := "SD"; sample_size := n;
     method_used := "direct_sd" |}.

Variables (a b : ConversionResult) (level : R).

(** The intermediate values of [_calculate_group_comparison], as they are
    when none of its divisions and square roots raises. *)
Definition sd_diff_of : R :=
  sqrt (sd a ^ 2 / IZR (sample_size a) + sd b ^ 2 / IZR (sample_size b)).

Definition pooled_sd_of : R :=
  sqrt ((IZR (sample_size a - 1) * sd a ^ 2
         + IZR (sample_size b - 1) * sd b ^ 2)
        / IZR (sample_size a + sample_size b - 2)).

Definition df_of : Z := (sample_size a + sample_size b - 2)%Z.

Definition cohens_d_of : R :=
  if Rltb 0 pooled_sd_of then (mean a - mean b) / pooled_sd_of else 0.

Definition t_stat_of : R :=
  if Rltb 0 sd_diff_of then (mean a - mean b) / sd_diff_of else 0.

Definition hedges_g_of : R :=
  cohens_d_of
  * (1 - 3 / IZR (4 * (sample_size a + sample_size b) - 9)).

Definition p_value_of : R := _calculate_p_value (Rabs t_stat_of) df_of.

(** The record [_calculate_group_comparison] builds from them. *)
Definition comparison_of : ComparisonResult :=
  let delta := mean a - mean b in
  let lower := delta - _get_z_score level * sd_diff_of in
  let upper := delta + _get_z_score level * sd_diff_of in
  let sig := Rltb p_value_of (1 - level) in
  {| delta_mean := py_round delta 4;
     sd_diff := py_round sd_diff_of 4;
     ci_lower := py_round lower 4;
     ci_upper := py_round upper 4;
     confidence_level := level;
     cohens_d := py_round cohens_d_of 4;
     hedges_g := py_round hedges_g_of 4;
     p_value := py_round p_value_of 4;
     significant := sig;
     t_statistic := py_round t_stat_of 4;
     degrees_of_freedom := df_of;
     interpretation := _interpret_comparison delta lower upper sig |}.

End ComparisonVocabulary.

(** ** [error_detector.py]: the ancillary methods of [ErrorBarDetector] *)

Module DetectorAncillary.

Import ErrorBarDetector.

Definition get_conversion_method (error_type : string) : string :=
  let methods : dict string :=
    [ ("SD", "direct_sd");
      ("SE", "se_to_sd");
      ("CI95", "ci95_to_sd");
      ("CI99", "ci99_to_sd");
      ("2SE", "2se_to_sd") ]%string in
  dict_get methods error_type "unknown"%string.

(** The reason texts of [validate_conversion_input]. *)
Inductive input_reason : Type :=
| SampleSizeNotPositive            (* "样本量必须大于0" *)
| ErrorBarNotPositive              (* "误差线数值必须大于0" *)
| UnsupportedType (error_type : string)
                                   (* f"不支持的误差线类型: {error_type}" *)
| MeanNearZero                     (* "均值接近0但误差线很大，请检查数据" *)
| ErrorBarTooLarge                 (* "误差线过大，可能存在数据错误" *)
| Passed.                          (* "验证通过" *)

Definition validate_conversion_input
    (mean error_bar : R) (error_type : string) (sample_size : Z)
  : bool * input_reason :=
  if (sample_size <=? 0)%Z then (false, SampleSizeNotPositive)
  else if Rleb error_bar 0 then (false, ErrorBarNotPositive)
  else if negb (dict_mem error_type supported_types)
          && negb (String.eqb error_type "UNKNOWN")
  then (false, UnsupportedType error_type)
  else if Rltb (Rabs mean) 1e-10 && Rltb 1 error_bar
  then (false, MeanNearZero)
  else if Rltb (Rabs mean * 5) error_bar then (false, ErrorBarTooLarge)
  else (true, Passed).

(** The advisory texts of [suggest_improvements]. *)
Inductive suggestion : Type :=
| IncreaseSampleSize   (* "样本量较小，建议增加样本量以提高统计功效" *)
| DeclareErrorType     (* "建议明确标注误差线类型（SE、SD、CI95等）" *)
| CheckLargeErrorBar   (* "误差线较大，建议检查数据质量或考虑数据转换" *)
| CheckLargeCv.        (* "变异系数较大，建议检查数据分布或考虑对数转换" *)

Definition suggest_improvements
    (mean error_bar : R) (error_type : string) (sample_size : Z)
  : result (list suggestion) :=
  let suggestions : list suggestion := [] in
  let suggestions :=
    if (sample_size <? 10)%Z then suggestions ++ [IncreaseSampleSize]
    else suggestions in
  let suggestions :=
    if String.eqb error_type "UNKNOWN" then suggestions ++ [DeclareErrorType]
    else suggestions in
  let suggestions :=
    if Rltb (Rabs mean) error_bar then suggestions ++ [CheckLargeErrorBar]
    else suggestions in
  suggestions <-
    (if String.eqb error_type "SD" && negb (Reqb mean 0) then
       q <- py_div error_bar mean ;;
       let cv := Rabs q in
       if Rltb 1.0 cv then Ok (suggestions ++ [CheckLargeCv])
       else Ok suggestions
     else Ok suggestions) ;;
  Ok suggestions.

End DetectorAncillary.

(** ** [statistical_engine.py]: intervals, effect sizes and batches *)

Module EngineAncillary.

Import StatisticalEngine.

Record ConfidenceInterval : Type := mkConfidenceInterval {
  ci_confidence_level : R;     (* 'confidence_level' *)
  margin_of_error : R;
  ci_lower : R;
  ci_upper : R;
  z_score : R
}.

Definition calculate_confidence_interval
    (mean sd : R) (sample_size : Z) (confidence_level : R)
  : result ConfidenceInterval :=
  s <- math_sqrt (IZR sample_size) ;;
  se <- py_div sd s ;;
  let z_score :=
    if Reqb confidence_level 0.90 then 1.645
    else if Reqb confidence_level 0.95 then 1.96
    else if Reqb confidence_level 0.99 then 2.576
    else 1.96 in
  let margin_of_error := z_score * se in
  let ci_lower := mean - margin_of_error in
  let ci_upper := mean + margin_of_error in
  Ok {| ci_confidence_level := confidence_level;
        margin_of_error := py_round margin_of_error 6;
        ci_lower := py_round ci_lower 6;
        ci_upper := py_round ci_upper 6;
        z_score := z_score |}.

(** The texts of [_interpret_effect_size]. *)
Inductive effect_text : Type :=
| NegligibleEffect   (* "微小效应" *)
| SmallEffect        (* "小效应" *)
| MediumEffect       (* "中等效应" *)
| LargeEffect.       (* "大效应" *)

Definition _interpret_effect_size (effect_size : R) : effect_text :=
  if Rltb effect_size 0.2 then NegligibleEffect
  else if Rltb effect_size 0.5 then SmallEffect
  else if Rltb effect_size 0.8 then MediumEffect
  else LargeEffect.

Record EffectSize : Type := mkEffectSize {
  cohens_d : R;
  hedges_g : R;
  glass_delta : R;
  pooled_sd : R;
  effect_size_interpretation : effect_text
}.

Definition calculate_effect_size
    (mean1 sd1 : R) (n1 : Z) (mean2 sd2 : R) (n2 : Z)
  : result EffectSize :=
  pooled_var <-
    py_div (IZR (n1 - 1) * sd1 ^ 2 + IZR (n2 - 1) * sd2 ^ 2)
           (IZR (n1 + n2 - 2)) ;;
  pooled_sd <- math_sqrt pooled_var ;;
  cohens_d <- (if Rltb 0 pooled_sd then py_div (mean1 - mean2) pooled_sd
               else Ok 0) ;;
  c <- py_div 3 (IZR (4 * (n1 + n2) - 9)) ;;
  let correction_factor := 1 - c in
  let hedges_g := cohens_d * correction_factor in
  glass_delta <- (if Rltb 0 sd2 then py_div (mean1 - mean2) sd2 else Ok 0) ;;
  Ok {| cohens_d := py_round cohens_d 6;
        hedges_g := py_round hedges_g 6;
        glass_delta := py_round glass_delta 6;
        pooled_sd := py_round pooled_sd 6;
        effect_size_interpretation :=
          _interpret_effect_size (Rabs cohens_d) |}.

(** An element of the [data_list] of [batch_convert]: a dictionary with
    the four keys the loop reads. *)
Record BatchInput : Type := mkBatchInput {
  in_mean : R;          (* data['mean'] *)
  in_error_bar : R;     (* data['error_bar'] *)
  in_error_type : string;   (* data['error_type'] *)
  in_sample_size : Z    (* data['sample_size'] *)
}.

(** An element of the [results] list of [batch_convert]: the conversion
    with its validation, or the record of a failed conversion. *)
Inductive BatchResult : Type :=
| Converted (result : ConversionResult) (validation : Validation)
| ConversionFailed (error : exn) (input_data : BatchInput).

Record QualityDistribution : Type := mkQualityDistribution {
  n_good : Z;   (* quality_distribution['good'] *)
  n_fair : Z;   (* quality_distribution['fair'] *)
  n_poor : Z    (* quality_distribution['poor'] *)
}.

Record BatchSummary : Type := mkBatchSummary {
  total_conversions : Z;
  successful_conversions : Z;
  failed_conversions : Z;
  conversion_types : dict Z;
  quality_distribution : QualityDistribution
}.

(** [d[k] = v]: the entry of an existing key is replaced in place, a new
    key is appended. *)
Fixpoint dict_set {V} (d : dict V) (k : string) (v : V) : dict V :=
  match d with
  | [] => [(k, v)]
  | (k', v') :: d' =>
      if String.eqb k k' then (k', v) :: d' else (k', v') :: dict_set d' k v
  end.

(** [quality_distribution[quality] += 1] *)
Definition count_quality (q : quality) (d : QualityDistribution)
  : QualityDistribution :=
  match q with
  | good => {| n_good := (n_good d + 1)%Z; n_fair := n_fair d;
               n_poor := n_poor d |}
  | fair => {| n_good := n_good d; n_fair := (n_fair d + 1)%Z;
               n_poor := n_poor d |}
  | poor => {| n_good := n_good d; n_fair := n_fair d;
               n_poor := (n_poor d + 1)%Z |}
  end.

(** One iteration of the loop of [batch_convert], on the state
    [(results, summary)]; [except Exception] catches whatever the [try]
    block raises. *)
Definition batch_step
    (state : list BatchResult * BatchSummary) (data : BatchInput)
  : list BatchResult * BatchSummary :=
  let '(results, summary) := state in
  let attempt :=
    result <- convert_to_mean_sd (in_mean data) (in_error_bar data)
                                 (in_error_type data) (in_sample_size data) ;;
    validation <- validate_conversion_result result ;;
    Ok (result, validation) in
  let '(results, summary) :=
    match attempt with
    | Ok (result, validation) =>
        (results ++ [Converted result validation],
         {| total_conversions := total_conversions summary;
            successful_conversions := (successful_conversions summary + 1)%Z;
            failed_conversions := failed_conversions summary;
            conversion_types :=
              dict_set (conversion_types summary) (in_error_type data)
                       (dict_get (conversion_types summary)
                                 (in_error_type data) 0 + 1)%Z;
            quality_distribution :=
              count_quality (quality_assessment validation)
                            (quality_distribution summary) |})
    | Raise e =>
        (results ++ [ConversionFailed e data],
         {| total_conversions := total_conversions summary;
            successful_conversions := successful_conversions summary;
            failed_conversions := (failed_conversions summary + 1)%Z;
            conversion_types := conversion_types summary;
            quality_distribution := quality_distribution summary |})
    end in
  (results,
   {| total_conversions := (total_conversions summary + 1)%Z;
      successful_conversions := successful_conversions summary;
      failed_conversions := failed_conversions summary;
      conversion_types := conversion_types summary;
      quality_distribution := quality_distribution summary |}).

Definition batch_convert (data_list : list BatchInput)
  : list BatchResult * BatchSummary :=
  fold_left batch_step data_list
    ([],
     {| total_conversions := 0%Z;
        successful_conversions := 0%Z;
        failed_conversions := 0%Z;
        conversion_types := [];
        quality_distribution :=
          {| n_good := 0%Z; n_fair := 0%Z; n_poor := 0%Z |} |}).

End EngineAncillary.

Section BatchVocabulary.

Import StatisticalEngine EngineAncillary.

(** The sum of the counters of a dictionary of counts. *)
Fixpoint dict_total (d : dict Z) : Z :=
  match d with
  | [] => 0%Z
  | (_, v) :: d' => (v + dict_total d')%Z
  end.

(** What the batch records for one input: the conversion with its
    validation when the conversion returns, the exception it raises
    otherwise. *)
Definition batch_outcome (data : BatchInput) (res : BatchResult) : Prop :=
  match convert_to_mean_sd (in_mean data) (in_error_bar data)
                           (in_error_type data) (in_sample_size data) with
  | Ok r =>
      exists v, validate_conversion_result r = Ok v /\ res = Converted r v
  | Raise e => res = ConversionFailed e data
  end.

(** The inputs [convert_to_mean_sd] returns a result for. *)
Definition convertible_input (ty : string) (n : Z) : Prop :=
  str_in ty convertible_types = true
  /\ ((0 < n)%Z \/ (n = 0%Z /\ ty <> "SD"%string)).

Definition is_converted (res : BatchResult) : bool :=
  match res with Converted _ _ => true | ConversionFailed _ _ => false end.

(** The relation that the loop of [batch_convert] keeps between the
    inputs it has consumed and its state. *)
Definition batch_invariant
    (consumed : list BatchInput)
    (state : list BatchResult * BatchSummary) : Prop :=
  let '(results, summary) := state in
  Forall2 batch_outcome consumed results
  /\ total_conversions summary = Z.of_nat (List.length consumed)
  /\ (successful_conversions summary + failed_conversions summary
      = total_conversions summary)%Z
  /\ successful_conversions summary
     = Z.of_nat (List.length (filter is_converted results))
  /\ (n_good (quality_distribution summary)
      + n_fair (quality_distribution summary)
      + n_poor (quality_distribution summary)
      = successful_conversions summary)%Z
  /\ dict_total (conversion_types summary) = successful_conversions summary.

End BatchVocabulary.

(** ** [bar_converter.py]: the comparison pass and the group quality *)

Module ComparisonPass.

Import StatisticalEngine BarChartConverter.

(** An element of [result_data['results'][group]]: the conversion result
    as [convert_bar_data] updates it. *)
Record IndicatorResult : Type := mkIndicatorResult {
  result :> ConversionResult;
  indicator_name : string;
  declared_type : string;
  detected_type : string;
  confidence : R;
  conversion_method : string
}.

(** A comparison as [perform_group_comparisons] updates it. *)
Record Comparison : Type := mkComparison {
  comparison :> ComparisonResult;
  comparison_id : string;
  group1_name : string;
  group2_name : string;
  comparison_indicator_name : string;   (* 'indicator_name' *)
  group1_data : IndicatorResult;
  group2_data : IndicatorResult
}.

Record ComparisonReport : Type := mkComparisonReport {
  comparisons : list Comparison;
  comparison_type : string;
  report_confidence_level : R;          (* 'confidence_level' *)
  total_comparisons : nat;
  significant_comparisons : nat
}.

(** The loop [for i, baseline in enumerate(baseline_results)], from index
    [i] on, appending to [comparisons]. *)
Fixpoint compare_from
    (i : nat) (baseline_results intervention_results : list IndicatorResult)
    (confidence_level : R) (comparisons : list Comparison)
  : Py.result (list Comparison) :=
  match baseline_results with
  | [] => Ok comparisons
  | baseline :: rest =>
      match nth_error intervention_results i with
      | Some intervention =>
          c <- _calculate_group_comparison intervention baseline
                                           confidence_level ;;
          compare_from (S i) rest intervention_results confidence_level
            (comparisons
             ++ [ {| comparison := c;
                     comparison_id :=
                       ("Intervention_vs_Baseline_"
                        ++ indicator_name baseline)%string;
                     group1_name := "Intervention";
                     group2_name := "Baseline";
                     comparison_indicator_name := indicator_name baseline;
                     group1_data := intervention;
                     group2_data := baseline |} ])
      | None =>
          compare_from (S i) rest intervention_results confidence_level
                       comparisons
      end
  end.

Definition perform_group_comparisons
    (results : dict (list IndicatorResult)) (comparison_type : string)
    (confidence_level : R)
  : Py.result ComparisonReport :=
  comparisons <-
    (if str_in comparison_type ["all"; "intervention-baseline"]%string then
       let baseline_results :=
         dict_get results "Baseline" (dict_get results "基线组" []) in
       let intervention_results :=
         dict_get results "Intervention" (dict_get results "干预组" []) in
       compare_from 0 baseline_results intervention_results
                    confidence_level []
     else Ok []) ;;
  Ok {| comparisons := comparisons;
        comparison_type := comparison_type;
        report_confidence_level := confidence_level;
        total_comparisons := List.length comparisons;
        significant_comparisons :=
          List.length (filter (fun c : Comparison => significant c) comparisons) |}.

(** The rows of [_create_revman_format]. *)
Record RevManRow : Type := mkRevManRow {
  Study_ID : string;
  Intervention_Mean : R;
  Intervention_SD : R;
  Intervention_N : Z;
  Control_Mean : R;
  Control_SD : R;
  Control_N : Z
}.

Fixpoint revman_from
    (i : nat) (baseline_results intervention_results : list IndicatorResult)
    (revman_data : list RevManRow) : list RevManRow :=
  match baseline_results with
  | [] => revman_data
  | baseline :: rest =>
      match nth_error intervention_results i with
      | Some intervention =>
          revman_from (S i) rest intervention_results
            (revman_data
             ++ [ {| Study_ID := indicator_name baseline;
                     Intervention_Mean := mean intervention;
                     Intervention_SD := sd intervention;
                     Intervention_N := sample_size intervention;
                     Control_Mean := mean baseline;
                     Control_SD := sd baseline;
                     Control_N := sample_size baseline |} ])
      | None => revman_from (S i) rest intervention_results revman_data
      end
  end.

Definition _create_revman_format (results : dict (list IndicatorResult))
  : list RevManRow :=
  let baseline_results :=
    dict_get results "Baseline" (dict_get results "基线组" []) in
  let intervention_results :=
    dict_get results "Intervention" (dict_get results "干预组" []) in
  revman_from 0 baseline_results intervention_results [].

(** The labels of [_assess_group_quality]. *)
Inductive group_quality : Type :=
| NoData          (* "无数据" *)
| Complete        (* "完整" *)
| Good            (* "良好" *)
| Fair            (* "一般" *)
| Incomplete.     (* "不完整" *)

(** [_assess_group_quality] reads the ['data_complete'] entry of each
    element of [indicators_analysis]; the list is given by these entries. *)
Definition _assess_group_quality (data_complete : list bool)
  : group_quality :=
  match data_complete with
  | [] => NoData
  | _ =>
      let complete_count :=
        List.length (filter (fun complete => complete) data_complete) in
      let total_count := List.length data_complete in
      if Nat.eqb complete_count total_count then Complete
      else if Rleb (INR total_count * 0.8) (INR complete_count) then Good
      else if Rleb (INR total_count * 0.5) (INR complete_count) then Fair
      else Incomplete
  end.

End ComparisonPass.

(** ** Vocabulary of the further statements *)

Section ScoreVocabulary.

(** The scores of the three assumptions, as the score methods compute them
    when their division does not raise. *)
Definition cv_in_range (m_mean sd : R) : bool :=
  negb (Reqb m_mean 0)
  && (Rleb 0.1 (Rabs (sd / m_mean)) && Rleb (Rabs (sd / m_mean)) 1.0).

Definition score_sd_of (m_mean sd se : R) : R :=
  Rmin (0.5
        + (if Rltb se sd then 0.2 else 0)
        + (if Rltb sd (Rabs m_mean * 1.5) then 0.2
           else if Rltb sd (Rabs m_mean * 2) then 0.1 else 0)
        + (if cv_in_range m_mean sd then 0.1 else 0)) 1.0.

Definition score_se_of (m_mean se sd : R) : R :=
  Rmin (0.5
        + (if Rltb se sd then 0.2 else 0)
        + (if Rltb se (Rabs m_mean * 0.5) then 0.2
           else if Rltb se (Rabs m_mean) then 0.1 else 0)
        + (if cv_in_range m_mean sd then 0.1 else 0)) 1.0.

Definition score_ci_of (m_mean ci_half_width se sd : R) : R :=
  Rmin (0.4
        + (if Rltb se ci_half_width && Rltb ci_half_width (Rabs m_mean)
           then 0.3
           else if Rltb ci_half_width (Rabs m_mean * 1.5) then 0.2 else 0)
        + (if cv_in_range m_mean sd then 0.2 else 0)) 0.8.

(** The candidate list of auto-detection for a positive error bar and a
    positive sample size. *)
Definition candidates_of (m_mean error_bar : R) (n : Z)
  : list (string * R) :=
  let s := sqrt (IZR n) in
  [ ("SD", score_sd_of m_mean error_bar (error_bar / s));
    ("SE", score_se_of m_mean error_bar (error_bar * s));
    ("CI95", score_ci_of m_mean error_bar (error_bar / 1.96)
                         (error_bar / 1.96 * s));
    ("CI99", score_ci_of m_mean error_bar (error_bar / 2.576)
                         (error_bar / 2.576 * s));
    ("2SE", score_se_of m_mean (error_bar / 2) (error_bar / 2 * s)) ]%string.

(** A string made of whitespace only. *)
Fixpoint all_space (s : string) : bool :=
  match s with
  | EmptyString => true
  | String c s' => isspace c && all_space s'
  end.

End ScoreVocabulary.

Section PassVocabulary.

Import StatisticalEngine BarChartConverter ComparisonPass.

(** The comparison [perform_group_comparisons] appends for a baseline
    record and the intervention record of the same position, when the
    comparison of the two returns. *)
Definition pair_comparison (level : R)
    (p : IndicatorResult * IndicatorResult) : Comparison :=
  let '(baseline, intervention) := p in
  {| comparison := comparison_of intervention baseline level;
     comparison_id :=
       ("Intervention_vs_Baseline_" ++ indicator_name baseline)%string;
     group1_name := "Intervention";
     group2_name := "Baseline";
     comparison_indicator_name := indicator_name baseline;
     group1_data := intervention;
     group2_data := baseline |}.

(** The row [_create_revman_format] appends for such a pair. *)
Definition pair_row (p : IndicatorResult * IndicatorResult) : RevManRow :=
  let '(baseline, intervention) := p in
  {| Study_ID := indicator_name baseline;
     Intervention_Mean := mean intervention;
     Intervention_SD := sd intervention;
     Intervention_N := sample_size intervention;
     Control_Mean := mean baseline;
     Control_SD := sd baseline;
     Control_N := sample_size baseline |}.

(** A pair of records that the comparison accepts. *)
Definition comparable (p : IndicatorResult * IndicatorResult) : Prop :=
  (0 < sample_size (fst p))%Z /\ (0 < sample_size (snd p))%Z
  /\ (2 < sample_size (snd p) + sample_size (fst p))%Z.

(** The two groups [perform_group_comparisons] and [_create_revman_format]
    read from the results. *)
Definition baseline_of (results : dict (list IndicatorResult))
  : list IndicatorResult :=
  dict_get results "Baseline" (dict_get results "基线组" []).

Definition intervention_of (results : dict (list IndicatorResult))
  : list IndicatorResult :=
  dict_get results "Intervention" (dict_get results "干预组" []).

End PassVocabulary.

(** * Properties of the numeric primitives *)

Lemma Rltb_true x y : Rltb x y = true <-> x < y.
Proof. unfold Rltb; destruct (Rlt_dec x y); split; intros; try easy. Qed.

Lemma Rltb_false x y : Rltb x y = false <-> y <= x.
Proof.
  unfold Rltb; destruct (Rlt_dec x y); split; intros; try easy; lra.
Qed.

Lemma Rleb_true x y : Rleb x y = true <-> x <= y.
Proof. unfold Rleb; destruct (Rle_dec x y); split; intros; try easy. Qed.

Lemma Rleb_false x y : Rleb x y = false <-> y < x.
Proof.
  unfold Rleb; destruct (Rle_dec x y); split; intros; try easy; lra.
Qed.

Lemma Reqb_true x y : Reqb x y = true <-> x = y.
Proof. unfold Reqb; destruct (Req_dec_T x y); split; intros; try easy. Qed.

Lemma Reqb_false x y : Reqb x y = false <-> x <> y.
Proof. unfold Reqb; destruct (Req_dec_T x y); split; intros; try easy. Qed.

Section Rounding.

Lemma pow10_pos (d : nat) : 0 < 10 ^ d.
Proof. apply pow_lt; lra. Qed.

Lemma round_half_even_IZR (k : Z) : round_half_even (IZR k) = k.
Proof.
  unfold round_half_even. rewrite ZfloorZ.
  replace (IZR k - IZR k) with 0 by lra.
  assert (H : Rltb 0 (1/2) = true) by (apply Rltb_true; lra).
  now rewrite H.
Qed.

Lemma round_half_even_err (x : R) :
  Rabs (IZR (round_half_even x) - x) <= 1/2.
Proof.
  unfold round_half_even.
  pose proof (Zfloor_bound x) as [Hlo Hhi].
  destruct (Rltb (x - IZR (Zfloor x)) (1/2)) eqn:E1.
  - apply Rltb_true in E1. apply Rabs_le. lra.
  - apply Rltb_false in E1.
    destruct (Rltb (1/2) (x - IZR (Zfloor x))) eqn:E2.
    + rewrite plus_IZR. apply Rabs_le. simpl. lra.
    + apply Rltb_false in E2.
      destruct (Z.even (Zfloor x)).
      * apply Rabs_le. lra.
      * rewrite plus_IZR. apply Rabs_le. simpl. lra.
Qed.

Lemma Zfloor_opp_frac (x : R) :
  x <> IZR (Zfloor x) -> Zfloor (- x) = (- Zfloor x - 1)%Z.
Proof.
  intros Hne. pose proof (Zfloor_bound x) as [Hlo Hhi].
  apply Zfloor_eq. rewrite minus_IZR, opp_IZR. simpl. lra.
Qed.

Lemma round_half_even_opp (x : R) :
  round_half_even (- x) = (- round_half_even x)%Z.
Proof.
  destruct (Req_dec_T x (IZR (Zfloor x))) as [Hint | Hfrac].
  - rewrite Hint, <- opp_IZR, !round_half_even_IZR. reflexivity.
  - unfold round_half_even.
    rewrite (Zfloor_opp_frac x Hfrac).
    pose proof (Zfloor_bound x) as [Hlo Hhi].
    set (f := Zfloor x) in *.
    rewrite minus_IZR, opp_IZR. simpl IZR.
    destruct (Rltb (x - IZR f) (1/2)) eqn:E1;
      [apply Rltb_true in E1 | apply Rltb_false in E1].
    + assert (A : Rltb (- x - (- IZR f - 1)) (1/2) = false)
        by (apply Rltb_false; lra).
      assert (B : Rltb (1/2) (- x - (- IZR f - 1)) = true)
        by (apply Rltb_true; lra).
      rewrite A, B. lia.
    + destruct (Rltb (1/2) (x - IZR f)) eqn:E2;
        [apply Rltb_true in E2 | apply Rltb_false in E2].
      * assert (A : Rltb (- x - (- IZR f - 1)) (1/2) = true)
          by (apply Rltb_true; lra).
        rewrite A. lia.
      * assert (A : Rltb (- x - (- IZR f - 1)) (1/2) = false)
          by (apply Rltb_false; lra).
        assert (B : Rltb (1/2) (- x - (- IZR f - 1)) = false)
          by (apply Rltb_false; lra).
        rewrite A, B.
        replace (- f - 1)%Z with (- (f + 1))%Z by lia.
        rewrite Z.even_opp.
        replace (f + 1)%Z with (Z.succ f) by lia.
        rewrite Z.even_succ, <- Z.negb_even.
        destruct (Z.even f); simpl; lia.
Qed.

Lemma py_round_exact (k : Z) (d : nat) :
  py_round (IZR k / 10 ^ d) d = IZR k / 10 ^ d.
Proof.
  unfold py_round. pose proof (pow10_pos d).
  replace (IZR k / 10 ^ d * 10 ^ d) with (IZR k) by (field; lra).
  now rewrite round_half_even_IZR.
Qed.

Lemma py_round_opp (x : R) (d : nat) : py_round (- x) d = - py_round x d.
Proof.
  unfold py_round.
  replace (- x * 10 ^ d) with (- (x * 10 ^ d)) by lra.
  rewrite round_half_even_opp, opp_IZR.
  pose proof (pow10_pos d). field; lra.
Qed.

Lemma py_round_err (x : R) (d : nat) :
  Rabs (py_round x d - x) <= 1/2 / 10 ^ d.
Proof.
  unfold py_round. pose proof (pow10_pos d) as Hp.
  replace (IZR (round_half_even (x * 10 ^ d)) / 10 ^ d - x)
    with ((IZR (round_half_even (x * 10 ^ d)) - x * 10 ^ d) / 10 ^ d)
    by (field; lra).
  unfold Rdiv at 1. rewrite Rabs_mult, (Rabs_right (/ 10 ^ d)).
  - apply Rmult_le_compat_r.
    + left. now apply Rinv_0_lt_compat.
    + apply round_half_even_err.
  - apply Rle_ge. left. now apply Rinv_0_lt_compat.
Qed.

Lemma py_round_idem (x : R) (d : nat) :
  py_round (py_round x d) d = py_round x d.
Proof. unfold py_round at 2 3. apply py_round_exact. Qed.

Lemma py_round_0 (d : nat) : py_round 0 d = 0.
Proof.
  replace 0 with (IZR 0 / 10 ^ d) at 1 by (unfold Rdiv; simpl; lra).
  rewrite py_round_exact. unfold Rdiv; simpl; lra.
Qed.

End Rounding.

(** * Properties of the Python primitives *)

Section Primitives.

Lemma math_sqrt_ok (x : R) : 0 <= x -> math_sqrt x = Ok (sqrt x).
Proof.
  intros H. unfold math_sqrt.
  assert (E : Rltb x 0 = false) by (apply Rltb_false; exact H).
  now rewrite E.
Qed.

Lemma math_sqrt_neg (x : R) :
  x < 0 -> math_sqrt x = Raise (ValueError "math domain error").
Proof.
  intros H. unfold math_sqrt.
  assert (E : Rltb x 0 = true) by (apply Rltb_true; exact H).
  now rewrite E.
Qed.

Lemma py_div_ok (x y : R) : y <> 0 -> py_div x y = Ok (x / y).
Proof.
  intros H. unfold py_div.
  assert (E : Reqb y 0 = false) by (apply Reqb_false; exact H).
  now rewrite E.
Qed.

Lemma py_div_zero (x : R) : py_div x 0 = Raise ZeroDivisionError.
Proof.
  unfold py_div.
  assert (E : Reqb 0 0 = true) by (now apply Reqb_true).
  now rewrite E.
Qed.

Lemma Rabs_le_inv (x a : R) : Rabs x <= a -> - a <= x <= a.
Proof. unfold Rabs. destruct (Rcase_abs x); lra. Qed.

Lemma IZR_pos (n : Z) : (0 < n)%Z -> 1 <= IZR n.
Proof. intros H. apply IZR_le. lia. Qed.

Lemma sqrt_IZR_ge_1 (n : Z) : (0 < n)%Z -> 1 <= sqrt (IZR n).
Proof.
  intros H. rewrite <- sqrt_1. apply sqrt_le_1_alt. now apply IZR_pos.
Qed.

Lemma math_sqrt_IZR (n : Z) :
  (0 < n)%Z -> math_sqrt (IZR n) = Ok (sqrt (IZR n)).
Proof.
  intros H. apply math_sqrt_ok. pose proof (IZR_pos n H). lra.
Qed.

Lemma rounded_py_round (x : R) (d : nat) : rounded d (py_round x d).
Proof. apply py_round_idem. Qed.

Lemma py_round_decimal (k : Z) (d : nat) (x v : R) :
  x = IZR k / 10 ^ d -> v = x -> py_round x d = v.
Proof. intros -> ->. apply py_round_exact. Qed.

Lemma rounded_decimal (k : Z) (d : nat) (v : R) :
  v = IZR k / 10 ^ d -> rounded d v.
Proof. intros H. now apply (py_round_decimal k). Qed.

End Primitives.

(** Evaluates the error monad on the arithmetic of a positive sample size. *)
Ltac py_eval Hn :=
  repeat first
    [ rewrite (math_sqrt_IZR _ Hn)
    | rewrite py_div_ok by lra
    | progress cbn [bind ret] ].

(** * The conversion table *)

Import StatisticalEngine.

Section ConversionTable.

Variables (m_mean error_bar : R) (n : Z).
Hypothesis Hn : (0 < n)%Z.

Let s := sqrt (IZR n).

Lemma sqrt_n_ne_0 : sqrt (IZR n) <> 0.
Proof. pose proof (sqrt_IZR_ge_1 n Hn). lra. Qed.

(** Unfolds the dispatch on a literal type and runs the conversion. *)
Ltac run_row f :=
  pose proof sqrt_n_ne_0;
  unfold table_row, convert_to_mean_sd;
  cbn [dict_lookup conversion_methods];
  cbn -[f]; unfold f; py_eval Hn;
  eexists; split; [reflexivity|]; cbn;
  repeat split; try apply rounded_py_round; subst s;
  try (unfold Rdiv; lra);
  try (symmetry; apply (py_round_decimal 1000000 6); lra).

Lemma row_SD :
  table_row m_mean error_bar "SD" n (error_bar / s) error_bar 1.00 1 false.
Proof.
  run_row _convert_from_sd;
    apply (rounded_decimal 1000000 6); lra.
Qed.

Lemma row_SE :
  table_row m_mean error_bar "SE" n error_bar (error_bar * s) 0.95 s false.
Proof.
  run_row _convert_from_se. apply (rounded_decimal 950000 6); lra.
Qed.

Lemma row_CI95 :
  table_row m_mean error_bar "CI95" n
            (error_bar / 1.96) (error_bar / 1.96 * s) 0.85 (s / 1.96) false.
Proof.
  run_row _convert_from_ci95. apply (rounded_decimal 850000 6); lra.
Qed.

Lemma row_CI99 :
  table_row m_mean error_bar "CI99" n
            (error_bar / 2.576) (error_bar / 2.576 * s) 0.85 (s / 2.576)
            false.
Proof.
  run_row _convert_from_ci99. apply (rounded_decimal 850000 6); lra.
Qed.

Lemma row_2SE :
  table_row m_mean error_bar "2SE" n
            (error_bar / 2) (error_bar / 2 * s) 0.90 (s / 2) false.
Proof.
  run_row _convert_from_2se. apply (rounded_decimal 900000 6); lra.
Qed.

Lemma row_ASYMMETRIC :
  table_row m_mean error_bar "ASYMMETRIC" n
            error_bar (error_bar * s) 0.75 s true.
Proof.
  run_row _convert_from_asymmetric. apply (rounded_decimal 750000 6); lra.
Qed.

End ConversionTable.

Lemma sqrt_25 : sqrt 25 = 5.
Proof. replace 25 with (5 * 5) by lra. apply sqrt_square. lra. Qed.

(** C1.  For every mean, every error bar and every positive sample size
    [n], the conversion of each of the six types returns the record of the
    formula table: SD gives [se = error_bar/sqrt n], [sd = error_bar],
    quality 1.00; SE gives [se = error_bar], [sd = error_bar*sqrt n],
    quality 0.95; CI95 and CI99 give [se = error_bar/1.96] and
    [error_bar/2.576] with [sd = se*sqrt n], quality 0.85; 2SE gives
    [se = error_bar/2] with [sd = se*sqrt n], quality 0.90; ASYMMETRIC gives
    [se = error_bar], [sd = error_bar*sqrt n], quality 0.75 and the
    approximation flag.  The mean, SD, SE and conversion factor of the
    record are rounded to 6 places, and the conversion factor is the
    (rounded) multiplier from the raw error bar to the SD.  In particular
    the conversion of (10, 0.5, SE, 25) has [sd = 2.5]. *)
Theorem C1_convert_formula_table (m_mean error_bar : R) (n : Z) :
  (0 < n)%Z ->
  let s := sqrt (IZR n) in
  table_row m_mean error_bar "SD" n (error_bar / s) error_bar 1.00 1 false
  /\ table_row m_mean error_bar "SE" n
               error_bar (error_bar * s) 0.95 s false
  /\ table_row m_mean error_bar "CI95" n
               (error_bar / 1.96) (error_bar / 1.96 * s) 0.85 (s / 1.96)
               false
  /\ table_row m_mean error_bar "CI99" n
               (error_bar / 2.576) (error_bar / 2.576 * s) 0.85 (s / 2.576)
               false
  /\ table_row m_mean error_bar "2SE" n
               (error_bar / 2) (error_bar / 2 * s) 0.90 (s / 2) false
  /\ table_row m_mean error_bar "ASYMMETRIC" n
               error_bar (error_bar * s) 0.75 s true
  /\ (exists r,
        convert_to_mean_sd 10 0.5 "SE" 25 = Ok r
        /\ sd r = 2.5).
Proof.
  intros Hn s.
  split; [now apply row_SD|].
  split; [now apply row_SE|].
  split; [now apply row_CI95|].
  split; [now apply row_CI99|].
  split; [now apply row_2SE|].
  split; [now apply row_ASYMMETRIC|].
  destruct (row_SE 10 0.5 25 eq_refl) as (r & Hr & _ & _ & Hsd & _).
  exists r. split; [exact Hr|].
  rewrite Hsd, sqrt_25. apply (py_round_decimal 2500000 6); lra.
Qed.

Lemma C1_convert_formula_table_witness :
  (0 < 25)%Z
  /\ exists r,
       convert_to_mean_sd 10 0.5 "SE" 25 = Ok r
       /\ sd r = py_round (0.5 * sqrt 25) 6.
Proof.
  split; [reflexivity|].
  destruct (C1_convert_formula_table 10 0.5 25 eq_refl)
    as (_ & (r & Hr & _ & _ & Hsd & _) & _).
  exists r. split; [exact Hr | exact Hsd].
Defined.

(** * Unsupported types *)

Section UnsupportedType.

Variables (m_mean error_bar : R) (n : Z).

Lemma lookup_convertible (ty : string) :
  str_in ty convertible_types = true ->
  exists f,
    dict_lookup conversion_methods ty = Some f
    /\ In f [ _convert_from_sd; _convert_from_se; _convert_from_ci95;
              _convert_from_ci99; _convert_from_2se;
              _convert_from_asymmetric ].
Proof.
  unfold str_in, convertible_types, conversion_methods.
  cbn [existsb dict_lookup].
  repeat match goal with
         | |- context [String.eqb ty ?k] => destruct (String.eqb ty k)
         end;
    cbn; intros H; try discriminate; eexists; (split; [reflexivity|]);
    cbn; tauto.
Qed.

Lemma lookup_not_convertible (ty : string) :
  str_in ty convertible_types = false ->
  dict_lookup conversion_methods ty = None.
Proof.
  unfold str_in, convertible_types, conversion_methods.
  cbn [existsb dict_lookup].
  repeat match goal with
         | |- context [String.eqb ty ?k] => destruct (String.eqb ty k)
         end;
    cbn; intros H; try discriminate; reflexivity.
Qed.

(** A conversion method never raises the unsupported-type error itself:
    what its arithmetic can raise is the domain error of [math.sqrt] or a
    division by zero. *)
Lemma method_error (f : R -> R -> Z -> result Conversion) (ty : string) :
  In f [ _convert_from_sd; _convert_from_se; _convert_from_ci95;
         _convert_from_ci99; _convert_from_2se; _convert_from_asymmetric ] ->
  f m_mean error_bar n <> Raise (ValueError (unsupported_type_message ty)).
Proof.
  cbn [In].
  intros [<- | [<- | [<- | [<- | [<- | [<- | []]]]]]];
    unfold _convert_from_sd, _convert_from_se, _convert_from_ci95,
           _convert_from_ci99, _convert_from_2se, _convert_from_asymmetric,
           math_sqrt, py_div, unsupported_type_message;
    repeat (match goal with
            | |- context [Rltb ?a ?b] => destruct (Rltb a b)
            | |- context [Reqb ?a ?b] => destruct (Reqb a b)
            end; cbn [bind]);
    cbn; discriminate.
Qed.

Lemma method_returns (f : R -> R -> Z -> result Conversion) :
  (0 < n)%Z ->
  In f [ _convert_from_sd; _convert_from_se; _convert_from_ci95;
         _convert_from_ci99; _convert_from_2se; _convert_from_asymmetric ] ->
  returns (f m_mean error_bar n).
Proof.
  intros Hn. pose proof (sqrt_n_ne_0 n Hn). cbn [In].
  intros [<- | [<- | [<- | [<- | [<- | [<- | []]]]]]];
    unfold _convert_from_sd, _convert_from_se, _convert_from_ci95,
           _convert_from_ci99, _convert_from_2se, _convert_from_asymmetric;
    py_eval Hn; eexists; reflexivity.
Qed.

End UnsupportedType.

(** C5.  The conversion raises the unsupported-type error, whose text
    carries the type as it was passed, exactly when the type is outside
    the closed set SD, SE, CI95, CI99, 2SE, ASYMMETRIC; it does so for
    UNKNOWN and for the unresolved alias SEM; and for a type of the set and
    a positive sample size it returns a result. *)
Theorem C5_unsupported_type_iff
    (m_mean error_bar : R) (ty : string) (n : Z) :
  (convert_to_mean_sd m_mean error_bar ty n
     = Raise (ValueError (unsupported_type_message ty))
   <-> str_in ty convertible_types = false)
  /\ (str_in ty convertible_types = true -> (0 < n)%Z ->
      returns (convert_to_mean_sd m_mean error_bar ty n))
  /\ convert_to_mean_sd m_mean error_bar "UNKNOWN" n
       = Raise (ValueError (unsupported_type_message "UNKNOWN"))
  /\ convert_to_mean_sd m_mean error_bar "SEM" n
       = Raise (ValueError (unsupported_type_message "SEM")).
Proof.
  split; [split|split; [|split; reflexivity]].
  - intros Hraise.
    destruct (str_in ty convertible_types) eqn:E; [exfalso|reflexivity].
    destruct (lookup_convertible ty E) as (f & Hf & Hin).
    unfold convert_to_mean_sd in Hraise. rewrite Hf in Hraise.
    pose proof (method_error m_mean error_bar n f ty Hin) as Hne.
    destruct (f m_mean error_bar n); cbn [bind] in Hraise;
      [discriminate | apply Hne; congruence].
  - intros Hout. unfold convert_to_mean_sd.
    now rewrite (lookup_not_convertible ty Hout).
  - intros Hin Hn.
    destruct (lookup_convertible ty Hin) as (f & Hf & Hinf).
    destruct (method_returns m_mean error_bar n f Hn Hinf) as (c & Hc).
    unfold convert_to_mean_sd. rewrite Hf, Hc. eexists; reflexivity.
Qed.

Lemma C5_unsupported_type_iff_witness :
  returns (convert_to_mean_sd 10 0.5 "CI95" 25)
  /\ convert_to_mean_sd 10 0.5 "sd" 25
       = Raise (ValueError (unsupported_type_message "sd")).
Proof.
  destruct (C5_unsupported_type_iff 10 0.5 "CI95" 25) as (_ & Hret & _).
  destruct (C5_unsupported_type_iff 10 0.5 "sd" 25) as ((_ & Hraise) & _).
  split.
  - apply Hret; reflexivity.
  - apply Hraise; reflexivity.
Defined.

(** * Validation of conversion results *)

Section Validation.

(** The SE that [validate_conversion_result] expects from the SD. *)
Let expected_se (r : ConversionResult) : R :=
  if (0 <? sample_size r)%Z then sd r / sqrt (IZR (sample_size r)) else 0.

Lemma validate_conversion_result_spec (r : ConversionResult) :
  exists v,
    validate_conversion_result r = Ok v
    /\ is_valid v = negb (Rleb (sd r) 0 || Rleb (se r) 0)
    /\ (In SeSdInconsistent (warnings v)
        <-> 0.001 < Rabs (se r - expected_se r)).
Proof.
  unfold validate_conversion_result, expected_se.
  destruct (0 <? sample_size r)%Z eqn:En.
  - apply Z.ltb_lt in En. pose proof (sqrt_n_ne_0 _ En) as Hs.
    rewrite (math_sqrt_IZR _ En). cbn [bind]. rewrite (py_div_ok _ _ Hs).
    cbn [bind].
    destruct (Rltb 0.001 (Rabs (se r - sd r / sqrt (IZR (sample_size r)))))
      eqn:Ew;
      [ pose proof (proj1 (Rltb_true _ _) Ew) as Hw
      | pose proof (proj1 (Rltb_false _ _) Ew) as Hw ];
      destruct (Rleb (sd r) 0), (Rleb (se r) 0);
      destruct (Reqb (mean r) 0) eqn:Em; cbn [negb bind];
      try (apply Reqb_false in Em; rewrite (py_div_ok _ _ Em); cbn [bind];
           destruct (Rltb 2.0 (Rabs (sd r / mean r)));
           [|destruct (Rltb 1.0 (Rabs (sd r / mean r)))]);
      destruct (sample_size r <? 10)%Z;
      eexists; (split; [reflexivity|]); cbn;
      (split; [reflexivity|]); split; intros H; try lra; try tauto;
      intuition discriminate.
  - cbn [bind].
    destruct (Rltb 0.001 (Rabs (se r - 0))) eqn:Ew;
      [ pose proof (proj1 (Rltb_true _ _) Ew) as Hw
      | pose proof (proj1 (Rltb_false _ _) Ew) as Hw ];
      destruct (Rleb (sd r) 0), (Rleb (se r) 0);
      destruct (Reqb (mean r) 0) eqn:Em; cbn [negb bind];
      try (apply Reqb_false in Em; rewrite (py_div_ok _ _ Em); cbn [bind];
           destruct (Rltb 2.0 (Rabs (sd r / mean r)));
           [|destruct (Rltb 1.0 (Rabs (sd r / mean r)))]);
      destruct (sample_size r <? 10)%Z;
      eexists; (split; [reflexivity|]); cbn;
      (split; [reflexivity|]); split; intros H; try lra; try tauto;
      intuition discriminate.
Qed.

(** Rounding both members of a pair [a], [a * s] to 6 places keeps the
    first within 0.001 of the second divided by [s], for [s >= 1]. *)
Lemma rounded_pair_consistent (a s : R) :
  1 <= s ->
  Rabs (py_round a 6 - py_round (a * s) 6 / s) <= 0.001.
Proof.
  intros Hs.
  pose proof (py_round_err a 6) as H1.
  pose proof (py_round_err (a * s) 6) as H2.
  set (x := py_round a 6) in *. set (y := py_round (a * s) 6) in *.
  apply Rabs_le_inv in H1. apply Rabs_le_inv in H2.
  assert (Hp : 10 ^ 6 = 1000000) by (simpl; lra).
  rewrite Hp in H1, H2.
  assert (Hinv : 0 < / s <= 1).
  { split; [apply Rinv_0_lt_compat; lra|].
    rewrite <- Rinv_1. apply Rinv_le_contravar; lra. }
  replace (x - y / s) with ((x - a) - (y - a * s) * / s) by (field; lra).
  apply Rabs_le. split; nra.
Qed.

End Validation.

Lemma str_in_convertible_cases (ty : string) :
  str_in ty convertible_types = true ->
  ty = "SD"%string \/ ty = "SE"%string \/ ty = "CI95"%string
  \/ ty = "CI99"%string \/ ty = "2SE"%string \/ ty = "ASYMMETRIC"%string.
Proof.
  unfold str_in, convertible_types. cbn [existsb].
  rewrite !orb_true_iff, !String.eqb_eq. intuition discriminate.
Qed.

Lemma convert_to_mean_sd_metadata
    (m_mean error_bar : R) (ty : string) (n : Z) (r : ConversionResult) :
  convert_to_mean_sd m_mean error_bar ty n = Ok r ->
  original_mean r = m_mean /\ original_error_bar r = error_bar
  /\ original_error_type r = ty /\ sample_size r = n
  /\ method_used r = _get_method_name ty.
Proof.
  unfold convert_to_mean_sd.
  destruct (dict_lookup conversion_methods ty) as [f|]; [|discriminate].
  destruct (f m_mean error_bar n); cbn [bind]; [|discriminate].
  intros [= <-]. cbn. repeat split.
Qed.

(** Every conversion yields [se = round6 a] and [sd = round6 (a * sqrt n)]
    for the unrounded SE [a] of its row. *)
Lemma convert_se_sd (m_mean error_bar : R) (ty : string) (n : Z) :
  str_in ty convertible_types = true -> (0 < n)%Z ->
  exists r a,
    convert_to_mean_sd m_mean error_bar ty n = Ok r
    /\ se r = py_round a 6 /\ sd r = py_round (a * sqrt (IZR n)) 6.
Proof.
  intros Hin Hn. pose proof (sqrt_n_ne_0 n Hn) as Hs.
  destruct (str_in_convertible_cases ty Hin)
    as [-> | [-> | [-> | [-> | [-> | ->]]]]].
  - destruct (row_SD m_mean error_bar n Hn) as (r & Hr & _ & Hse & Hsd & _).
    exists r, (error_bar / sqrt (IZR n)). repeat split; try assumption.
    rewrite Hsd. f_equal. field. exact Hs.
  - destruct (row_SE m_mean error_bar n Hn) as (r & Hr & _ & Hse & Hsd & _).
    exists r, error_bar. auto.
  - destruct (row_CI95 m_mean error_bar n Hn)
      as (r & Hr & _ & Hse & Hsd & _).
    exists r, (error_bar / 1.96). auto.
  - destruct (row_CI99 m_mean error_bar n Hn)
      as (r & Hr & _ & Hse & Hsd & _).
    exists r, (error_bar / 2.576). auto.
  - destruct (row_2SE m_mean error_bar n Hn) as (r & Hr & _ & Hse & Hsd & _).
    exists r, (error_bar / 2). auto.
  - destruct (row_ASYMMETRIC m_mean error_bar n Hn)
      as (r & Hr & _ & Hse & Hsd & _).
    exists r, error_bar. auto.
Qed.

(** C7.  Every result the conversion produces for a supported type and a
    positive sample size [n] (whatever the mean and the error bar, so for
    every positive error bar) has [|se - sd/sqrt n| <= 0.001] after the
    rounding to 6 places, and the validation of that result raises no SE/SD
    inconsistency warning; and the validation of any result marks it invalid
    exactly when [sd <= 0] or [se <= 0]. *)
Theorem C7_se_sd_invariant
    (m_mean error_bar : R) (ty : string) (n : Z) :
  str_in ty convertible_types = true -> (0 < n)%Z ->
  (exists r v,
     convert_to_mean_sd m_mean error_bar ty n = Ok r
     /\ Rabs (se r - sd r / sqrt (IZR n)) <= 0.001
     /\ validate_conversion_result r = Ok v
     /\ ~ In SeSdInconsistent (warnings v))
  /\ (forall r : ConversionResult,
        exists v,
          validate_conversion_result r = Ok v
          /\ (is_valid v = false <-> sd r <= 0 \/ se r <= 0)).
Proof.
  intros Hin Hn. split.
  - destruct (convert_se_sd m_mean error_bar ty n Hin Hn)
      as (r & a & Hr & Hse & Hsd).
    destruct (convert_to_mean_sd_metadata _ _ _ _ _ Hr)
      as (_ & _ & _ & Hsize & _).
    assert (Hinv : Rabs (se r - sd r / sqrt (IZR n)) <= 0.001).
    { rewrite Hse, Hsd. apply rounded_pair_consistent.
      now apply sqrt_IZR_ge_1. }
    destruct (validate_conversion_result_spec r) as (v & Hv & _ & Hw).
    exists r, v. repeat split; try assumption.
    intros Hwarn. apply Hw in Hwarn. rewrite Hsize in Hwarn.
    apply Z.ltb_lt in Hn. rewrite Hn in Hwarn. lra.
  - intros r.
    destruct (validate_conversion_result_spec r) as (v & Hv & Hvalid & _).
    exists v. split; [exact Hv|]. rewrite Hvalid.
    rewrite negb_false_iff, orb_true_iff, !Rleb_true. tauto.
Qed.

Lemma C7_se_sd_invariant_witness :
  exists r v,
    convert_to_mean_sd 10 2 "SD" 30 = Ok r
    /\ Rabs (se r - sd r / sqrt (IZR 30)) <= 0.001
    /\ validate_conversion_result r = Ok v
    /\ ~ In SeSdInconsistent (warnings v).
Proof.
  exact (proj1 (C7_se_sd_invariant 10 2 "SD" 30 eq_refl eq_refl)).
Defined.

(** * The detector *)

Import ErrorBarDetector.

Section Caught.

Context {A B : Type}.

Lemma caught_bind (Q : A -> Prop) (P : B -> Prop)
    (m : result A) (k : A -> result B) :
  caught Q m -> (forall a, Q a -> caught P (k a)) -> caught P (bind m k).
Proof.
  destruct m as [a | e]; cbn; [intros Ha Hk; now apply Hk|].
  destruct e; cbn; tauto.
Qed.

Lemma caught_weaken (P Q : A -> Prop) (m : result A) :
  (forall a, P a -> Q a) -> caught P m -> caught Q m.
Proof. intros H. destruct m as [a | e]; cbn; [apply H | tauto]. Qed.

Lemma try_except_caught (P : A -> Prop) (m : result A) (h : A) :
  caught P m -> P h ->
  exists a, try_except_value_zerodiv m (Ok h) = Ok a /\ P a.
Proof.
  destruct m as [a | e]; cbn.
  - intros Ha _. now exists a.
  - destruct e; intros He Hh; try contradiction; now exists h.
Qed.

End Caught.

Lemma caught_math_sqrt (x : R) : caught (fun s => s = sqrt x) (math_sqrt x).
Proof. unfold math_sqrt. now destruct (Rltb x 0). Qed.

Lemma caught_py_div (x y : R) : caught (fun q => q = x / y) (py_div x y).
Proof. unfold py_div. now destruct (Reqb y 0). Qed.

(** Splits a sequence of binds whose heads are [math.sqrt] and [/]. *)
Ltac caught_step :=
  match goal with
  | |- caught _ (bind (math_sqrt _) _) =>
      eapply caught_bind; [apply caught_math_sqrt | intros ? ->]
  | |- caught _ (bind (py_div _ _) _) =>
      eapply caught_bind; [apply caught_py_div | intros ? ->]
  end.

Section Scores.

Variables (m_mean a b c : R).

(** Decides every comparison of the goal, recording its outcome. *)
Ltac split_tests :=
  repeat match goal with
         | |- context [Rltb ?x ?y] =>
             let E := fresh "E" in
             destruct (Rltb x y) eqn:E;
             [apply Rltb_true in E | apply Rltb_false in E]
         | |- context [Rleb ?x ?y] =>
             let E := fresh "E" in
             destruct (Rleb x y) eqn:E;
             [apply Rleb_true in E | apply Rleb_false in E]
         | |- context [Reqb ?x ?y] =>
             let E := fresh "E" in
             destruct (Reqb x y) eqn:E;
             [apply Reqb_true in E | apply Reqb_false in E]
         end.

Lemma Rmin_confidence (s cap : R) :
  0 <= s -> 0 <= cap <= 1 -> is_confidence (Rmin s cap).
Proof.
  intros Hs Hc. unfold is_confidence, Rmin.
  destruct (Rle_dec s cap); lra.
Qed.

Lemma _score_sd_assumption_confidence :
  caught is_confidence (_score_sd_assumption m_mean a b).
Proof.
  unfold _score_sd_assumption.
  eapply caught_bind with (Q := fun s => 0 <= s).
  - destruct (Reqb m_mean 0); cbn [negb];
      [|caught_step]; split_tests; cbn; lra.
  - intros s Hs. cbn. apply Rmin_confidence; lra.
Qed.

Lemma _score_se_assumption_confidence :
  caught is_confidence (_score_se_assumption m_mean a b).
Proof.
  unfold _score_se_assumption.
  eapply caught_bind with (Q := fun s => 0 <= s).
  - destruct (Reqb m_mean 0); cbn [negb];
      [|caught_step]; split_tests; cbn; lra.
  - intros s Hs. cbn. apply Rmin_confidence; lra.
Qed.

Lemma _score_ci_assumption_confidence :
  caught is_confidence (_score_ci_assumption m_mean a b c).
Proof.
  unfold _score_ci_assumption.
  eapply caught_bind with (Q := fun s => 0 <= s).
  - destruct (Reqb m_mean 0); cbn [negb andb];
      [|caught_step]; split_tests; cbn; lra.
  - intros s Hs. cbn. apply Rmin_confidence; lra.
Qed.

End Scores.

Section AutoDetect.

Variables (m_mean error_bar : R) (n : Z).

Lemma max_by_score_In (best : string * R) (rest : list (string * R)) :
  In (max_by_score best rest) (best :: rest).
Proof.
  revert best. induction rest as [| c rest IH]; intros best; cbn.
  - now left.
  - destruct (Rltb (snd best) (snd c)).
    + right. apply IH.
    + destruct (IH best) as [H | H]; [now left | right; now right].
Qed.

Lemma good_candidate_snoc (l : list (string * R)) (ty : string) (s : R) :
  Forall good_candidate l -> str_in ty candidate_types = true ->
  is_confidence s -> Forall good_candidate (l ++ [(ty, s)]).
Proof.
  intros Hl Hty Hs. apply Forall_app. split; [exact Hl|].
  constructor; [now split | constructor].
Qed.

Lemma _auto_detect_type_body_caught :
  caught auto_answer (_auto_detect_type_body m_mean error_bar n).
Proof.
  unfold _auto_detect_type_body.
  destruct (Rltb 0 error_bar).
  - eapply caught_bind with (Q := Forall good_candidate).
    { repeat caught_step.
      eapply caught_bind; [apply _score_sd_assumption_confidence|].
      intros s Hs. cbn. now apply (good_candidate_snoc []). }
    intros l1 H1.
    eapply caught_bind with (Q := Forall good_candidate).
    { repeat caught_step.
      eapply caught_bind; [apply _score_se_assumption_confidence|].
      intros s Hs. cbn. now apply good_candidate_snoc. }
    intros l2 H2.
    eapply caught_bind with (Q := Forall good_candidate).
    { repeat caught_step.
      eapply caught_bind; [apply _score_ci_assumption_confidence|].
      intros s Hs. cbn. now apply good_candidate_snoc. }
    intros l3 H3.
    eapply caught_bind with (Q := Forall good_candidate).
    { repeat caught_step.
      eapply caught_bind; [apply _score_ci_assumption_confidence|].
      intros s Hs. cbn. now apply good_candidate_snoc. }
    intros l4 H4.
    eapply caught_bind with (Q := Forall good_candidate).
    { repeat caught_step.
      eapply caught_bind; [apply _score_se_assumption_confidence|].
      intros s Hs. cbn. now apply good_candidate_snoc. }
    intros l5 H5.
    destruct l5 as [| c rest]; cbn.
    + split; [reflexivity | unfold is_confidence; cbn; lra].
    + pose proof (max_by_score_In c rest) as Hin.
      rewrite Forall_forall in H5. destruct (H5 _ Hin) as [Hty Hs].
      split; [|exact Hs].
      unfold str_in in *. cbn [existsb]. rewrite Hty. apply orb_true_r.
  - cbn. split; [reflexivity | unfold is_confidence; cbn; lra].
Qed.

Lemma _auto_detect_type_returns :
  exists r, _auto_detect_type m_mean error_bar n = Ok r /\ auto_answer r.
Proof.
  unfold _auto_detect_type. apply try_except_caught.
  - apply _auto_detect_type_body_caught.
  - split; [reflexivity | unfold is_confidence; cbn; lra].
Qed.

(** Auto-detection on a non-positive error bar or sample size. *)
Lemma _auto_detect_type_implausible :
  error_bar <= 0 \/ (n <= 0)%Z ->
  _auto_detect_type m_mean error_bar n = Ok ("UNKNOWN"%string, 0.0).
Proof.
  intros H. unfold _auto_detect_type, _auto_detect_type_body.
  destruct (Rltb 0 error_bar) eqn:E.
  - apply Rltb_true in E. destruct H as [H | H]; [lra|].
    destruct (Z.eq_dec n 0) as [-> | Hne].
    + rewrite math_sqrt_ok by lra. cbn [bind]. rewrite sqrt_0.
      rewrite py_div_zero. reflexivity.
    + rewrite math_sqrt_neg; [reflexivity|]. apply IZR_lt. lia.
  - reflexivity.
Qed.

End AutoDetect.

Section DeclaredType.

Variables (m_mean error_bar : R) (n : Z).

Lemma _validate_declared_type_body_caught (ty : string) :
  caught is_confidence
         (_validate_declared_type_body m_mean error_bar ty n).
Proof.
  unfold _validate_declared_type_body, is_confidence.
  destruct (Rleb error_bar 0 || (n <=? 0)%Z); [cbn; lra|].
  destruct (Rltb (Rabs m_mean * 3) error_bar); [cbn; lra|].
  destruct (String.eqb ty "SD").
  { repeat caught_step.
    match goal with |- context [if ?t then _ else _] => destruct t end;
      cbn; lra. }
  destruct (String.eqb ty "SE").
  { repeat caught_step.
    match goal with |- context [if ?t then _ else _] => destruct t end;
      cbn; lra. }
  destruct (str_in ty ["CI95"; "CI99"]%string).
  { eapply caught_bind with (Q := fun _ => True).
    - destruct (String.eqb ty "CI95");
        (eapply caught_weaken; [|apply caught_py_div]); auto.
    - intros a _. repeat caught_step.
      match goal with |- context [if ?t then _ else _] => destruct t end;
        cbn; lra. }
  destruct (String.eqb ty "2SE").
  { repeat caught_step.
    match goal with |- context [if ?t then _ else _] => destruct t end;
      cbn; lra. }
  cbn; lra.
Qed.

Lemma _validate_declared_type_returns (ty : string) :
  exists c,
    _validate_declared_type m_mean error_bar ty n = Ok c /\ is_confidence c.
Proof.
  unfold _validate_declared_type. apply try_except_caught.
  - apply _validate_declared_type_body_caught.
  - unfold is_confidence; lra.
Qed.

Lemma _validate_declared_type_implausible (ty : string) :
  error_bar <= 0 \/ (n <= 0)%Z ->
  _validate_declared_type m_mean error_bar ty n = Ok 0.0.
Proof.
  intros H. unfold _validate_declared_type, _validate_declared_type_body.
  assert (E : Rleb error_bar 0 || (n <=? 0)%Z = true).
  { apply orb_true_iff. destruct H as [H | H];
      [left; now apply Rleb_true | right; now apply Z.leb_le]. }
  now rewrite E.
Qed.

End DeclaredType.

(** After alias resolution a declared type is a key of [supported_types]
    exactly when it is one of the six convertible types: the three alias
    keys of that dictionary are resolved away. *)
Lemma normalized_supported (declared_type : string) :
  dict_mem (_normalize_type declared_type) supported_types
  = str_in (_normalize_type declared_type) convertible_types.
Proof.
  unfold _normalize_type.
  destruct declared_type as [| ch rest]; [reflexivity|].
  generalize (strip (upper (String ch rest))). intros x.
  unfold dict_get, type_mapping. cbn [dict_lookup].
  destruct (String.eqb x "SEM") eqn:E1; [reflexivity|].
  destruct (String.eqb x "STD") eqn:E2; [reflexivity|].
  destruct (String.eqb x "STDERR") eqn:E3; [reflexivity|].
  destruct (String.eqb x "ASYM") eqn:E4; [reflexivity|].
  destruct (String.eqb x "ASYMM") eqn:E5; [reflexivity|].
  unfold dict_mem, supported_types, str_in, convertible_types.
  cbn [dict_lookup existsb]. rewrite E1, E2, E3.
  repeat match goal with
         | |- context [String.eqb x ?k] => destruct (String.eqb x k)
         end; reflexivity.
Qed.

Section Detect.

Variables (m_mean error_bar : R) (declared_type : string) (n : Z).

Let nd := _normalize_type declared_type.

(** The declared type is returned as soon as its validation exceeds 0.5,
    whatever the auto-detector is. *)
Lemma detect_declared_plausible
    (auto : R -> R -> Z -> result (string * R)) (confidence : R) :
  str_in nd convertible_types = true ->
  _validate_declared_type m_mean error_bar nd n = Ok confidence ->
  0.5 < confidence ->
  detect_error_type_with auto (Some m_mean) (Some error_bar) declared_type
                         (Some n)
  = Ok (nd, confidence).
Proof.
  intros Hin Hv Hc.
  assert (Hmem : dict_mem nd supported_types = true)
    by (unfold nd; now rewrite normalized_supported).
  unfold detect_error_type_with. fold nd.
  rewrite Hmem, Hv. cbn [bind].
  apply Rltb_true in Hc. now rewrite Hc.
Qed.

(** Otherwise auto-detection runs, and a best score below 0.7 gives way to
    the declared type with confidence 0.6. *)
Lemma detect_declared_fallback (confidence : R) (r : string * R) :
  str_in nd convertible_types = true ->
  _validate_declared_type m_mean error_bar nd n = Ok confidence ->
  confidence <= 0.5 ->
  _auto_detect_type m_mean error_bar n = Ok r ->
  snd r < 0.7 ->
  detect_error_type (Some m_mean) (Some error_bar) declared_type (Some n)
  = Ok (nd, 0.6).
Proof.
  intros Hin Hv Hc Ha Hr.
  assert (Hmem : dict_mem nd supported_types = true)
    by (unfold nd; now rewrite normalized_supported).
  unfold detect_error_type, detect_error_type_with. fold nd.
  rewrite !Hmem, Hv. cbn [bind].
  apply Rltb_false in Hc. rewrite Hc. cbn [bind]. rewrite Ha. cbn [bind].
  destruct r as [t c]. cbn [snd] in Hr. apply Rltb_true in Hr.
  now rewrite Hr.
Qed.

End Detect.

(** ** The scenario (10, 2, SD, 30) *)

Lemma validate_scenario_SD_30 :
  _validate_declared_type 10 2 "SD" 30 = Ok 0.9.
Proof.
  unfold _validate_declared_type, _validate_declared_type_body.
  assert (E1 : Rleb 2 0 = false) by (apply Rleb_false; lra).
  assert (E2 : Rltb (Rabs 10 * 3) 2 = false).
  { apply Rltb_false. rewrite Rabs_right; lra. }
  rewrite E1, E2. cbn [orb Z.leb Z.compare String.eqb Ascii.eqb Bool.eqb].
  cbn -[Rleb Rltb math_sqrt py_div IZR].
  assert (Hs : 1 < sqrt (IZR 30)).
  { rewrite <- sqrt_1. apply sqrt_lt_1_alt. split; [lra | apply IZR_lt; lia]. }
  rewrite math_sqrt_ok by lra. cbn [bind].
  rewrite py_div_ok by lra. cbn [bind].
  assert (E3 : Rltb 0 (2 / sqrt (IZR 30)) = true).
  { apply Rltb_true. apply Rdiv_lt_0_compat; lra. }
  assert (E4 : Rltb (2 / sqrt (IZR 30)) 2 = true).
  { apply Rltb_true. apply Rmult_lt_reg_r with (sqrt (IZR 30)); [lra|].
    unfold Rdiv. rewrite Rmult_assoc, Rinv_l by lra. lra. }
  now rewrite E3, E4.
Qed.

(** C2.  With mean, error bar and sample size present and a declared type
    that normalizes to a recognized type: the validation of the declared
    type returns a confidence; when that confidence is strictly above 0.5,
    detection returns the declared type with it, whatever auto-detection
    would answer (it is not consulted); otherwise auto-detection answers,
    and when its best score is strictly below 0.7 detection returns the
    declared type with confidence 0.6.  In particular the detection of
    (10, 2, SD, 30) is (SD, 0.9). *)
Theorem C2_declared_type_precedence
    (m_mean error_bar : R) (declared_type : string) (n : Z) :
  let nd := _normalize_type declared_type in
  str_in nd convertible_types = true ->
  (exists confidence,
     _validate_declared_type m_mean error_bar nd n = Ok confidence
     /\ (0.5 < confidence ->
         forall auto,
           detect_error_type_with auto (Some m_mean) (Some error_bar)
                                  declared_type (Some n)
           = Ok (nd, confidence))
     /\ (confidence <= 0.5 ->
         exists best,
           _auto_detect_type m_mean error_bar n = Ok best
           /\ (snd best < 0.7 ->
               detect_error_type (Some m_mean) (Some error_bar)
                                 declared_type (Some n)
               = Ok (nd, 0.6))))
  /\ detect_error_type (Some 10) (Some 2) "SD" (Some 30%Z)
     = Ok ("SD"%string, 0.9).
Proof.
  intros nd Hin. split.
  - destruct (_validate_declared_type_returns m_mean error_bar n nd)
      as (confidence & Hv & _).
    exists confidence. split; [exact Hv|]. split.
    + intros Hc auto.
      now apply detect_declared_plausible.
    + intros Hc.
      destruct (_auto_detect_type_returns m_mean error_bar n)
        as (best & Ha & _).
      exists best. split; [exact Ha|]. intros Hb.
      now apply (detect_declared_fallback _ _ _ _ confidence best).
  - apply (detect_declared_plausible 10 2 "SD" 30 _auto_detect_type 0.9).
    + reflexivity.
    + exact validate_scenario_SD_30.
    + lra.
Qed.

Lemma C2_declared_type_precedence_witness :
  str_in (_normalize_type " sem ") convertible_types = true
  /\ exists confidence,
       _validate_declared_type 10 2 (_normalize_type " sem ") 30
       = Ok confidence.
Proof.
  split; [reflexivity|].
  destruct (C2_declared_type_precedence 10 2 " sem " 30 eq_refl)
    as ((confidence & Hv & _) & _).
  now exists confidence.
Defined.

(** Every answer of the detector is a type label with a confidence. *)
Lemma detect_error_type_present
    (m_mean error_bar : R) (declared_type : string) (n : Z) :
  exists t c,
    detect_error_type (Some m_mean) (Some error_bar) declared_type (Some n)
    = Ok (t, c)
    /\ str_in t type_labels = true /\ is_confidence c.
Proof.
  unfold detect_error_type, detect_error_type_with.
  set (nd := _normalize_type declared_type).
  destruct (_auto_detect_type_returns m_mean error_bar n)
    as ([t c] & Ha & Hty & Hc). cbn [fst snd] in Hty, Hc.
  assert (Hauto : str_in t type_labels = true).
  { unfold str_in, type_labels, candidate_types in *.
    cbn [existsb] in *.
    repeat match goal with
           | |- context [String.eqb t ?k] => destruct (String.eqb t k)
           end; try reflexivity; discriminate. }
  assert (Hnd : dict_mem nd supported_types = true ->
                str_in nd type_labels = true).
  { unfold nd. rewrite normalized_supported.
    generalize (_normalize_type declared_type). intros x.
    unfold str_in, type_labels, convertible_types. cbn [existsb].
    repeat match goal with
           | |- context [String.eqb x ?k] => destruct (String.eqb x k)
           end; try reflexivity; discriminate. }
  assert (H06 : is_confidence 0.6) by (unfold is_confidence; lra).
  destruct (dict_mem nd supported_types) eqn:Emem.
  - destruct (_validate_declared_type_returns m_mean error_bar n nd)
      as (conf & Hv & Hconf).
    rewrite Hv. cbn [bind].
    destruct (Rltb 0.5 conf); cbn [bind].
    + exists nd, conf. auto.
    + rewrite Ha. cbn [bind].
      destruct (Rltb c 0.7); cbn [andb].
      * exists nd, 0.6. auto.
      * exists t, c. auto.
  - cbn [bind]. rewrite Ha. cbn [bind]. rewrite andb_false_r.
    exists t, c. auto.
Qed.

(** C6.  Detection never raises: for every input, whatever the numbers and
    the declared string, it returns a pair of a type label among SD, SE,
    CI95, CI99, 2SE, ASYMMETRIC, UNKNOWN and a confidence in [0, 1]; and
    when the mean, the error bar or the sample size is absent it returns
    (UNKNOWN, 0.0), whatever auto-detection would answer. *)
Theorem C6_detect_total
    (m_mean error_bar : option R) (declared_type : string)
    (n : option Z) :
  (exists t c,
     detect_error_type m_mean error_bar declared_type n = Ok (t, c)
     /\ str_in t type_labels = true /\ 0 <= c <= 1)
  /\ (m_mean = None \/ error_bar = None \/ n = None ->
      forall auto,
        detect_error_type_with auto m_mean error_bar declared_type n
        = Ok ("UNKNOWN"%string, 0.0)).
Proof.
  split.
  - destruct m_mean as [m|], error_bar as [e|], n as [k|];
      try (exists "UNKNOWN"%string, 0.0;
           split; [reflexivity | split; [reflexivity | lra]]).
    apply detect_error_type_present.
  - intros H auto.
    destruct m_mean, error_bar, n; try reflexivity.
    destruct H as [H | [H | H]]; discriminate.
Qed.

Lemma C6_detect_total_witness :
  detect_error_type (Some 10) None "SD" (Some 30%Z)
  = Ok ("UNKNOWN"%string, 0.0)
  /\ exists t c,
       detect_error_type (Some 0) (Some (-1)) "??" (Some 0%Z) = Ok (t, c)
       /\ str_in t type_labels = true /\ 0 <= c <= 1.
Proof.
  split.
  - apply (proj2 (C6_detect_total (Some 10) None "SD" (Some 30%Z))).
    right; left; reflexivity.
  - exact (proj1 (C6_detect_total (Some 0) (Some (-1)) "??" (Some 0%Z))).
Defined.

(** C10.  With mean, error bar and sample size present, a non-positive
    error bar or sample size, and a declared type that normalizes to a
    recognized type, detection returns that type with confidence 0.6: the
    validation confidence is 0.0, auto-detection answers (UNKNOWN, 0.0),
    and the declared-type fallback engages. *)
Theorem C10_implausible_declared_fallback
    (m_mean error_bar : R) (declared_type : string) (n : Z) :
  let nd := _normalize_type declared_type in
  str_in nd convertible_types = true ->
  error_bar <= 0 \/ (n <= 0)%Z ->
  _validate_declared_type m_mean error_bar nd n = Ok 0.0
  /\ _auto_detect_type m_mean error_bar n = Ok ("UNKNOWN"%string, 0.0)
  /\ detect_error_type (Some m_mean) (Some error_bar) declared_type (Some n)
     = Ok (nd, 0.6).
Proof.
  intros nd Hin Himp.
  pose proof (_validate_declared_type_implausible m_mean error_bar n nd Himp)
    as Hv.
  pose proof (_auto_detect_type_implausible m_mean error_bar n Himp) as Ha.
  repeat split; try assumption.
  apply (detect_declared_fallback _ _ _ _ 0.0 ("UNKNOWN"%string, 0.0));
    try assumption; cbn [snd]; lra.
Qed.

Lemma C10_implausible_declared_fallback_witness :
  detect_error_type (Some 10) (Some (-2)) "SD" (Some 30%Z)
  = Ok ("SD"%string, 0.6)
  /\ detect_error_type (Some 10) (Some 2) "std" (Some 0%Z)
     = Ok ("SD"%string, 0.6).
Proof.
  split.
  - apply (C10_implausible_declared_fallback 10 (-2) "SD" 30);
      [reflexivity | left; lra].
  - apply (C10_implausible_declared_fallback 10 2 "std" 0);
      [reflexivity | right; lia].
Defined.

(** * The comparator *)

Import BarChartConverter.

Section Compare.

Variables (a b : ConversionResult) (level : R).

Hypothesis Ha : (0 < sample_size a)%Z.
Hypothesis Hb : (0 < sample_size b)%Z.

Lemma IZR_sample_ne_0 (n : Z) : (0 < n)%Z -> IZR n <> 0.
Proof. intros H. pose proof (IZR_pos n H). lra. Qed.

Lemma sd_diff_arg_nonneg :
  0 <= sd a ^ 2 / IZR (sample_size a) + sd b ^ 2 / IZR (sample_size b).
Proof.
  pose proof (IZR_pos _ Ha). pose proof (IZR_pos _ Hb).
  pose proof (pow2_ge_0 (sd a)). pose proof (pow2_ge_0 (sd b)).
  apply Rplus_le_le_0_compat; apply Rmult_le_pos; try assumption;
    left; apply Rinv_0_lt_compat; lra.
Qed.

Lemma pooled_arg_nonneg :
  (2 < sample_size a + sample_size b)%Z ->
  0 <= (IZR (sample_size a - 1) * sd a ^ 2
        + IZR (sample_size b - 1) * sd b ^ 2)
       / IZR (sample_size a + sample_size b - 2).
Proof.
  intros Hdf.
  assert (0 <= IZR (sample_size a - 1)) by (apply IZR_le; lia).
  assert (0 <= IZR (sample_size b - 1)) by (apply IZR_le; lia).
  assert (1 <= IZR (sample_size a + sample_size b - 2))
    by (apply IZR_le; lia).
  pose proof (pow2_ge_0 (sd a)). pose proof (pow2_ge_0 (sd b)).
  apply Rmult_le_pos.
  - apply Rplus_le_le_0_compat; now apply Rmult_le_pos.
  - left. apply Rinv_0_lt_compat. lra.
Qed.

(** With positive sample sizes and a positive number of degrees of freedom
    no operation of the comparison raises. *)
Lemma compare_returns :
  (2 < sample_size a + sample_size b)%Z ->
  _calculate_group_comparison a b level = Ok (comparison_of a b level).
Proof.
  intros Hdf. unfold _calculate_group_comparison.
  rewrite (py_div_ok _ _ (IZR_sample_ne_0 _ Ha)). cbn [bind].
  rewrite (py_div_ok _ _ (IZR_sample_ne_0 _ Hb)). cbn [bind].
  rewrite (math_sqrt_ok _ sd_diff_arg_nonneg). cbn [bind].
  rewrite py_div_ok by (apply IZR_sample_ne_0; lia). cbn [bind].
  rewrite (math_sqrt_ok _ (pooled_arg_nonneg Hdf)). cbn [bind].
  fold (sd_diff_of a b). fold (pooled_sd_of a b).
  assert (Hc : forall x y,
             (if Rltb 0 y then py_div x y else Ok 0)
             = Ok (if Rltb 0 y then x / y else 0)).
  { intros x y. destruct (Rltb 0 y) eqn:E; [|reflexivity].
    apply Rltb_true in E. apply py_div_ok. lra. }
  rewrite !Hc. cbn [bind].
  rewrite py_div_ok by (apply not_0_IZR; lia). cbn [bind].
  reflexivity.
Qed.

(** With one measurement in each group the pooled variance divides by
    zero. *)
Lemma compare_raises_df_zero :
  (sample_size a + sample_size b = 2)%Z ->
  _calculate_group_comparison a b level = Raise ZeroDivisionError.
Proof.
  intros Hdf. unfold _calculate_group_comparison.
  rewrite (py_div_ok _ _ (IZR_sample_ne_0 _ Ha)). cbn [bind].
  rewrite (py_div_ok _ _ (IZR_sample_ne_0 _ Hb)). cbn [bind].
  rewrite (math_sqrt_ok _ sd_diff_arg_nonneg). cbn [bind].
  replace (sample_size a + sample_size b - 2)%Z with 0%Z by lia.
  rewrite py_div_zero. reflexivity.
Qed.

End Compare.

Section PValue.

Ltac decide_tests :=
  repeat match goal with
         | |- context [Rltb ?x ?y] =>
             let E := fresh "E" in
             destruct (Rltb x y) eqn:E;
             [apply Rltb_true in E | apply Rltb_false in E]
         | |- context [Reqb ?x ?y] =>
             let E := fresh "E" in
             destruct (Reqb x y) eqn:E;
             [apply Reqb_true in E | apply Reqb_false in E]
         end.

Lemma _calculate_p_value_steps (x : R) (df : Z) :
  (0 < df)%Z ->
  let p := _calculate_p_value x df in
  (x = 0 -> p = 1.0)
  /\ (4 < x -> p = 0.0001)
  /\ (3 < x <= 4 -> p = 0.01)
  /\ (2 < x <= 3 -> p = 0.05)
  /\ (1.5 < x <= 2 -> p = 0.1)
  /\ (x <> 0 -> x <= 1.5 -> p = 0.2).
Proof.
  intros Hdf p. subst p. unfold _calculate_p_value.
  assert (E : (df <=? 0)%Z = false) by (apply Z.leb_gt; exact Hdf).
  rewrite E.
  repeat split; intros; decide_tests; try reflexivity; try lra;
    contradiction.
Qed.

Lemma _calculate_p_value_rounded (x : R) (df : Z) :
  rounded 4 (_calculate_p_value x df).
Proof.
  unfold _calculate_p_value.
  destruct (df <=? 0)%Z; [apply (rounded_decimal 10000 4); lra|].
  destruct (Reqb x 0); [apply (rounded_decimal 10000 4); lra|].
  destruct (Rltb 4 x); [apply (rounded_decimal 1 4); lra|].
  destruct (Rltb 3 x); [apply (rounded_decimal 100 4); lra|].
  destruct (Rltb 2 x); [apply (rounded_decimal 500 4); lra|].
  destruct (Rltb 1.5 x); [apply (rounded_decimal 1000 4); lra|].
  apply (rounded_decimal 2000 4); lra.
Qed.

End PValue.

(** C3.  For every t-statistic [t] and positive number of degrees of
    freedom, the p-value the comparator computes from [|t|] is the step
    function: 1.0 when [|t| = 0]; 0.0001 when [|t| > 4]; 0.01 when
    [3 < |t| <= 4]; 0.05 when [2 < |t| <= 3]; 0.1 when [1.5 < |t| <= 2];
    0.2 otherwise.  Each of these values is left alone by the rounding to 4
    places of the comparison record, whose [p_value] is therefore this step
    function of the comparison's t-statistic. *)
Theorem C3_bucketed_p_value (t : R) (df : Z) :
  (0 < df)%Z ->
  let p := _calculate_p_value (Rabs t) df in
  (Rabs t = 0 -> p = 1.0)
  /\ (4 < Rabs t -> p = 0.0001)
  /\ (3 < Rabs t <= 4 -> p = 0.01)
  /\ (2 < Rabs t <= 3 -> p = 0.05)
  /\ (1.5 < Rabs t <= 2 -> p = 0.1)
  /\ (Rabs t <> 0 -> Rabs t <= 1.5 -> p = 0.2)
  /\ py_round p 4 = p
  /\ (forall (a b : ConversionResult) (level : R),
        (0 < sample_size a)%Z -> (0 < sample_size b)%Z ->
        df = df_of a b -> t = t_stat_of a b ->
        exists r,
          _calculate_group_comparison a b level = Ok r /\ p_value r = p).
Proof.
  intros Hdf p.
  destruct (_calculate_p_value_steps (Rabs t) df Hdf)
    as (H0 & H4 & H3 & H2 & H1 & Hrest).
  repeat (split; [assumption|]).
  split; [apply _calculate_p_value_rounded|].
  intros a b level Ha Hb Edf Et. subst df t.
  exists (comparison_of a b level). split.
  - apply compare_returns; try assumption. unfold df_of in Hdf. lia.
  - cbn. apply _calculate_p_value_rounded.
Qed.

Lemma C3_bucketed_p_value_witness :
  _calculate_p_value (Rabs (-4)) 38 = 0.01
  /\ _calculate_p_value (Rabs 4.5) 38 = 0.0001.
Proof.
  destruct (C3_bucketed_p_value (-4) 38 eq_refl) as (_ & _ & H3 & _).
  destruct (C3_bucketed_p_value 4.5 38 eq_refl) as (_ & H4 & _).
  split.
  - apply H3. rewrite Rabs_left; lra.
  - apply H4. rewrite Rabs_right; lra.
Defined.

(** ** Records produced by the SD conversion *)

Lemma convert_SD_fields (m_mean error_bar : R) (n : Z) :
  (0 < n)%Z ->
  exists r,
    convert_to_mean_sd m_mean error_bar "SD" n = Ok r
    /\ mean r = py_round m_mean 6 /\ sd r = py_round error_bar 6
    /\ sample_size r = n.
Proof.
  intros Hn.
  destruct (row_SD m_mean error_bar n Hn) as (r & Hr & Hm & _ & Hsd & _).
  destruct (convert_to_mean_sd_metadata _ _ _ _ _ Hr)
    as (_ & _ & _ & Hsize & _).
  exists r. auto.
Qed.

(** C4, at its failing input.  Two records that the conversion produces
    for groups of one measurement each make the comparison raise
    [ZeroDivisionError]: the pooled variance divides by
    [n1 + n2 - 2 = 0] before the guard on the degrees of freedom of
    [_calculate_p_value] is reached. *)
Theorem C4_compare_raises_single_measurements :
  exists r1 r2,
    convert_to_mean_sd 12 2 "SD" 1 = Ok r1
    /\ convert_to_mean_sd 10 2.2 "SD" 1 = Ok r2
    /\ (0 < sample_size r1)%Z /\ (0 < sample_size r2)%Z
    /\ _calculate_group_comparison r1 r2 0.95 = Raise ZeroDivisionError.
Proof.
  destruct (convert_SD_fields 12 2 1 eq_refl) as (r1 & H1 & _ & _ & Hn1).
  destruct (convert_SD_fields 10 2.2 1 eq_refl) as (r2 & H2 & _ & _ & Hn2).
  exists r1, r2. repeat split; try assumption; try (now rewrite ?Hn1, ?Hn2).
  apply compare_raises_df_zero; rewrite ?Hn1, ?Hn2; reflexivity.
Qed.

(** * Swapping the two groups *)

Section Swap.

Variables (a b : ConversionResult).

Lemma df_of_swap : df_of b a = df_of a b.
Proof. unfold df_of. lia. Qed.

Lemma sd_diff_of_swap : sd_diff_of b a = sd_diff_of a b.
Proof. unfold sd_diff_of. f_equal. apply Rplus_comm. Qed.

Lemma pooled_sd_of_swap : pooled_sd_of b a = pooled_sd_of a b.
Proof.
  unfold pooled_sd_of. f_equal.
  rewrite (Z.add_comm (sample_size b) (sample_size a)).
  f_equal. apply Rplus_comm.
Qed.

Lemma cohens_d_of_swap : cohens_d_of b a = - cohens_d_of a b.
Proof.
  unfold cohens_d_of. rewrite pooled_sd_of_swap.
  destruct (Rltb 0 (pooled_sd_of a b)) eqn:E; [|lra].
  apply Rltb_true in E. field. lra.
Qed.

Lemma t_stat_of_swap : t_stat_of b a = - t_stat_of a b.
Proof.
  unfold t_stat_of. rewrite sd_diff_of_swap.
  destruct (Rltb 0 (sd_diff_of a b)) eqn:E; [|lra].
  apply Rltb_true in E. field. lra.
Qed.

Lemma p_value_of_swap : p_value_of b a = p_value_of a b.
Proof.
  unfold p_value_of. now rewrite t_stat_of_swap, Rabs_Ropp, df_of_swap.
Qed.

End Swap.

(** C8.  For two records with positive sample sizes and any confidence
    level, the comparison of (a, b) and the comparison of (b, a) end the
    same way: either both return, and then [delta_mean], [cohens_d] and
    [t_statistic] of the second are the opposites of those of the first
    while [sd_diff], [p_value] and [significant] are equal, or both raise
    the same exception.  Both return as soon as the two sample sizes add up
    to more than 2. *)
Theorem C8_compare_swap (a b : ConversionResult) (level : R) :
  (0 < sample_size a)%Z -> (0 < sample_size b)%Z ->
  match _calculate_group_comparison a b level,
        _calculate_group_comparison b a level with
  | Ok r, Ok r' =>
      delta_mean r' = - delta_mean r
      /\ cohens_d r' = - cohens_d r
      /\ t_statistic r' = - t_statistic r
      /\ sd_diff r' = sd_diff r
      /\ p_value r' = p_value r
      /\ significant r' = significant r
  | Raise e, Raise e' => e = e'
  | _, _ => False
  end
  /\ ((2 < sample_size a + sample_size b)%Z ->
      returns (_calculate_group_comparison a b level)
      /\ returns (_calculate_group_comparison b a level)).
Proof.
  intros Ha Hb.
  destruct (Z_lt_le_dec 2 (sample_size a + sample_size b)) as [Hdf | Hdf].
  - assert (Hdf' : (2 < sample_size b + sample_size a)%Z) by lia.
    rewrite (compare_returns a b level Ha Hb Hdf).
    rewrite (compare_returns b a level Hb Ha Hdf').
    split; [|intros _; split; eexists; reflexivity].
    cbn [comparison_of delta_mean cohens_d t_statistic sd_diff p_value
         significant].
    rewrite cohens_d_of_swap, t_stat_of_swap, sd_diff_of_swap,
            p_value_of_swap, !py_round_opp.
    replace (mean b - mean a) with (- (mean a - mean b)) by lra.
    rewrite py_round_opp. repeat split.
  - assert (E : (sample_size a + sample_size b = 2)%Z) by lia.
    assert (E' : (sample_size b + sample_size a = 2)%Z) by lia.
    rewrite (compare_raises_df_zero a b level Ha Hb E).
    rewrite (compare_raises_df_zero b a level Hb Ha E').
    split; [reflexivity | intros; lia].
Qed.

Lemma C8_compare_swap_witness :
  returns (_calculate_group_comparison
             (group_record 12 2 20) (group_record 10 2.2 20) 0.95)
  /\ returns (_calculate_group_comparison
                (group_record 10 2.2 20) (group_record 12 2 20) 0.95).
Proof.
  apply (proj2 (C8_compare_swap (group_record 12 2 20)
                                (group_record 10 2.2 20) 0.95
                                eq_refl eq_refl)).
  reflexivity.
Defined.

(** * Degenerate comparisons *)

Section Degenerate.

Variables (a b : ConversionResult) (level : R).

Hypothesis Hdf : (0 < df_of a b)%Z.

Lemma t_stat_of_degenerate : sd_diff_of a b = 0 -> t_stat_of a b = 0.
Proof.
  intros H. unfold t_stat_of. rewrite H.
  assert (E : Rltb 0 0 = false) by (apply Rltb_false; lra).
  now rewrite E.
Qed.

Lemma p_value_of_degenerate : sd_diff_of a b = 0 -> p_value_of a b = 1.0.
Proof.
  intros H. unfold p_value_of. rewrite (t_stat_of_degenerate H), Rabs_R0.
  apply (_calculate_p_value_steps 0 (df_of a b) Hdf). reflexivity.
Qed.

Lemma cohens_d_of_degenerate : pooled_sd_of a b = 0 -> cohens_d_of a b = 0.
Proof.
  intros H. unfold cohens_d_of. rewrite H.
  assert (E : Rltb 0 0 = false) by (apply Rltb_false; lra).
  now rewrite E.
Qed.

Lemma sd_diff_of_zero_sd : sd a = 0 -> sd b = 0 -> sd_diff_of a b = 0.
Proof.
  intros Ea Eb. unfold sd_diff_of. rewrite Ea, Eb.
  replace (0 ^ 2 / IZR (sample_size a) + 0 ^ 2 / IZR (sample_size b))
    with 0 by (unfold Rdiv; simpl; lra).
  apply sqrt_0.
Qed.

Lemma pooled_sd_of_zero_sd : sd a = 0 -> sd b = 0 -> pooled_sd_of a b = 0.
Proof.
  intros Ea Eb. unfold pooled_sd_of. rewrite Ea, Eb.
  match goal with
  | |- sqrt ?x = 0 => replace x with 0 by (unfold Rdiv; simpl; lra)
  end.
  apply sqrt_0.
Qed.

End Degenerate.

(** C9, as amended.  For two records with positive sample sizes adding up
    to more than 2 (so that the number of degrees of freedom is positive),
    the comparison returns a record and does not raise.  When both SDs are
    0, or more generally when the standard error of the difference is 0,
    that record has [sd_diff = 0], [t_statistic = 0], [p_value = 1.0] and,
    for a confidence level of at least 0, [significant = False]; with both
    SDs 0 it has [cohens_d = 0] as well.  When the pooled SD is 0 the
    record has [cohens_d = 0] (and [hedges_g = 0]); its t-statistic and
    p-value are then computed as usual. *)
Theorem C9_degenerate_fallbacks (a b : ConversionResult) (level : R) :
  (0 < sample_size a)%Z -> (0 < sample_size b)%Z ->
  (2 < sample_size a + sample_size b)%Z ->
  exists r,
    _calculate_group_comparison a b level = Ok r
    /\ (sd_diff_of a b = 0 ->
        sd_diff r = 0 /\ t_statistic r = 0 /\ p_value r = 1.0
        /\ (0 <= level -> significant r = false))
    /\ (pooled_sd_of a b = 0 -> cohens_d r = 0 /\ hedges_g r = 0)
    /\ (sd a = 0 -> sd b = 0 ->
        sd_diff r = 0 /\ t_statistic r = 0 /\ cohens_d r = 0
        /\ p_value r = 1.0 /\ (0 <= level -> significant r = false)).
Proof.
  intros Ha Hb Hdf.
  assert (Hdf' : (0 < df_of a b)%Z) by (unfold df_of; lia).
  exists (comparison_of a b level).
  split; [now apply compare_returns|].
  assert (Hdiff : sd_diff_of a b = 0 ->
                  sd_diff (comparison_of a b level) = 0
                  /\ t_statistic (comparison_of a b level) = 0
                  /\ p_value (comparison_of a b level) = 1.0
                  /\ (0 <= level ->
                      significant (comparison_of a b level) = false)).
  { intros H. cbn [comparison_of sd_diff t_statistic p_value significant].
    rewrite (p_value_of_degenerate a b Hdf' H).
    rewrite (t_stat_of_degenerate a b H), H, py_round_0.
    repeat split.
    - apply (py_round_decimal 10000 4); lra.
    - intros Hl. apply Rltb_false. lra. }
  assert (Hpool : pooled_sd_of a b = 0 ->
                  cohens_d (comparison_of a b level) = 0
                  /\ hedges_g (comparison_of a b level) = 0).
  { intros H. cbn [comparison_of cohens_d hedges_g]. unfold hedges_g_of.
    rewrite (cohens_d_of_degenerate a b H), Rmult_0_l, py_round_0.
    split; reflexivity. }
  split; [exact Hdiff|]. split; [exact Hpool|].
  intros Ea Eb.
  destruct (Hdiff (sd_diff_of_zero_sd a b Ea Eb)) as (H1 & H2 & H3 & H4).
  destruct (Hpool (pooled_sd_of_zero_sd a b Ea Eb)) as (H5 & _).
  auto.
Qed.

Lemma C9_degenerate_fallbacks_witness :
  exists r,
    _calculate_group_comparison
      (group_record 12 0 20) (group_record 10 0 20) 0.95 = Ok r
    /\ sd_diff r = 0 /\ t_statistic r = 0 /\ cohens_d r = 0
    /\ p_value r = 1.0 /\ significant r = false.
Proof.
  destruct (C9_degenerate_fallbacks
              (group_record 12 0 20) (group_record 10 0 20) 0.95
              eq_refl eq_refl eq_refl)
    as (r & Hr & _ & _ & H).
  destruct (H eq_refl eq_refl) as (H1 & H2 & H3 & H4 & H5).
  exists r. repeat split; try assumption. apply H5. lra.
Defined.

(** C9 as stated fails where only the pooled SD is 0.  For a group of one
    measurement (mean 5, SD 1) against a group of two (mean 0, SD 0) the
    pooled SD is 0, and the comparison at the 95% level returns
    [cohens_d = 0] but [t_statistic = 5], [p_value = 0.0001] and
    [significant = True], not the fallback values. *)
Lemma C9_pooled_zero_counterexample :
  pooled_sd_of (group_record 5 1 1) (group_record 0 0 2) = 0
  /\ exists r,
       _calculate_group_comparison
         (group_record 5 1 1) (group_record 0 0 2) 0.95 = Ok r
       /\ cohens_d r = 0
       /\ t_statistic r = 5 /\ p_value r = 0.0001 /\ significant r = true
       /\ ~ (t_statistic r = 0 /\ p_value r = 1.0 /\ significant r = false).
Proof.
  set (a := group_record 5 1 1). set (b := group_record 0 0 2).
  assert (Hp : pooled_sd_of a b = 0).
  { unfold pooled_sd_of, a, b. cbn.
    match goal with
    | |- sqrt ?x = 0 => replace x with 0 by (unfold Rdiv; lra)
    end.
    apply sqrt_0. }
  assert (Hd : sd_diff_of a b = 1).
  { unfold sd_diff_of, a, b. cbn.
    match goal with
    | |- sqrt ?x = 1 => replace x with 1 by (unfold Rdiv; lra)
    end.
    apply sqrt_1. }
  assert (Ht : t_stat_of a b = 5).
  { unfold t_stat_of. rewrite Hd.
    assert (E : Rltb 0 1 = true) by (apply Rltb_true; lra).
    rewrite E. unfold a, b. cbn. lra. }
  assert (Hpv : p_value_of a b = 0.0001).
  { unfold p_value_of. rewrite Ht.
    apply (_calculate_p_value_steps (Rabs 5) (df_of a b) eq_refl).
    rewrite Rabs_right; lra. }
  split; [exact Hp|].
  exists (comparison_of a b 0.95). split.
  - now apply compare_returns.
  - cbn [comparison_of cohens_d t_statistic p_value significant].
    rewrite Hpv, Ht, (cohens_d_of_degenerate a b Hp), py_round_0.
    assert (H5 : py_round 5 4 = 5)
      by (apply (py_round_decimal 50000 4); lra).
    assert (Hs : Rltb 0.0001 (1 - 0.95) = true) by (apply Rltb_true; lra).
    rewrite H5, Hs. repeat split.
    + apply (py_round_decimal 1 4); lra.
    + intros (H & _). lra.
Qed.

(** * Further properties of the rounding *)

Section RoundingOrder.

Lemma round_half_even_mono (x y : R) :
  x <= y -> (round_half_even x <= round_half_even y)%Z.
Proof.
  intros Hxy.
  destruct (Z_le_gt_dec (round_half_even x) (round_half_even y))
    as [H | H]; [exact H | exfalso].
  pose proof (Rabs_le_inv _ _ (round_half_even_err x)) as Hx.
  pose proof (Rabs_le_inv _ _ (round_half_even_err y)) as Hy.
  assert (Hgap : IZR (round_half_even y) + 1 <= IZR (round_half_even x)).
  { rewrite <- plus_IZR. apply IZR_le. lia. }
  assert (E : x = y) by lra. subst y. lia.
Qed.

Lemma py_round_mono (x y : R) (d : nat) :
  x <= y -> py_round x d <= py_round y d.
Proof.
  intros Hxy. unfold py_round. pose proof (pow10_pos d) as Hp.
  apply Rmult_le_compat_r.
  - left. now apply Rinv_0_lt_compat.
  - apply IZR_le, round_half_even_mono.
    apply Rmult_le_compat_r; lra.
Qed.

Lemma py_round_nonneg (x : R) (d : nat) : 0 <= x -> 0 <= py_round x d.
Proof.
  intros H. rewrite <- (py_round_0 d). now apply py_round_mono.
Qed.

Lemma py_round_Rabs (x : R) (d : nat) :
  py_round (Rabs x) d = Rabs (py_round x d).
Proof.
  destruct (Rle_lt_dec 0 x) as [H | H].
  - rewrite (Rabs_right x) by lra.
    rewrite Rabs_right; [reflexivity|].
    apply Rle_ge. now apply py_round_nonneg.
  - rewrite (Rabs_left x) by lra. rewrite py_round_opp.
    assert (Hr : py_round x d <= 0).
    { rewrite <- (py_round_0 d). apply py_round_mono. lra. }
    rewrite Rabs_left1; [reflexivity | exact Hr].
Qed.

End RoundingOrder.

(** * Conversions: sample sizes that are not positive, and the order
      of SE and SD *)

Section ConversionEdges.

Variables (m_mean error_bar : R).

Lemma convert_negative_sample_size (ty : string) (n : Z) :
  str_in ty convertible_types = true -> (n < 0)%Z ->
  convert_to_mean_sd m_mean error_bar ty n
  = Raise (ValueError "math domain error").
Proof.
  intros Hin Hn.
  assert (Hneg : IZR n < 0) by (apply IZR_lt; lia).
  destruct (str_in_convertible_cases ty Hin)
    as [-> | [-> | [-> | [-> | [-> | ->]]]]];
    unfold convert_to_mean_sd; cbn [dict_lookup conversion_methods];
    cbn -[_convert_from_sd _convert_from_se _convert_from_ci95
          _convert_from_ci99 _convert_from_2se _convert_from_asymmetric];
    unfold _convert_from_sd, _convert_from_se, _convert_from_ci95,
           _convert_from_ci99, _convert_from_2se, _convert_from_asymmetric;
    rewrite ?py_div_ok by lra; cbn [bind];
    rewrite (math_sqrt_neg _ Hneg); reflexivity.
Qed.

Lemma convert_SD_zero_sample_size :
  convert_to_mean_sd m_mean error_bar "SD" 0 = Raise ZeroDivisionError.
Proof.
  unfold convert_to_mean_sd. cbn [dict_lookup conversion_methods].
  cbn -[_convert_from_sd]. unfold _convert_from_sd.
  rewrite math_sqrt_ok by lra. cbn [bind].
  rewrite sqrt_0, py_div_zero. reflexivity.
Qed.

Lemma convert_other_zero_sample_size (ty : string) :
  str_in ty convertible_types = true -> ty <> "SD"%string ->
  exists r,
    convert_to_mean_sd m_mean error_bar ty 0 = Ok r
    /\ sd r = 0 /\ conversion_factor r = 0.
Proof.
  intros Hin Hne.
  destruct (str_in_convertible_cases ty Hin)
    as [-> | [-> | [-> | [-> | [-> | ->]]]]]; [contradiction | | | | |];
    unfold convert_to_mean_sd; cbn [dict_lookup conversion_methods];
    cbn -[_convert_from_se _convert_from_ci95
          _convert_from_ci99 _convert_from_2se _convert_from_asymmetric];
    unfold _convert_from_se, _convert_from_ci95,
           _convert_from_ci99, _convert_from_2se, _convert_from_asymmetric;
    rewrite ?py_div_ok by lra; cbn [bind];
    rewrite math_sqrt_ok by lra; cbn [bind]; rewrite sqrt_0;
    rewrite ?py_div_ok by lra; cbn [bind];
    eexists; (split; [reflexivity|]); cbn;
    (split; [|unfold Rdiv; rewrite ?Rmult_0_l; apply py_round_0]);
    rewrite Rmult_0_r; apply py_round_0.
Qed.

End ConversionEdges.

(** X1.  A supported conversion with a negative sample size raises the
    domain error of [math.sqrt].  With sample size 0 the SD conversion
    raises [ZeroDivisionError], while the other five conversions return a
    record with [sd = 0] and [conversion_factor = 0], which the validation
    marks invalid. *)
Theorem X1_convert_nonpositive_sample_size
    (m_mean error_bar : R) (ty : string) (n : Z) :
  str_in ty convertible_types = true ->
  ((n < 0)%Z ->
   convert_to_mean_sd m_mean error_bar ty n
   = Raise (ValueError "math domain error"))
  /\ (n = 0%Z -> ty = "SD"%string ->
      convert_to_mean_sd m_mean error_bar ty n = Raise ZeroDivisionError)
  /\ (n = 0%Z -> ty <> "SD"%string ->
      exists r v,
        convert_to_mean_sd m_mean error_bar ty n = Ok r
        /\ sd r = 0 /\ conversion_factor r = 0
        /\ validate_conversion_result r = Ok v /\ is_valid v = false).
Proof.
  intros Hin. split; [|split].
  - now apply convert_negative_sample_size.
  - intros -> ->. apply convert_SD_zero_sample_size.
  - intros -> Hne.
    destruct (convert_other_zero_sample_size m_mean error_bar ty Hin Hne)
      as (r & Hr & Hsd & Hcf).
    destruct (validate_conversion_result_spec r) as (v & Hv & Hvalid & _).
    exists r, v. repeat split; try assumption.
    rewrite Hvalid, Hsd.
    assert (E : Rleb 0 0 = true) by (apply Rleb_true; lra).
    now rewrite E.
Qed.

Lemma X1_convert_nonpositive_sample_size_witness :
  convert_to_mean_sd 10 2 "SE" (-3) = Raise (ValueError "math domain error")
  /\ convert_to_mean_sd 10 2 "SD" 0 = Raise ZeroDivisionError
  /\ exists r v,
       convert_to_mean_sd 10 2 "CI95" 0 = Ok r
       /\ sd r = 0 /\ conversion_factor r = 0
       /\ validate_conversion_result r = Ok v /\ is_valid v = false.
Proof.
  split; [|split].
  - apply (X1_convert_nonpositive_sample_size 10 2 "SE" (-3) eq_refl).
    reflexivity.
  - now apply (X1_convert_nonpositive_sample_size 10 2 "SD" 0 eq_refl).
  - apply (X1_convert_nonpositive_sample_size 10 2 "CI95" 0 eq_refl);
      [reflexivity | discriminate].
Defined.

Section SeSdOrder.

Variables (m_mean error_bar : R) (n : Z).
Hypothesis Hn : (0 < n)%Z.

(** The unrounded SE of every row is the error bar times a positive
    factor. *)
Lemma convert_se_sd_factor (ty : string) :
  str_in ty convertible_types = true ->
  exists r k,
    convert_to_mean_sd m_mean error_bar ty n = Ok r
    /\ 0 < k
    /\ se r = py_round (error_bar * k) 6
    /\ sd r = py_round (error_bar * k * sqrt (IZR n)) 6.
Proof.
  intros Hin. pose proof (sqrt_n_ne_0 n Hn) as Hs.
  pose proof (sqrt_IZR_ge_1 n Hn) as Hs1.
  destruct (str_in_convertible_cases ty Hin)
    as [-> | [-> | [-> | [-> | [-> | ->]]]]].
  - destruct (row_SD m_mean error_bar n Hn) as (r & Hr & _ & Hse & Hsd & _).
    exists r, (/ sqrt (IZR n)). repeat split; try assumption.
    + apply Rinv_0_lt_compat. lra.
    + rewrite Hsd. f_equal. field. exact Hs.
  - destruct (row_SE m_mean error_bar n Hn) as (r & Hr & _ & Hse & Hsd & _).
    exists r, 1. rewrite !Rmult_1_r. repeat split; try assumption. lra.
  - destruct (row_CI95 m_mean error_bar n Hn)
      as (r & Hr & _ & Hse & Hsd & _).
    exists r, (/ 1.96). repeat split; try assumption.
    apply Rinv_0_lt_compat; lra.
  - destruct (row_CI99 m_mean error_bar n Hn)
      as (r & Hr & _ & Hse & Hsd & _).
    exists r, (/ 2.576). repeat split; try assumption.
    apply Rinv_0_lt_compat; lra.
  - destruct (row_2SE m_mean error_bar n Hn) as (r & Hr & _ & Hse & Hsd & _).
    exists r, (/ 2). repeat split; try assumption.
    apply Rinv_0_lt_compat; lra.
  - destruct (row_ASYMMETRIC m_mean error_bar n Hn)
      as (r & Hr & _ & Hse & Hsd & _).
    exists r, 1. rewrite !Rmult_1_r. repeat split; try assumption. lra.
Qed.

End SeSdOrder.

(** X2.  In every result of a supported conversion with a positive sample
    size the SE is at most the SD in magnitude; for a non-negative error
    bar both are non-negative, so that [0 <= se <= sd]; and for a sample of
    one measurement they are equal. *)
Theorem X2_se_at_most_sd
    (m_mean error_bar : R) (ty : string) (n : Z) :
  str_in ty convertible_types = true -> (0 < n)%Z ->
  exists r,
    convert_to_mean_sd m_mean error_bar ty n = Ok r
    /\ Rabs (se r) <= Rabs (sd r)
    /\ (0 <= error_bar -> 0 <= se r <= sd r)
    /\ (n = 1%Z -> se r = sd r).
Proof.
  intros Hin Hn.
  destruct (convert_se_sd_factor m_mean error_bar n Hn ty Hin)
    as (r & k & Hr & Hk & Hse & Hsd).
  pose proof (sqrt_IZR_ge_1 n Hn) as Hs.
  exists r. split; [exact Hr|]. rewrite Hse, Hsd. split; [|split].
  - rewrite <- !py_round_Rabs. apply py_round_mono.
    rewrite (Rabs_mult (error_bar * k)).
    rewrite (Rabs_right (sqrt (IZR n))) by lra.
    pose proof (Rabs_pos (error_bar * k)). nra.
  - intros He.
    assert (0 <= error_bar * k) by (apply Rmult_le_pos; lra).
    split; [now apply py_round_nonneg|].
    apply py_round_mono. nra.
  - intros ->. rewrite sqrt_1, Rmult_1_r. reflexivity.
Qed.

Lemma X2_se_at_most_sd_witness :
  exists r,
    convert_to_mean_sd 10 0.5 "CI99" 25 = Ok r
    /\ Rabs (se r) <= Rabs (sd r).
Proof.
  destruct (X2_se_at_most_sd 10 0.5 "CI99" 25 eq_refl eq_refl)
    as (r & Hr & H & _).
  exists r. split; [exact Hr | exact H].
Defined.

(** X3.  Converting an SE to an SD and converting that SD back through
    the SD path, with the same positive sample size, gives a record with
    the same SD whose SE is within 0.0000015 of the SE of the first
    record. *)
Theorem X3_se_sd_round_trip (m_mean error_bar : R) (n : Z) :
  (0 < n)%Z ->
  exists r r',
    convert_to_mean_sd m_mean error_bar "SE" n = Ok r
    /\ convert_to_mean_sd m_mean (sd r) "SD" n = Ok r'
    /\ sd r' = sd r
    /\ Rabs (se r' - se r) <= 0.0000015.
Proof.
  intros Hn.
  pose proof (sqrt_IZR_ge_1 n Hn) as Hs.
  destruct (row_SE m_mean error_bar n Hn) as (r & Hr & _ & Hse & Hsd & _).
  destruct (row_SD m_mean (sd r) n Hn) as (r' & Hr' & _ & Hse' & Hsd' & _).
  exists r, r'. split; [exact Hr|]. split; [exact Hr'|]. split.
  - rewrite Hsd', Hsd. apply py_round_idem.
  - rewrite Hse', Hse, Hsd.
    set (s := sqrt (IZR n)) in *.
    pose proof (Rabs_le_inv _ _ (py_round_err error_bar 6)) as H1.
    pose proof (Rabs_le_inv _ _ (py_round_err (error_bar * s) 6)) as H2.
    pose proof (Rabs_le_inv _ _
                  (py_round_err (py_round (error_bar * s) 6 / s) 6)) as H3.
    assert (Hp : 10 ^ 6 = 1000000) by (simpl; lra).
    rewrite Hp in H1, H2, H3.
    set (y := py_round (error_bar * s) 6) in *.
    assert (Hinv : 0 < / s <= 1).
    { split; [apply Rinv_0_lt_compat; lra|].
      rewrite <- Rinv_1. apply Rinv_le_contravar; lra. }
    assert (Hy : - (1 / 2 / 1000000) <= y / s - error_bar
                 <= 1 / 2 / 1000000).
    { replace (y / s - error_bar) with ((y - error_bar * s) * / s)
        by (field; lra).
      split; nra. }
    apply Rabs_le. lra.
Qed.

Lemma X3_se_sd_round_trip_witness :
  exists r r',
    convert_to_mean_sd 10 0.5 "SE" 25 = Ok r
    /\ convert_to_mean_sd 10 (sd r) "SD" 25 = Ok r'
    /\ sd r' = sd r
    /\ Rabs (se r' - se r) <= 0.0000015.
Proof. exact (X3_se_sd_round_trip 10 0.5 25 eq_refl). Defined.

(** * Confidence intervals and effect sizes *)

Import EngineAncillary.

(** X4.  For a positive sample size and a non-negative SD the confidence
    interval is returned; its margin is non-negative and its bounds enclose
    the rounded mean.  A confidence level other than 0.90, 0.95 and 0.99
    is served with the z-score 1.96, and its interval is the one of the
    level 0.95. *)
Theorem X4_confidence_interval_brackets_mean
    (m_mean m_sd : R) (n : Z) (level : R) :
  (0 < n)%Z -> 0 <= m_sd ->
  exists ci,
    calculate_confidence_interval m_mean m_sd n level = Ok ci
    /\ 0 <= margin_of_error ci
    /\ ci_lower ci <= py_round m_mean 6 <= ci_upper ci
    /\ (level <> 0.90 -> level <> 0.99 ->
        z_score ci = 1.96
        /\ exists ci95,
             calculate_confidence_interval m_mean m_sd n 0.95 = Ok ci95
             /\ margin_of_error ci = margin_of_error ci95
             /\ ci_lower ci = ci_lower ci95
             /\ ci_upper ci = ci_upper ci95).
Proof.
  intros Hn Hsd. pose proof (sqrt_IZR_ge_1 n Hn) as Hs.
  unfold calculate_confidence_interval. py_eval Hn.
  set (z := if Reqb level 0.90 then 1.645
            else if Reqb level 0.95 then 1.96
            else if Reqb level 0.99 then 2.576 else 1.96).
  assert (Hz : 0 < z).
  { unfold z. destruct (Reqb level 0.90); [lra|].
    destruct (Reqb level 0.95); [lra|].
    destruct (Reqb level 0.99); lra. }
  assert (Hse : 0 <= m_sd / sqrt (IZR n)).
  { apply Rmult_le_pos; [exact Hsd|]. left. apply Rinv_0_lt_compat. lra. }
  assert (Hm : 0 <= z * (m_sd / sqrt (IZR n))) by (apply Rmult_le_pos; lra).
  eexists. split; [reflexivity|]. cbn. split; [|split; [split|]].
  - now apply py_round_nonneg.
  - apply py_round_mono. lra.
  - apply py_round_mono. lra.
  - intros H90 H99.
    assert (E90 : Reqb level 0.90 = false) by now apply Reqb_false.
    assert (E99 : Reqb level 0.99 = false) by now apply Reqb_false.
    assert (Ez : z = 1.96).
    { unfold z. rewrite E90, E99. now destruct (Reqb level 0.95). }
    split; [exact Ez|].
    assert (F90 : Reqb 0.95 0.90 = false) by (apply Reqb_false; lra).
    assert (F95 : Reqb 0.95 0.95 = true) by (now apply Reqb_true).
    rewrite F90, F95.
    eexists. split; [reflexivity|]. cbn. rewrite Ez. repeat split.
Qed.

Lemma X4_confidence_interval_brackets_mean_witness :
  exists ci,
    calculate_confidence_interval 10 2 30 0.80 = Ok ci
    /\ 0 <= margin_of_error ci
    /\ ci_lower ci <= py_round 10 6 <= ci_upper ci
    /\ z_score ci = 1.96.
Proof.
  assert (H2 : 0 <= 2) by lra.
  destruct (X4_confidence_interval_brackets_mean 10 2 30 0.80 eq_refl H2)
    as (ci & Hci & Hm & Hb & Hd).
  exists ci. repeat split; try assumption; try apply Hb.
  apply Hd; lra.
Defined.

Section EffectSize.

Variables (a b : ConversionResult).

(** The effect size computed from the entries of two records. *)
Let effect_of : result EffectSize :=
  calculate_effect_size (mean a) (sd a) (sample_size a)
                        (mean b) (sd b) (sample_size b).

Hypothesis Ha : (0 < sample_size a)%Z.
Hypothesis Hb : (0 < sample_size b)%Z.
Hypothesis Hdf : (2 < sample_size a + sample_size b)%Z.

Lemma calculate_effect_size_returns :
  effect_of
  = Ok {| cohens_d := py_round (cohens_d_of a b) 6;
          hedges_g := py_round (hedges_g_of a b) 6;
          glass_delta :=
            py_round (if Rltb 0 (sd b) then (mean a - mean b) / sd b
                      else 0) 6;
          pooled_sd := py_round (pooled_sd_of a b) 6;
          effect_size_interpretation :=
            _interpret_effect_size (Rabs (cohens_d_of a b)) |}.
Proof.
  unfold effect_of, calculate_effect_size.
  rewrite py_div_ok by (apply IZR_sample_ne_0; lia). cbn [bind].
  rewrite (math_sqrt_ok _ (pooled_arg_nonneg a b Ha Hb Hdf)). cbn [bind].
  fold (pooled_sd_of a b).
  assert (Hc : forall x y,
             (if Rltb 0 y then py_div x y else Ok 0)
             = Ok (if Rltb 0 y then x / y else 0)).
  { intros x y. destruct (Rltb 0 y) eqn:E; [|reflexivity].
    apply Rltb_true in E. apply py_div_ok. lra. }
  rewrite !Hc. cbn [bind].
  rewrite py_div_ok by (apply not_0_IZR; lia). cbn [bind].
  reflexivity.
Qed.

(** The small-sample correction factor lies in [0, 1). *)
Lemma correction_factor_range :
  0 <= 1 - 3 / IZR (4 * (sample_size a + sample_size b) - 9) < 1.
Proof.
  assert (H3 : 3 <= IZR (4 * (sample_size a + sample_size b) - 9))
    by (apply IZR_le; lia).
  set (k := IZR (4 * (sample_size a + sample_size b) - 9)) in *.
  assert (Hk : 0 < / k <= / 3).
  { split; [apply Rinv_0_lt_compat; lra|].
    apply Rinv_le_contravar; lra. }
  unfold Rdiv. lra.
Qed.

Lemma hedges_g_of_bound : Rabs (hedges_g_of a b) <= Rabs (cohens_d_of a b).
Proof.
  unfold hedges_g_of. pose proof correction_factor_range as Hf.
  rewrite Rabs_mult.
  rewrite (Rabs_right (1 - _)) by lra.
  pose proof (Rabs_pos (cohens_d_of a b)). nra.
Qed.

Lemma hedges_g_of_three :
  (sample_size a + sample_size b = 3)%Z -> hedges_g_of a b = 0.
Proof.
  intros H3. unfold hedges_g_of.
  replace (4 * (sample_size a + sample_size b) - 9)%Z with 3%Z by lia.
  replace (1 - 3 / 3) with 0 by lra. apply Rmult_0_r.
Qed.

End EffectSize.

(** X5.  The effect sizes of two records with positive sample sizes of sum
    above 2 are returned, and they are those of the comparison of the same
    records: one Cohen's d and one Hedges' g, rounded to 6 places by
    [calculate_effect_size] and to 4 places by the comparison. *)
Theorem X5_effect_size_agrees_with_comparison
    (a b : ConversionResult) (level : R) :
  (0 < sample_size a)%Z -> (0 < sample_size b)%Z ->
  (2 < sample_size a + sample_size b)%Z ->
  exists es r d g,
    calculate_effect_size (mean a) (sd a) (sample_size a)
                          (mean b) (sd b) (sample_size b) = Ok es
    /\ _calculate_group_comparison a b level = Ok r
    /\ EngineAncillary.cohens_d es = py_round d 6
    /\ BarChartConverter.cohens_d r = py_round d 4
    /\ EngineAncillary.hedges_g es = py_round g 6
    /\ BarChartConverter.hedges_g r = py_round g 4.
Proof.
  intros Ha Hb Hdf.
  eexists. exists (comparison_of a b level).
  exists (cohens_d_of a b), (hedges_g_of a b).
  split; [now apply calculate_effect_size_returns|].
  split; [now apply compare_returns|].
  repeat split.
Qed.

Lemma X5_effect_size_agrees_with_comparison_witness :
  exists es r,
    calculate_effect_size 12 2 20 10 2.2 20 = Ok es
    /\ _calculate_group_comparison
         (group_record 12 2 20) (group_record 10 2.2 20) 0.95 = Ok r.
Proof.
  destruct (X5_effect_size_agrees_with_comparison
              (group_record 12 2 20) (group_record 10 2.2 20) 0.95
              eq_refl eq_refl eq_refl)
    as (es & r & d & g & Hes & Hr & _).
  exists es, r. split; [exact Hes | exact Hr].
Defined.

(** X6.  Hedges' g never exceeds Cohen's d in magnitude, in the effect
    sizes and in the comparison alike, for positive sample sizes of sum
    above 2; and when the two groups have three measurements in all, the
    correction factor is 0 and Hedges' g is 0 whatever the data. *)
Theorem X6_hedges_g_bounded_by_cohens_d
    (a b : ConversionResult) (level : R) :
  (0 < sample_size a)%Z -> (0 < sample_size b)%Z ->
  (2 < sample_size a + sample_size b)%Z ->
  exists es r,
    calculate_effect_size (mean a) (sd a) (sample_size a)
                          (mean b) (sd b) (sample_size b) = Ok es
    /\ _calculate_group_comparison a b level = Ok r
    /\ Rabs (EngineAncillary.hedges_g es)
       <= Rabs (EngineAncillary.cohens_d es)
    /\ Rabs (BarChartConverter.hedges_g r)
       <= Rabs (BarChartConverter.cohens_d r)
    /\ ((sample_size a + sample_size b = 3)%Z ->
        EngineAncillary.hedges_g es = 0
        /\ BarChartConverter.hedges_g r = 0).
Proof.
  intros Ha Hb Hdf.
  eexists. exists (comparison_of a b level).
  split; [now apply calculate_effect_size_returns|].
  split; [now apply compare_returns|].
  pose proof (hedges_g_of_bound a b Hdf) as Hbound.
  cbn. split; [|split].
  - rewrite <- !py_round_Rabs. now apply py_round_mono.
  - rewrite <- !py_round_Rabs. now apply py_round_mono.
  - intros H3. rewrite (hedges_g_of_three a b H3), !py_round_0. now split.
Qed.

Lemma X6_hedges_g_bounded_by_cohens_d_witness :
  exists es r,
    calculate_effect_size 5 1 1 0 2 2 = Ok es
    /\ _calculate_group_comparison
         (group_record 5 1 1) (group_record 0 2 2) 0.95 = Ok r
    /\ EngineAncillary.hedges_g es = 0
    /\ BarChartConverter.hedges_g r = 0.
Proof.
  destruct (X6_hedges_g_bounded_by_cohens_d
              (group_record 5 1 1) (group_record 0 2 2) 0.95
              eq_refl eq_refl eq_refl)
    as (es & r & Hes & Hr & _ & _ & H3).
  exists es, r. split; [exact Hes|]. split; [exact Hr|].
  apply H3. reflexivity.
Defined.

Lemma hedges_g_of_swap (a b : ConversionResult) :
  hedges_g_of b a = - hedges_g_of a b.
Proof.
  unfold hedges_g_of. rewrite cohens_d_of_swap.
  rewrite (Z.add_comm (sample_size b) (sample_size a)). ring.
Qed.

(** X7.  Swapping the two groups of [calculate_effect_size] (positive
    sample sizes of sum above 2) turns Cohen's d and Hedges' g into their
    opposites and leaves the pooled SD and the verbal interpretation of
    the effect unchanged. *)
Theorem X7_effect_size_swap (a b : ConversionResult) :
  (0 < sample_size a)%Z -> (0 < sample_size b)%Z ->
  (2 < sample_size a + sample_size b)%Z ->
  exists es es',
    calculate_effect_size (mean a) (sd a) (sample_size a)
                          (mean b) (sd b) (sample_size b) = Ok es
    /\ calculate_effect_size (mean b) (sd b) (sample_size b)
                             (mean a) (sd a) (sample_size a) = Ok es'
    /\ EngineAncillary.cohens_d es' = - EngineAncillary.cohens_d es
    /\ EngineAncillary.hedges_g es' = - EngineAncillary.hedges_g es
    /\ pooled_sd es' = pooled_sd es
    /\ effect_size_interpretation es' = effect_size_interpretation es.
Proof.
  intros Ha Hb Hdf.
  assert (Hdf' : (2 < sample_size b + sample_size a)%Z) by lia.
  eexists. eexists.
  split; [now apply calculate_effect_size_returns|].
  split; [now apply calculate_effect_size_returns|].
  cbn. rewrite (cohens_d_of_swap a b), (hedges_g_of_swap a b),
         (pooled_sd_of_swap a b), !py_round_opp, Rabs_Ropp.
  repeat split.
Qed.

Lemma X7_effect_size_swap_witness :
  exists es es',
    calculate_effect_size 12 2 20 10 2.2 20 = Ok es
    /\ calculate_effect_size 10 2.2 20 12 2 20 = Ok es'
    /\ EngineAncillary.cohens_d es' = - EngineAncillary.cohens_d es.
Proof.
  destruct (X7_effect_size_swap
              (group_record 12 2 20) (group_record 10 2.2 20)
              eq_refl eq_refl eq_refl)
    as (es & es' & H1 & H2 & H3 & _).
  exists es, es'. split; [exact H1|]. split; [exact H2 | exact H3].
Defined.

(** X8.  Where the two methods raise: [calculate_effect_size] raises
    [ZeroDivisionError] whenever the two sample sizes add up to 2, whatever
    the means and SDs; [calculate_confidence_interval] raises
    [ZeroDivisionError] for the sample size 0 and the domain error of
    [math.sqrt] for a negative one. *)
Theorem X8_interval_and_effect_size_raise
    (mean1 sd1 mean2 sd2 level : R) (n1 n2 : Z) :
  ((n1 + n2 = 2)%Z ->
   calculate_effect_size mean1 sd1 n1 mean2 sd2 n2
   = Raise ZeroDivisionError)
  /\ calculate_confidence_interval mean1 sd1 0 level
     = Raise ZeroDivisionError
  /\ ((n1 < 0)%Z ->
      calculate_confidence_interval mean1 sd1 n1 level
      = Raise (ValueError "math domain error")).
Proof.
  split; [|split].
  - intros H. unfold calculate_effect_size.
    replace (n1 + n2 - 2)%Z with 0%Z by lia.
    now rewrite py_div_zero.
  - unfold calculate_confidence_interval.
    rewrite math_sqrt_ok by lra. cbn [bind].
    now rewrite sqrt_0, py_div_zero.
  - intros H. unfold calculate_confidence_interval.
    rewrite math_sqrt_neg; [reflexivity|]. apply IZR_lt. lia.
Qed.

Lemma X8_interval_and_effect_size_raise_witness :
  calculate_effect_size 12 2 1 10 2.2 1 = Raise ZeroDivisionError
  /\ calculate_confidence_interval 12 2 (-4) 0.95
     = Raise (ValueError "math domain error").
Proof.
  destruct (X8_interval_and_effect_size_raise 12 2 10 2.2 0.95 1 1)
    as (H1 & _ & _).
  destruct (X8_interval_and_effect_size_raise 12 2 10 2.2 0.95 (-4) 1)
    as (_ & _ & H3).
  split; [apply H1 | apply H3]; reflexivity.
Defined.

(** * More on the comparison record *)

Section ComparisonRecord.

Variables (a b : ConversionResult) (level : R).

Lemma _get_z_score_range :
  (_get_z_score level = 1.645 \/ _get_z_score level = 1.96
   \/ _get_z_score level = 2.576)
  /\ (level <> 0.99 -> _get_z_score level <= 1.96).
Proof.
  unfold _get_z_score.
  destruct (Reqb level 0.90); [split; [tauto | lra]|].
  destruct (Reqb level 0.95); [split; [tauto | lra]|].
  destruct (Reqb level 0.99) eqn:E; [|split; [tauto | lra]].
  apply Reqb_true in E. split; [tauto | intros; contradiction].
Qed.

Lemma sd_diff_of_nonneg : 0 <= sd_diff_of a b.
Proof. unfold sd_diff_of. apply sqrt_pos. Qed.

End ComparisonRecord.

(** X9.  In the comparison of two records (positive sample sizes of sum
    above 2) the bounds of the confidence interval enclose [delta_mean];
    swapping the groups mirrors the interval ([ci_lower] becomes the
    opposite of [ci_upper] and conversely) and turns Hedges' g into its
    opposite, and [degrees_of_freedom] is [n1 + n2 - 2] either way. *)
Theorem X9_comparison_interval (a b : ConversionResult) (level : R) :
  (0 < sample_size a)%Z -> (0 < sample_size b)%Z ->
  (2 < sample_size a + sample_size b)%Z ->
  exists r r',
    _calculate_group_comparison a b level = Ok r
    /\ _calculate_group_comparison b a level = Ok r'
    /\ BarChartConverter.ci_lower r <= delta_mean r
       <= BarChartConverter.ci_upper r
    /\ BarChartConverter.ci_lower r' = - BarChartConverter.ci_upper r
    /\ BarChartConverter.ci_upper r' = - BarChartConverter.ci_lower r
    /\ BarChartConverter.hedges_g r' = - BarChartConverter.hedges_g r
    /\ degrees_of_freedom r = (sample_size a + sample_size b - 2)%Z
    /\ degrees_of_freedom r' = degrees_of_freedom r.
Proof.
  intros Ha Hb Hdf.
  assert (Hdf' : (2 < sample_size b + sample_size a)%Z) by lia.
  exists (comparison_of a b level), (comparison_of b a level).
  split; [now apply compare_returns|].
  split; [now apply compare_returns|].
  pose proof (sd_diff_of_nonneg a b) as Hs.
  assert (Hz : 0 < _get_z_score level).
  { destruct (_get_z_score_range level) as ([H | [H | H]] & _); lra. }
  assert (Hm : 0 <= _get_z_score level * sd_diff_of a b)
    by (apply Rmult_le_pos; lra).
  cbn [comparison_of delta_mean BarChartConverter.ci_lower
       BarChartConverter.ci_upper BarChartConverter.hedges_g
       degrees_of_freedom].
  rewrite (sd_diff_of_swap a b), (hedges_g_of_swap a b), (df_of_swap a b).
  rewrite <- !py_round_opp.
  split; [split; apply py_round_mono; lra|].
  split; [f_equal; lra|]. split; [f_equal; lra|].
  repeat split.
Qed.

Lemma X9_comparison_interval_witness :
  exists r,
    _calculate_group_comparison
      (group_record 12 2 20) (group_record 10 2.2 20) 0.95 = Ok r
    /\ BarChartConverter.ci_lower r <= delta_mean r
       <= BarChartConverter.ci_upper r
    /\ degrees_of_freedom r = 38%Z.
Proof.
  destruct (X9_comparison_interval
              (group_record 12 2 20) (group_record 10 2.2 20) 0.95
              eq_refl eq_refl eq_refl)
    as (r & r' & Hr & _ & Hb & _ & _ & _ & Hdf & _).
  exists r. split; [exact Hr|]. split; [exact Hb | exact Hdf].
Defined.

Section Significance.


Lemma _calculate_p_value_antitone (x y : R) (df : Z) :
  0 <= x <= y -> _calculate_p_value y df <= _calculate_p_value x df.
Proof.
  intros [Hx Hxy]. unfold _calculate_p_value.
  destruct (df <=? 0)%Z; [lra|].
  destruct (Reqb x 0) eqn:Ex0;
    [apply Reqb_true in Ex0 | apply Reqb_false in Ex0];
    destruct (Reqb y 0) eqn:Ey0;
    [apply Reqb_true in Ey0 | apply Reqb_false in Ey0
    |apply Reqb_true in Ey0 | apply Reqb_false in Ey0];
    try lra;
    repeat match goal with
           | |- context [Rltb ?u ?v] =>
               let E := fresh "E" in
               destruct (Rltb u v) eqn:E;
               [apply Rltb_true in E | apply Rltb_false in E]
           end; lra.
Qed.

End Significance.



(** X11.  The bucketed p-value never grows with the size of the
    t-statistic: for [0 <= x <= y] the p-value of [y] is at most that of
    [x], whatever the degrees of freedom.  Hence a comparison that is
    significant at some confidence level is significant at every lower
    level. *)
Theorem X11_p_value_antitone
    (a b : ConversionResult) (level level' x y : R) (df : Z) :
  (0 < sample_size a)%Z -> (0 < sample_size b)%Z ->
  (2 < sample_size a + sample_size b)%Z ->
  (0 <= x <= y -> _calculate_p_value y df <= _calculate_p_value x df)
  /\ (level' <= level ->
      exists r r',
        _calculate_group_comparison a b level = Ok r
        /\ _calculate_group_comparison a b level' = Ok r'
        /\ p_value r' = p_value r
        /\ (significant r = true -> significant r' = true)).
Proof.
  intros Ha Hb Hdf. split; [apply _calculate_p_value_antitone|].
  intros Hl.
  exists (comparison_of a b level), (comparison_of a b level').
  split; [now apply compare_returns|].
  split; [now apply compare_returns|].
  cbn [comparison_of p_value significant]. split; [reflexivity|].
  intros H. apply Rltb_true in H. apply Rltb_true. lra.
Qed.

Lemma X11_p_value_antitone_witness :
  _calculate_p_value 3.5 38 <= _calculate_p_value 1 38
  /\ exists r r',
       _calculate_group_comparison
         (group_record 12 2 20) (group_record 10 2.2 20) 0.99 = Ok r
       /\ _calculate_group_comparison
            (group_record 12 2 20) (group_record 10 2.2 20) 0.9 = Ok r'
       /\ p_value r' = p_value r.
Proof.
  destruct (X11_p_value_antitone
              (group_record 12 2 20) (group_record 10 2.2 20)
              0.99 0.9 1 3.5 38 eq_refl eq_refl eq_refl)
    as (Hp & Hs).
  split; [apply Hp; lra|].
  destruct Hs as (r & r' & H1 & H2 & H3 & _); [lra|].
  exists r, r'. auto.
Defined.

(** * The comparison pass *)

Import ComparisonPass.

Section Pairing.

Context {A : Type}.

Lemma skipn_nth_error_Some (l : list A) (i : nat) (x : A) :
  nth_error l i = Some x -> skipn i l = x :: skipn (S i) l.
Proof.
  revert l. induction i as [| i IH]; intros [| y l] H; cbn in *;
    try discriminate.
  - now injection H as ->.
  - now apply IH.
Qed.

Lemma skipn_nth_error_None (l : list A) (i : nat) :
  nth_error l i = None -> skipn i l = [].
Proof.
  revert l. induction i as [| i IH]; intros [| y l] H; cbn in *;
    try discriminate; try reflexivity.
  now apply IH.
Qed.

Lemma combine_nil_r {B : Type} (l : list B) : combine l (@nil A) = [].
Proof. now destruct l. Qed.

Lemma nth_error_combine {B : Type} (l : list B) (l' : list A)
    (k : nat) (x : B) (y : A) :
  nth_error l k = Some x -> nth_error l' k = Some y ->
  nth_error (combine l l') k = Some (x, y).
Proof.
  revert l l'. induction k as [| k IH]; intros [| a l] [| b l'] H H';
    cbn in *; try discriminate.
  - now injection H as ->; injection H' as ->.
  - now apply IH.
Qed.

End Pairing.

Section ComparePairs.

Variables (intervention_results : list IndicatorResult) (level : R).

Lemma compare_from_comparable
    (baseline_results : list IndicatorResult) (i : nat)
    (acc : list Comparison) :
  Forall comparable
         (combine baseline_results (skipn i intervention_results)) ->
  compare_from i baseline_results intervention_results level acc
  = Ok (acc ++ map (pair_comparison level)
                   (combine baseline_results
                            (skipn i intervention_results))).
Proof.
  revert i acc.
  induction baseline_results as [| bl rest IH]; intros i acc Hall;
    cbn [compare_from].
  - cbn. now rewrite app_nil_r.
  - destruct (nth_error intervention_results i) as [iv|] eqn:E.
    + rewrite (skipn_nth_error_Some _ _ _ E) in *.
      cbn [combine] in *.
      inversion Hall as [| p ps Hp Hps]; subst.
      destruct Hp as (Hbl & Hiv & Hdf). cbn [fst snd] in *.
      rewrite (compare_returns iv bl level Hiv Hbl Hdf). cbn [bind].
      rewrite (IH (S i) _ Hps). cbn [map pair_comparison].
      now rewrite <- app_assoc.
    + assert (E' : skipn (S i) intervention_results = []).
      { apply skipn_nth_error_None.
        apply nth_error_None. apply nth_error_None in E. lia. }
      rewrite IH by (rewrite E', combine_nil_r; constructor).
      now rewrite E', (skipn_nth_error_None _ _ E), !combine_nil_r.
Qed.

Lemma compare_from_raises
    (baseline_results : list IndicatorResult) (i : nat)
    (acc : list Comparison) :
  Forall (fun p : IndicatorResult * IndicatorResult =>
            (0 < sample_size (fst p))%Z
                   /\ (0 < sample_size (snd p))%Z)
         (combine baseline_results (skipn i intervention_results)) ->
  Exists (fun p : IndicatorResult * IndicatorResult =>
            (sample_size (snd p) + sample_size (fst p) = 2)%Z)
         (combine baseline_results (skipn i intervention_results)) ->
  compare_from i baseline_results intervention_results level acc
  = Raise ZeroDivisionError.
Proof.
  revert i acc.
  induction baseline_results as [| bl rest IH]; intros i acc Hall Hex;
    cbn [compare_from].
  - cbn in Hex. inversion Hex.
  - destruct (nth_error intervention_results i) as [iv|] eqn:E.
    + rewrite (skipn_nth_error_Some _ _ _ E) in *.
      cbn [combine] in *.
      inversion Hall as [| p ps Hp Hps]; subst.
      destruct Hp as (Hbl & Hiv). cbn [fst snd] in *.
      destruct (Z.eq_dec (sample_size iv + sample_size bl) 2) as [E2 | N2].
      * now rewrite (compare_raises_df_zero iv bl level Hiv Hbl E2).
      * assert (Hdf : (2 < sample_size iv + sample_size bl)%Z) by lia.
        rewrite (compare_returns iv bl level Hiv Hbl Hdf). cbn [bind].
        apply IH; [exact Hps|].
        inversion Hex as [p ps Hhead | p ps Htail]; subst;
          [cbn [fst snd] in Hhead; contradiction | exact Htail].
    + rewrite (skipn_nth_error_None _ _ E), combine_nil_r in Hex.
      inversion Hex.
Qed.

End ComparePairs.

(** X12.  With a comparison type "all" or "intervention-baseline", and
    when every baseline record and the intervention record of the same
    position have positive sample sizes of sum above 2, the comparison pass
    returns one comparison per position present in both groups, in order:
    their number is the smaller of the two group lengths, the comparison of
    position [k] is that of the intervention record [k] against the
    baseline record [k] and takes its name from the baseline record, and
    the count of significant comparisons is at most the total. *)
Theorem X12_comparison_pass_pairs_by_position
    (results : dict (list IndicatorResult)) (ty : string) (level : R) :
  str_in ty ["all"; "intervention-baseline"]%string = true ->
  Forall comparable
         (combine (baseline_of results) (intervention_of results)) ->
  exists report,
    perform_group_comparisons results ty level = Ok report
    /\ total_comparisons report
       = Nat.min (List.length (baseline_of results))
                 (List.length (intervention_of results))
    /\ List.length (comparisons report) = total_comparisons report
    /\ (significant_comparisons report <= total_comparisons report)%nat
    /\ (forall k bl iv,
          nth_error (baseline_of results) k = Some bl ->
          nth_error (intervention_of results) k = Some iv ->
          exists c,
            nth_error (comparisons report) k = Some c
            /\ _calculate_group_comparison iv bl level = Ok (comparison c)
            /\ group1_data c = iv /\ group2_data c = bl
            /\ comparison_indicator_name c = indicator_name bl).
Proof.
  intros Hty Hall. unfold perform_group_comparisons. rewrite Hty.
  fold (baseline_of results). fold (intervention_of results).
  rewrite (compare_from_comparable _ level _ 0 []) by exact Hall.
  cbn [bind app skipn].
  set (pairs := combine (baseline_of results) (intervention_of results))
    in *.
  assert (Hlen : List.length (map (pair_comparison level) pairs)
                 = Nat.min (List.length (baseline_of results))
                           (List.length (intervention_of results))).
  { unfold pairs. now rewrite length_map, length_combine. }
  eexists. split; [reflexivity|].
  cbn [total_comparisons comparisons significant_comparisons].
  split; [exact Hlen|]. split; [reflexivity|].
  split.
  - apply filter_length_le.
  - intros k bl iv Hbl Hiv.
    pose proof (nth_error_combine _ _ _ _ _ Hbl Hiv) as Hk. fold pairs in Hk.
    exists (pair_comparison level (bl, iv)).
    split; [now rewrite nth_error_map, Hk|].
    rewrite Forall_forall in Hall.
    destruct (Hall _ (nth_error_In _ _ Hk)) as (H1 & H2 & H3).
    cbn [fst snd] in *. cbn [pair_comparison comparison group1_data
                             group2_data comparison_indicator_name].
    split; [now apply compare_returns|]. repeat split.
Qed.

Lemma X12_comparison_pass_pairs_by_position_witness :
  exists report,
    perform_group_comparisons
      [ ("Baseline"%string,
         [ mkIndicatorResult (group_record 10 2.2 20) "Indicator1" "SD"
                             "SD" 0.9 "direct_sd" ]);
        ("Intervention"%string,
         [ mkIndicatorResult (group_record 12 2 20) "Indicator1" "SD"
                             "SD" 0.9 "direct_sd";
           mkIndicatorResult (group_record 7 1 20) "Indicator2" "SD"
                             "SD" 0.9 "direct_sd" ]) ]
      "all" 0.95 = Ok report
    /\ total_comparisons report = 1%nat.
Proof.
  match goal with
  | |- exists report, perform_group_comparisons ?res ?ty ?lv = _ /\ _ =>
      destruct (X12_comparison_pass_pairs_by_position res ty lv eq_refl)
        as (report & Hr & Ht & _)
  end.
  - constructor; [|constructor]. repeat split.
  - exists report. split; [exact Hr | exact Ht].
Defined.

(** X13.  With any other comparison type the pass returns an empty
    report.  With a valid type and positive sample sizes throughout, a
    single pair of groups of one measurement each makes the whole pass
    raise [ZeroDivisionError]: no comparison of the other indicators is
    returned. *)
Theorem X13_comparison_pass_aborts
    (results : dict (list IndicatorResult)) (ty : string) (level : R) :
  (str_in ty ["all"; "intervention-baseline"]%string = false ->
   exists report,
     perform_group_comparisons results ty level = Ok report
     /\ comparisons report = [] /\ total_comparisons report = 0%nat
     /\ significant_comparisons report = 0%nat)
  /\ (str_in ty ["all"; "intervention-baseline"]%string = true ->
      Forall (fun p : IndicatorResult * IndicatorResult =>
                (0 < sample_size (fst p))%Z /\ (0 < sample_size (snd p))%Z)
             (combine (baseline_of results) (intervention_of results)) ->
      Exists (fun p : IndicatorResult * IndicatorResult =>
                sample_size (fst p) = 1%Z /\ sample_size (snd p) = 1%Z)
             (combine (baseline_of results) (intervention_of results)) ->
      perform_group_comparisons results ty level = Raise ZeroDivisionError).
Proof.
  split.
  - intros Hty. unfold perform_group_comparisons. rewrite Hty. cbn [bind].
    eexists. split; [reflexivity|]. repeat split.
  - intros Hty Hall Hex. unfold perform_group_comparisons. rewrite Hty.
    fold (baseline_of results). fold (intervention_of results).
    rewrite compare_from_raises; [reflexivity | exact Hall |].
    cbn [skipn]. apply Exists_exists in Hex. apply Exists_exists.
    destruct Hex as (p & Hin & H1 & H2). exists p. split; [exact Hin | lia].
Qed.

Lemma X13_comparison_pass_aborts_witness :
  perform_group_comparisons
    [ ("Baseline"%string,
       [ mkIndicatorResult (group_record 10 2.2 20) "Indicator1" "SD"
                           "SD" 0.9 "direct_sd";
         mkIndicatorResult (group_record 10 2 1) "Indicator2" "SD"
                           "SD" 0.9 "direct_sd" ]);
      ("Intervention"%string,
       [ mkIndicatorResult (group_record 12 2 20) "Indicator1" "SD"
                           "SD" 0.9 "direct_sd";
         mkIndicatorResult (group_record 7 1 1) "Indicator2" "SD"
                           "SD" 0.9 "direct_sd" ]) ]
    "intervention-baseline" 0.95 = Raise ZeroDivisionError.
Proof.
  match goal with
  | |- perform_group_comparisons ?res ?ty ?lv = _ =>
      apply (proj2 (X13_comparison_pass_aborts res ty lv) eq_refl)
  end.
  - repeat constructor.
  - right. left. split; reflexivity.
Defined.

Section RevMan.

Variable intervention_results : list IndicatorResult.

Lemma revman_from_pairs
    (baseline_results : list IndicatorResult) (i : nat)
    (acc : list RevManRow) :
  revman_from i baseline_results intervention_results acc
  = acc ++ map pair_row
               (combine baseline_results (skipn i intervention_results)).
Proof.
  revert i acc.
  induction baseline_results as [| bl rest IH]; intros i acc;
    cbn [revman_from].
  - cbn. now rewrite app_nil_r.
  - destruct (nth_error intervention_results i) as [iv|] eqn:E.
    + rewrite (skipn_nth_error_Some _ _ _ E). cbn [combine map].
      rewrite IH. cbn [pair_row]. now rewrite <- app_assoc.
    + assert (E' : skipn (S i) intervention_results = []).
      { apply skipn_nth_error_None.
        apply nth_error_None. apply nth_error_None in E. lia. }
      rewrite IH.
      now rewrite E', (skipn_nth_error_None _ _ E), !combine_nil_r.
Qed.

End RevMan.

(** X14.  The RevMan rows pair the two groups by position: there are as
    many rows as the smaller of the two groups has records, and row [k]
    carries the mean, SD and sample size of the intervention record [k] and
    of the baseline record [k] under the name of the baseline record; the
    records that the longer group has in excess are dropped. *)
Theorem X14_revman_rows_pair_by_position
    (results : dict (list IndicatorResult)) :
  List.length (_create_revman_format results)
  = Nat.min (List.length (baseline_of results))
            (List.length (intervention_of results))
  /\ (forall k bl iv,
        nth_error (baseline_of results) k = Some bl ->
        nth_error (intervention_of results) k = Some iv ->
        exists row,
          nth_error (_create_revman_format results) k = Some row
          /\ Study_ID row = indicator_name bl
          /\ Intervention_Mean row = mean iv
          /\ Intervention_SD row = sd iv
          /\ Intervention_N row = sample_size iv
          /\ Control_Mean row = mean bl
          /\ Control_SD row = sd bl
          /\ Control_N row = sample_size bl).
Proof.
  unfold _create_revman_format.
  fold (baseline_of results). fold (intervention_of results).
  rewrite revman_from_pairs. cbn [app skipn]. split.
  - now rewrite length_map, length_combine.
  - intros k bl iv Hbl Hiv.
    pose proof (nth_error_combine _ _ _ _ _ Hbl Hiv) as Hk.
    exists (pair_row (bl, iv)).
    split; [now rewrite nth_error_map, Hk|]. repeat split.
Qed.

(** * Batches *)

Section Batch.

Lemma dict_set_total (d : dict Z) (k : string) (v : Z) :
  dict_total (dict_set d k v) = (dict_total d - dict_get d k 0 + v)%Z.
Proof.
  induction d as [| [k' v'] d IH]; cbn.
  - unfold dict_get. cbn. lia.
  - unfold dict_get in *. cbn.
    destruct (String.eqb k k'); cbn; [lia|].
    rewrite IH. lia.
Qed.

(** When [convert_to_mean_sd] returns. *)
Lemma convert_returns_iff (m_mean error_bar : R) (ty : string) (n : Z) :
  returns (convert_to_mean_sd m_mean error_bar ty n)
  <-> convertible_input ty n.
Proof.
  unfold convertible_input. split.
  - intros (r & Hr).
    destruct (str_in ty convertible_types) eqn:Hin.
    + split; [reflexivity|].
      destruct (Z_lt_le_dec 0 n) as [Hpos | Hle]; [now left | right].
      destruct (Z.eq_dec n 0) as [-> | Hne].
      * split; [reflexivity|]. intros ->.
        rewrite convert_SD_zero_sample_size in Hr. discriminate.
      * rewrite convert_negative_sample_size in Hr by (trivial; lia).
        discriminate.
    + unfold convert_to_mean_sd in Hr.
      rewrite (lookup_not_convertible ty Hin) in Hr. discriminate.
  - intros (Hin & [Hpos | (-> & Hne)]).
    + destruct (lookup_convertible ty Hin) as (f & Hf & Hinf).
      destruct (method_returns m_mean error_bar n f Hpos Hinf) as (c & Hc).
      unfold convert_to_mean_sd. rewrite Hf, Hc. eexists; reflexivity.
    + destruct (convert_other_zero_sample_size m_mean error_bar ty Hin Hne)
        as (r & Hr & _).
      now exists r.
Qed.

Lemma filter_snoc {A} (f : A -> bool) (l : list A) (x : A) :
  filter f (l ++ [x]) = filter f l ++ (if f x then [x] else []).
Proof. rewrite filter_app. reflexivity. Qed.

Lemma batch_step_invariant
    (consumed : list BatchInput)
    (state : list BatchResult * BatchSummary) (data : BatchInput) :
  batch_invariant consumed state ->
  batch_invariant (consumed ++ [data]) (batch_step state data).
Proof.
  destruct state as [results summary].
  intros (Hout & Htot & Hsum & Hsucc & Hq & Hty).
  unfold batch_step.
  destruct (convert_to_mean_sd (in_mean data) (in_error_bar data)
              (in_error_type data) (in_sample_size data)) as [r | e] eqn:Ec;
    cbn [bind].
  - destruct (validate_conversion_result_spec r) as (v & Hv & _).
    rewrite Hv. cbn [bind]. unfold batch_invariant. cbn.
    rewrite !length_app, filter_snoc, length_app. cbn.
    repeat split; try lia.
    + apply Forall2_app; [exact Hout|]. constructor; [|constructor].
      unfold batch_outcome. rewrite Ec. now exists v.
    + destruct (quality_assessment v); cbn; lia.
    + rewrite dict_set_total. lia.
  - unfold batch_invariant. cbn.
    rewrite !length_app, filter_snoc, length_app. cbn.
    repeat split; try lia.
    apply Forall2_app; [exact Hout|]. constructor; [|constructor].
    unfold batch_outcome. now rewrite Ec.
Qed.

Lemma batch_fold_invariant
    (data_list consumed : list BatchInput)
    (state : list BatchResult * BatchSummary) :
  batch_invariant consumed state ->
  batch_invariant (consumed ++ data_list)
                   (fold_left batch_step data_list state).
Proof.
  revert consumed state.
  induction data_list as [| data rest IH]; intros consumed state Hinv.
  - now rewrite app_nil_r.
  - cbn [fold_left].
    replace (consumed ++ data :: rest) with ((consumed ++ [data]) ++ rest)
      by (now rewrite <- app_assoc).
    apply IH. now apply batch_step_invariant.
Qed.

Lemma batch_convert_outcomes (data_list : list BatchInput) :
  Forall2 batch_outcome data_list (fst (batch_convert data_list)).
Proof.
  unfold batch_convert.
  match goal with
  | |- context [fold_left batch_step data_list ?init] =>
      pose proof (batch_fold_invariant data_list [] init) as H
  end.
  cbn [app] in H.
  destruct (fold_left batch_step data_list _) as [results summary].
  apply H. unfold batch_invariant. cbn. repeat split; try lia. constructor.
Qed.

End Batch.

(** X15.  A batch conversion handles every input and never raises: the
    results list has one entry per input, in the order of the inputs, which
    is the conversion with its validation when the conversion returns and
    the record of the exception otherwise.  The summary is consistent with
    it: [total_conversions] is the number of inputs, the successful and
    failed counts add up to it, the successful count is the number of
    converted entries, and both the quality distribution and the counts per
    error type add up to the successful count. *)
Theorem X15_batch_convert_accounting (data_list : list BatchInput) :
  let '(results, summary) := batch_convert data_list in
  Forall2 batch_outcome data_list results
  /\ List.length results = List.length data_list
  /\ total_conversions summary = Z.of_nat (List.length data_list)
  /\ (successful_conversions summary + failed_conversions summary
      = total_conversions summary)%Z
  /\ successful_conversions summary
     = Z.of_nat (List.length (filter is_converted results))
  /\ (n_good (quality_distribution summary)
      + n_fair (quality_distribution summary)
      + n_poor (quality_distribution summary)
      = successful_conversions summary)%Z
  /\ dict_total (conversion_types summary) = successful_conversions summary.
Proof.
  unfold batch_convert.
  match goal with
  | |- context [fold_left batch_step data_list ?init] =>
      pose proof (batch_fold_invariant data_list [] init) as H
  end.
  cbn [app] in H.
  destruct (fold_left batch_step data_list _) as [results summary].
  destruct H as (Hout & Htot & Hsum & Hsucc & Hq & Hty).
  - unfold batch_invariant. cbn. repeat split; try lia. constructor.
  - repeat split; try assumption.
    symmetry. eapply Forall2_length. exact Hout.
Qed.

(** X16.  The entry of a batch for an input is a conversion exactly when
    the error type of the input is one of the six convertible types and
    its sample size is positive, or is 0 with a type other than SD; every
    other input (an unsupported type such as UNKNOWN or an alias, a
    negative sample size, the sample size 0 with SD) yields a failure
    entry, and the batch goes on. *)
Theorem X16_batch_entry_converted_iff
    (data_list : list BatchInput) (k : nat) (data : BatchInput) :
  nth_error data_list k = Some data ->
  exists res,
    nth_error (fst (batch_convert data_list)) k = Some res
    /\ (is_converted res = true
        <-> convertible_input (in_error_type data) (in_sample_size data)).
Proof.
  intros Hk.
  pose proof (batch_convert_outcomes data_list) as H.
  destruct (batch_convert data_list) as [results summary]. cbn [fst] in *.
  revert k Hk. induction H as [| d res ds rs Hd Hrest IH]; intros k Hk.
  - destruct k; discriminate.
  - destruct k as [| k]; cbn [nth_error] in *.
    + injection Hk as ->. exists res. split; [reflexivity|].
      rewrite <- (convert_returns_iff (in_mean data) (in_error_bar data)).
      unfold batch_outcome in Hd.
      destruct (convert_to_mean_sd (in_mean data) (in_error_bar data)
                  (in_error_type data) (in_sample_size data)) as [r | e].
      * destruct Hd as (v & _ & ->). cbn [is_converted].
        split; [|reflexivity]. intros _. now exists r.
      * subst res. cbn [is_converted]. split; [discriminate|].
        intros (r & Hr). discriminate.
    + now apply IH.
Qed.

Lemma X16_batch_entry_converted_iff_witness :
  exists res,
    nth_error
      (fst (batch_convert [ mkBatchInput 10 2 "UNKNOWN" 30;
                            mkBatchInput 10 2 "SE" 30 ])) 1
    = Some res
    /\ is_converted res = true.
Proof.
  destruct (X16_batch_entry_converted_iff
              [ mkBatchInput 10 2 "UNKNOWN" 30; mkBatchInput 10 2 "SE" 30 ]
              1 (mkBatchInput 10 2 "SE" 30) eq_refl)
    as (res & Hres & Hiff).
  exists res. split; [exact Hres|]. apply Hiff.
  split; [reflexivity | left; reflexivity].
Defined.

(** * The quality of a group *)

Section GroupQuality.

Lemma INR_scaled_le (p q a b : nat) :
  INR a * (INR p / INR q) <= INR b <-> (p * a <= q * b)%nat \/ q = 0%nat.
Proof.
  destruct q as [| q].
  - cbn [INR]. unfold Rdiv. rewrite Rinv_0, Rmult_0_r, Rmult_0_r.
    split; [now right | intros _; apply pos_INR].
  - assert (Hq : 0 < INR (S q)) by (apply lt_0_INR; lia).
    split.
    + intros H. left. apply INR_le. rewrite !mult_INR.
      apply Rmult_le_reg_r with (/ INR (S q));
        [now apply Rinv_0_lt_compat|].
      replace (INR (S q) * INR b * / INR (S q)) with (INR b)
        by (field; lra).
      unfold Rdiv in H. lra.
    + intros [H | H]; [|discriminate].
      apply le_INR in H. rewrite !mult_INR in H.
      unfold Rdiv.
      apply Rmult_le_reg_r with (INR (S q)); [exact Hq|].
      replace (INR a * (INR p * / INR (S q)) * INR (S q))
        with (INR p * INR a) by (field; lra).
      lra.
Qed.

End GroupQuality.

(** X17.  The quality label of a group in terms of its counts: no data
    for an empty group; otherwise, with [c] complete indicators out of
    [t], "complete" when [c = t], "good" when [c < t] and [4t <= 5c],
    "fair" when [5c < 4t] and [t <= 2c], and "incomplete" when
    [2c < t]. *)
Theorem X17_group_quality_thresholds (data_complete : list bool) :
  let c := List.length (filter (fun complete => complete) data_complete) in
  let t := List.length data_complete in
  (_assess_group_quality data_complete = NoData <-> data_complete = [])
  /\ (_assess_group_quality data_complete = Complete
      <-> data_complete <> [] /\ c = t)
  /\ (_assess_group_quality data_complete = Good
      <-> (c < t /\ 4 * t <= 5 * c)%nat)
  /\ (_assess_group_quality data_complete = Fair
      <-> (5 * c < 4 * t /\ t <= 2 * c)%nat)
  /\ (_assess_group_quality data_complete = Incomplete
      <-> (2 * c < t)%nat).
Proof.
  intros c t.
  assert (Hct : (c <= t)%nat) by apply filter_length_le.
  assert (Hbody :
            data_complete <> [] ->
            _assess_group_quality data_complete
            = if Nat.eqb c t then Complete
              else if Rleb (INR t * 0.8) (INR c) then Good
              else if Rleb (INR t * 0.5) (INR c) then Fair
              else Incomplete)
    by (destruct data_complete; [congruence | reflexivity]).
  assert (Hnil : data_complete = [] ->
                 _assess_group_quality data_complete = NoData
                 /\ t = 0%nat /\ c = 0%nat)
    by (intros ->; repeat split).
  assert (Ht : data_complete <> [] -> (0 < t)%nat)
    by (destruct data_complete; [congruence | intros _; cbn; lia]).
  clearbody c t.
  destruct data_complete as [| flag rest].
  - destruct (Hnil eq_refl) as (-> & -> & ->).
    repeat split; intros; try discriminate; try tauto; try lia.
  - assert (Hne : flag :: rest <> []) by discriminate.
    rewrite (Hbody Hne). specialize (Ht Hne). clear Hbody Hnil.
    assert (H08 : 0.8 = INR 4 / INR 5) by (simpl; lra).
    assert (H05 : 0.5 = INR 1 / INR 2) by (simpl; lra).
    destruct (Nat.eqb c t) eqn:Eeq;
      [apply Nat.eqb_eq in Eeq | apply Nat.eqb_neq in Eeq].
    { repeat split; intros; try discriminate; try lia; try tauto. }
    destruct (Rleb (INR t * 0.8) (INR c)) eqn:E8.
    { apply Rleb_true in E8. rewrite H08 in E8.
      apply INR_scaled_le in E8. destruct E8 as [E8 | E8]; [|discriminate].
      repeat split; intros; try discriminate; try lia; try tauto. }
    apply Rleb_false in E8.
    assert (N8 : (5 * c < 4 * t)%nat).
    { destruct (Nat.le_gt_cases (4 * t) (5 * c)) as [H | H]; [|exact H].
      exfalso. assert (INR t * (INR 4 / INR 5) <= INR c)
        by (apply INR_scaled_le; now left).
      rewrite <- H08 in *. lra. }
    destruct (Rleb (INR t * 0.5) (INR c)) eqn:E5.
    { apply Rleb_true in E5. rewrite H05 in E5.
      apply INR_scaled_le in E5. destruct E5 as [E5 | E5]; [|discriminate].
      repeat split; intros; try discriminate; try lia; try tauto. }
    apply Rleb_false in E5.
    assert (N5 : (2 * c < t)%nat).
    { destruct (Nat.le_gt_cases t (2 * c)) as [H | H]; [|exact H].
      exfalso. assert (INR t * (INR 1 / INR 2) <= INR c)
        by (apply INR_scaled_le; left; lia).
      rewrite <- H05 in *. lra. }
    repeat split; intros; try discriminate; try lia; try tauto.
Qed.

(** * Normalization of declared types *)

Import DetectorAncillary.

Section Strings.

Lemma upper_ascii_idem (c : ascii) :
  upper_ascii (upper_ascii c) = upper_ascii c.
Proof.
  destruct c as [[] [] [] [] [] [] [] []]; reflexivity.
Qed.

Lemma isspace_upper_ascii (c : ascii) : isspace (upper_ascii c) = isspace c.
Proof.
  destruct c as [[] [] [] [] [] [] [] []]; reflexivity.
Qed.

Lemma upper_idem (s : string) : upper (upper s) = upper s.
Proof.
  induction s as [| c s IH]; cbn; [reflexivity|].
  now rewrite upper_ascii_idem, IH.
Qed.

Lemma upper_empty (s : string) : upper s = EmptyString <-> s = EmptyString.
Proof. destruct s; cbn; split; intros; try reflexivity; discriminate. Qed.

Lemma upper_lstrip (s : string) : upper (lstrip s) = lstrip (upper s).
Proof.
  induction s as [| c s IH]; cbn; [reflexivity|].
  rewrite isspace_upper_ascii. now destruct (isspace c).
Qed.

Lemma upper_rstrip (s : string) : upper (rstrip s) = rstrip (upper s).
Proof.
  induction s as [| c s IH]; cbn; [reflexivity|].
  rewrite <- IH, isspace_upper_ascii.
  destruct (rstrip s); cbn; [now destruct (isspace c) | reflexivity].
Qed.

Lemma upper_strip (s : string) : upper (strip s) = strip (upper s).
Proof. unfold strip. now rewrite upper_rstrip, upper_lstrip. Qed.

Lemma rstrip_idem (s : string) : rstrip (rstrip s) = rstrip s.
Proof.
  induction s as [| c s IH]; cbn; [reflexivity|].
  destruct (rstrip s) as [| d t] eqn:E.
  - destruct (isspace c) eqn:Ec; cbn; [reflexivity | now rewrite Ec].
  - cbn [rstrip] in *. destruct (rstrip t) eqn:Et.
    + destruct (isspace d); [discriminate|]. now rewrite IH.
    + now rewrite IH.
Qed.

(** A string that is empty or starts with a character that is not a
    whitespace. *)
Let no_leading_space (s : string) : Prop :=
  match s with
  | EmptyString => True
  | String c _ => isspace c = false
  end.

Lemma lstrip_no_leading_space (s : string) : no_leading_space (lstrip s).
Proof.
  induction s as [| c s IH]; cbn; [exact I|].
  destruct (isspace c) eqn:E; [exact IH | exact E].
Qed.

Lemma lstrip_fixed (s : string) : no_leading_space s -> lstrip s = s.
Proof. destruct s as [| c s]; cbn; [reflexivity | now intros ->]. Qed.

Lemma rstrip_no_leading_space (s : string) :
  no_leading_space s -> no_leading_space (rstrip s).
Proof.
  destruct s as [| c s]; cbn; [trivial|]. intros Hc.
  destruct (rstrip s); cbn; [now rewrite Hc | exact Hc].
Qed.

Lemma strip_idem (s : string) : strip (strip s) = strip s.
Proof.
  unfold strip.
  rewrite (lstrip_fixed (rstrip (lstrip s))).
  - apply rstrip_idem.
  - apply rstrip_no_leading_space, lstrip_no_leading_space.
Qed.

Lemma lstrip_all_space (s : string) :
  all_space s = true -> lstrip s = EmptyString.
Proof.
  induction s as [| c s IH]; cbn; [reflexivity|].
  destruct (isspace c); cbn; [exact IH | discriminate].
Qed.

Lemma all_space_upper (s : string) : all_space (upper s) = all_space s.
Proof.
  induction s as [| c s IH]; cbn; [reflexivity|].
  now rewrite isspace_upper_ascii, IH.
Qed.

End Strings.

Section Normalize.

(** The resolution of aliases of a trimmed, upper-case text. *)
Let resolve (x : string) : string := dict_get type_mapping x x.

Lemma _normalize_type_nonempty (s : string) :
  s <> EmptyString -> _normalize_type s = resolve (strip (upper s)).
Proof. destruct s; [congruence | reflexivity]. Qed.

(** An alias is resolved to a type that is upper-case, trimmed and not an
    alias itself; any other text is kept. *)
Lemma resolve_cases (x : string) :
  resolve x = x
  \/ (resolve x = "SE" \/ resolve x = "SD" \/ resolve x = "ASYMMETRIC")%string.
Proof.
  unfold resolve, dict_get, type_mapping. cbn [dict_lookup].
  repeat match goal with
         | |- context [String.eqb x ?k] => destruct (String.eqb x k)
         end; tauto.
Qed.

Lemma _normalize_type_upper (s : string) :
  _normalize_type (upper s) = _normalize_type s.
Proof.
  destruct s as [| c s]; [reflexivity|].
  rewrite !_normalize_type_nonempty by (cbn; discriminate).
  now rewrite upper_idem.
Qed.

Lemma _normalize_type_strip (s : string) :
  strip s <> EmptyString -> _normalize_type (strip s) = _normalize_type s.
Proof.
  intros Hne.
  assert (Hs : s <> EmptyString) by (intros ->; now apply Hne).
  rewrite !_normalize_type_nonempty by assumption.
  now rewrite upper_strip, strip_idem.
Qed.

Lemma _normalize_type_idem (s : string) :
  _normalize_type s <> EmptyString ->
  _normalize_type (_normalize_type s) = _normalize_type s.
Proof.
  destruct s as [| c s]; [reflexivity|]. intros Hne.
  rewrite (_normalize_type_nonempty (String c s)) in * by discriminate.
  set (x := strip (upper (String c s))) in *.
  rewrite _normalize_type_nonempty by exact Hne.
  destruct (resolve_cases x) as [E | [E | [E | E]]].
  - rewrite E. unfold x.
    rewrite upper_strip, upper_idem, strip_idem. fold x. exact E.
  - rewrite E. reflexivity.
  - rewrite E. reflexivity.
  - rewrite E. reflexivity.
Qed.

Lemma _normalize_type_all_space (s : string) :
  s <> EmptyString -> all_space s = true ->
  _normalize_type s = EmptyString.
Proof.
  intros Hne Hsp. rewrite _normalize_type_nonempty by exact Hne.
  unfold strip. rewrite lstrip_all_space by now rewrite all_space_upper.
  reflexivity.
Qed.

End Normalize.

(** X18.  Normalization of a declared type ignores the case of its letters
    and the whitespace around it, and normalizing twice changes nothing:
    the upper-cased text and, when it is not blank, the trimmed text
    normalize like the text itself, and a non-empty normalized type is its
    own normalization. *)
Theorem X18_normalize_type_insensitive (s : string) :
  _normalize_type (upper s) = _normalize_type s
  /\ (strip s <> EmptyString ->
      _normalize_type (strip s) = _normalize_type s)
  /\ (_normalize_type s <> EmptyString ->
      _normalize_type (_normalize_type s) = _normalize_type s).
Proof.
  split; [apply _normalize_type_upper|].
  split; [apply _normalize_type_strip | apply _normalize_type_idem].
Qed.

Lemma X18_normalize_type_insensitive_witness :
  _normalize_type (strip "  stderr ") = _normalize_type "  stderr "
  /\ _normalize_type (_normalize_type "  stderr ")
     = _normalize_type "  stderr ".
Proof.
  destruct (X18_normalize_type_insensitive "  stderr ") as (_ & H1 & H2).
  split; [apply H1 | apply H2]; discriminate.
Defined.

(** X19.  A declared type whose normalization is not a supported type
    leaves the decision to auto-detection: the detector answers what
    auto-detection answers.  This covers UNKNOWN, misspelt types and a
    declared type made of whitespace only, which normalizes to the empty
    string and not to UNKNOWN. *)
Theorem X19_unrecognized_declared_type
    (m_mean error_bar : R) (declared_type : string) (n : Z) :
  (dict_mem (_normalize_type declared_type) supported_types = false ->
   detect_error_type (Some m_mean) (Some error_bar) declared_type (Some n)
   = _auto_detect_type m_mean error_bar n)
  /\ (declared_type <> EmptyString -> all_space declared_type = true ->
      _normalize_type declared_type = EmptyString
      /\ dict_mem (_normalize_type declared_type) supported_types = false).
Proof.
  split.
  - intros Hmem. unfold detect_error_type, detect_error_type_with.
    rewrite Hmem. cbn [bind].
    destruct (_auto_detect_type m_mean error_bar n) as [[t c] | e];
      cbn [bind]; [|reflexivity].
    now rewrite andb_false_r.
  - intros Hne Hsp.
    rewrite (_normalize_type_all_space _ Hne Hsp). now split.
Qed.

Lemma X19_unrecognized_declared_type_witness :
  detect_error_type (Some 10) (Some 2) "   " (Some 30%Z)
  = _auto_detect_type 10 2 30
  /\ _normalize_type "   " = EmptyString.
Proof.
  destruct (X19_unrecognized_declared_type 10 2 "   " 30) as (H1 & H2).
  split; [apply H1; reflexivity|].
  apply H2; [discriminate | reflexivity].
Defined.

(** * The scores of auto-detection *)

Section PureScores.

Variables (m_mean a b c : R).

Ltac decide_all :=
  repeat match goal with
         | |- context [Rltb ?x ?y] => destruct (Rltb x y)
         | |- context [Rleb ?x ?y] => destruct (Rleb x y)
         end.

Lemma _score_sd_assumption_eq :
  _score_sd_assumption m_mean a b = Ok (score_sd_of m_mean a b).
Proof.
  unfold _score_sd_assumption, score_sd_of, cv_in_range.
  destruct (Reqb m_mean 0) eqn:E; cbn [negb andb bind].
  - f_equal. f_equal. decide_all; lra.
  - apply Reqb_false in E. rewrite (py_div_ok _ _ E). cbn [bind].
    decide_all; cbn [andb bind]; f_equal; f_equal; lra.
Qed.

Lemma _score_se_assumption_eq :
  _score_se_assumption m_mean a b = Ok (score_se_of m_mean a b).
Proof.
  unfold _score_se_assumption, score_se_of, cv_in_range.
  destruct (Reqb m_mean 0) eqn:E; cbn [negb andb bind].
  - f_equal. f_equal. decide_all; lra.
  - apply Reqb_false in E. rewrite (py_div_ok _ _ E). cbn [bind].
    decide_all; cbn [andb bind]; f_equal; f_equal; lra.
Qed.

Lemma _score_ci_assumption_eq :
  _score_ci_assumption m_mean a b c = Ok (score_ci_of m_mean a b c).
Proof.
  unfold _score_ci_assumption, score_ci_of, cv_in_range.
  destruct (Reqb m_mean 0) eqn:E; cbn [negb andb bind].
  - f_equal. f_equal. decide_all; cbn [andb]; lra.
  - apply Reqb_false in E. rewrite (py_div_ok _ _ E). cbn [bind].
    decide_all; cbn [andb bind]; f_equal; f_equal; lra.
Qed.

End PureScores.

Section AutoDetectPlausible.

Variables (m_mean error_bar : R) (n : Z).
Hypothesis He : 0 < error_bar.
Hypothesis Hn : (0 < n)%Z.

Lemma _auto_detect_type_plausible :
  match candidates_of m_mean error_bar n with
  | cand :: rest =>
      _auto_detect_type m_mean error_bar n = Ok (max_by_score cand rest)
  | [] => False
  end.
Proof.
  unfold candidates_of, _auto_detect_type, _auto_detect_type_body.
  pose proof (sqrt_n_ne_0 n Hn) as Hs.
  assert (E : Rltb 0 error_bar = true) by now apply Rltb_true.
  rewrite E. py_eval Hn.
  rewrite !_score_sd_assumption_eq, !_score_se_assumption_eq,
          !_score_ci_assumption_eq.
  cbn [bind app]. reflexivity.
Qed.

End AutoDetectPlausible.

Section MaxByScore.

Lemma max_by_score_first_or_greater
    (best : string * R) (rest : list (string * R)) :
  max_by_score best rest = best
  \/ snd best < snd (max_by_score best rest).
Proof.
  revert best. induction rest as [| c rest IH]; intros best; cbn.
  - now left.
  - destruct (Rltb (snd best) (snd c)) eqn:E.
    + apply Rltb_true in E. right.
      destruct (IH c) as [H | H]; [now rewrite H | lra].
    + apply IH.
Qed.

Lemma max_by_score_ge (best : string * R) (rest : list (string * R)) :
  snd best <= snd (max_by_score best rest).
Proof.
  destruct (max_by_score_first_or_greater best rest) as [H | H];
    [rewrite H|]; lra.
Qed.

End MaxByScore.

Section ScoreBounds.

Variables (m_mean a b c : R).

Ltac decide_all :=
  repeat match goal with
         | |- context [Rltb ?x ?y] =>
             let E := fresh "E" in
             destruct (Rltb x y) eqn:E;
             [apply Rltb_true in E | apply Rltb_false in E]
         | |- context [cv_in_range ?x ?y] => destruct (cv_in_range x y)
         end.

Ltac decide_min :=
  unfold Rmin;
  repeat match goal with
         | |- context [Rle_dec ?x ?y] => destruct (Rle_dec x y)
         end.

Lemma score_sd_of_bounds :
  0.5 <= score_sd_of m_mean a b <= 1
  /\ (b < a -> 0.7 <= score_sd_of m_mean a b).
Proof.
  unfold score_sd_of. decide_all; cbn [andb]; decide_min;
    split; try split; intros; lra.
Qed.

Lemma score_se_of_bounds : 0.5 <= score_se_of m_mean a b <= 1.
Proof.
  unfold score_se_of. decide_all; cbn [andb]; decide_min; split; lra.
Qed.

Lemma score_ci_of_bounds : 0.4 <= score_ci_of m_mean a b c <= 0.8.
Proof.
  unfold score_ci_of. decide_all; cbn [andb]; decide_min; split; lra.
Qed.

(** With the SE below the SD, the SD assumption scores at least as much
    as a confidence-interval assumption on the same error bar. *)
Lemma score_ci_of_le_score_sd_of (se' sd' : R) :
  b < a -> score_ci_of m_mean a se' sd' <= score_sd_of m_mean a b.
Proof.
  intros Hba. pose proof (Rabs_pos m_mean) as Hm.
  unfold score_ci_of, score_sd_of.
  decide_all; cbn [andb]; decide_min; lra.
Qed.

End ScoreBounds.

Section AutoDetectAnswer.

Variables (m_mean error_bar : R) (n : Z).
Hypothesis He : 0 < error_bar.
Hypothesis Hn : (0 < n)%Z.

(** The score of the SD assumption, the first candidate. *)
Let sd_score : R :=
  score_sd_of m_mean error_bar (error_bar / sqrt (IZR n)).

Lemma _auto_detect_type_answer :
  exists r,
    _auto_detect_type m_mean error_bar n = Ok r
    /\ In r (candidates_of m_mean error_bar n)
    /\ (r = ("SD"%string, sd_score) \/ sd_score < snd r).
Proof.
  pose proof (_auto_detect_type_plausible m_mean error_bar n He Hn) as H.
  unfold candidates_of in *. cbn zeta in *. cbv iota in H.
  eexists. split; [exact H|]. split.
  - apply max_by_score_In.
  - apply max_by_score_first_or_greater.
Qed.

Lemma candidates_of_types (r : string * R) :
  In r (candidates_of m_mean error_bar n) ->
  str_in (fst r) candidate_types = true
  /\ fst r <> "UNKNOWN"%string
  /\ (fst r = "CI95"%string \/ fst r = "CI99"%string ->
      exists se' sd', snd r = score_ci_of m_mean error_bar se' sd').
Proof.
  unfold candidates_of. cbn [In].
  intros [<- | [<- | [<- | [<- | [<- | []]]]]]; cbn [fst snd];
    (split; [reflexivity|]); (split; [discriminate|]);
    intros [H | H]; try discriminate; eauto.
Qed.

End AutoDetectAnswer.

Lemma sqrt_IZR_gt_1 (n : Z) : (2 <= n)%Z -> 1 < sqrt (IZR n).
Proof.
  intros H. rewrite <- sqrt_1. apply sqrt_lt_1_alt.
  split; [lra|]. apply IZR_lt. lia.
Qed.

Lemma _auto_detect_type_answer_n2
    (m_mean error_bar : R) (n : Z) :
  0 < error_bar -> (2 <= n)%Z ->
  exists t c,
    _auto_detect_type m_mean error_bar n = Ok (t, c)
    /\ (t = "SD" \/ t = "SE" \/ t = "2SE")%string
    /\ 0.7 <= c <= 1.
Proof.
  intros He Hn.
  assert (Hn0 : (0 < n)%Z) by lia.
  pose proof (sqrt_IZR_gt_1 n Hn) as Hs.
  assert (Hlt : error_bar / sqrt (IZR n) < error_bar).
  { apply Rmult_lt_reg_r with (sqrt (IZR n)); [lra|].
    unfold Rdiv. rewrite Rmult_assoc, Rinv_l by lra. nra. }
  destruct (_auto_detect_type_answer m_mean error_bar n He Hn0)
    as ([t c] & Hr & Hin & Hfirst).
  pose proof (score_sd_of_bounds m_mean error_bar
                (error_bar / sqrt (IZR n))) as (_ & Hsd).
  specialize (Hsd Hlt).
  destruct (candidates_of_types m_mean error_bar n (t, c) Hin)
    as (Hty & _ & Hci).
  cbn [fst snd] in *.
  exists t, c. split; [exact Hr|].
  assert (Hc : 0.7 <= c).
  { destruct Hfirst as [E | H]; [injection E as Et Ec; rewrite Ec|]; lra. }
  split.
  - destruct Hfirst as [E | Hgt]; [injection E as Et Ec; tauto|].
    unfold str_in, candidate_types in Hty. cbn [existsb] in Hty.
    rewrite !orb_true_iff, !String.eqb_eq in Hty.
    destruct Hty as [H | [H | [H | [H | [H | H]]]]];
      try discriminate H; try tauto;
      exfalso;
      (assert (Hex : exists se' sd',
                  c = score_ci_of m_mean error_bar se' sd')
         by (apply Hci; tauto));
      destruct Hex as (se' & sd' & Hscore);
      pose proof (score_ci_of_le_score_sd_of
                    m_mean error_bar (error_bar / sqrt (IZR n))
                    se' sd' Hlt);
      lra.
  - split; [exact Hc|].
    assert (Hall : Forall (fun r => snd r <= 1)
                          (candidates_of m_mean error_bar n)).
    { unfold candidates_of.
      repeat (apply Forall_cons; [cbn [snd]|]); [| | | | |apply Forall_nil].
      - apply score_sd_of_bounds.
      - apply score_se_of_bounds.
      - match goal with
        | |- score_ci_of ?m ?x ?y ?z <= 1 =>
            pose proof (score_ci_of_bounds m x y z); lra
        end.
      - match goal with
        | |- score_ci_of ?m ?x ?y ?z <= 1 =>
            pose proof (score_ci_of_bounds m x y z); lra
        end.
      - apply score_se_of_bounds. }
    rewrite Forall_forall in Hall. exact (Hall _ Hin).
Qed.


Lemma _auto_detect_type_n2_not_ci
    (m_mean error_bar : R) (n : Z) :
  0 < error_bar -> (2 <= n)%Z ->
  forall t c,
    _auto_detect_type m_mean error_bar n = Ok (t, c) ->
    (t = "SD" \/ t = "SE" \/ t = "2SE")%string.
Proof.
  intros He Hn t c Hr.
  destruct (_auto_detect_type_answer_n2 m_mean error_bar n He Hn)
    as (t' & c' & Hr' & Ht & _).
  rewrite Hr in Hr'. injection Hr' as -> ->. exact Ht.
Qed.

Lemma _auto_detect_type_n2_confidence
    (m_mean error_bar : R) (n : Z) :
  0 < error_bar -> (2 <= n)%Z ->
  forall t c,
    _auto_detect_type m_mean error_bar n = Ok (t, c) -> 0.7 <= c <= 1.
Proof.
  intros He Hn t c Hr.
  destruct (_auto_detect_type_answer_n2 m_mean error_bar n He Hn)
    as (t' & c' & Hr' & _ & Hc).
  rewrite Hr in Hr'. injection Hr' as -> ->. exact Hc.
Qed.

(** X20.  For a positive error bar and a sample size of at least 2,
    auto-detection answers with a confidence of at least 0.7 and never
    with a confidence-interval type: the SD assumption, which comes first
    and keeps ties, always scores at least as much as CI95 and CI99, so the
    answer is SD, SE or 2SE. *)
Theorem X20_auto_detect_never_confidence_interval
    (m_mean error_bar : R) (n : Z) :
  0 < error_bar -> (2 <= n)%Z ->
  exists t c,
    _auto_detect_type m_mean error_bar n = Ok (t, c)
    /\ (t = "SD" \/ t = "SE" \/ t = "2SE")%string
    /\ 0.7 <= c <= 1.
Proof.
  intros He Hn.
  assert (Hn0 : (0 < n)%Z) by lia.
  destruct (_auto_detect_type_answer m_mean error_bar n He Hn0)
    as ([t c] & Hr & _).
  exists t, c. split; [exact Hr|]. split.
  - exact (_auto_detect_type_n2_not_ci m_mean error_bar n He Hn t c Hr).
  - exact (_auto_detect_type_n2_confidence m_mean error_bar n He Hn t c Hr).
Qed.

Lemma X20_auto_detect_never_confidence_interval_witness :
  exists t c,
    _auto_detect_type 10 2 30 = Ok (t, c)
    /\ (t = "SD" \/ t = "SE" \/ t = "2SE")%string
    /\ 0.7 <= c <= 1.
Proof.
  apply (X20_auto_detect_never_confidence_interval 10 2 30);
    [lra | discriminate].
Defined.

Section DetectAnswer.

Variables (m_mean error_bar : R) (declared_type : string) (n : Z).

Let nd := _normalize_type declared_type.

Lemma detect_unrecognized :
  dict_mem nd supported_types = false ->
  detect_error_type (Some m_mean) (Some error_bar) declared_type (Some n)
  = _auto_detect_type m_mean error_bar n.
Proof.
  intros Hmem. unfold detect_error_type, detect_error_type_with.
  fold nd. rewrite Hmem. cbn [bind].
  destruct (_auto_detect_type m_mean error_bar n) as [[t c] | e];
    cbn [bind]; [|reflexivity].
  now rewrite andb_false_r.
Qed.

(** What auto-detection answers, in the two cases of its input. *)
Lemma _auto_detect_type_dichotomy :
  ((error_bar <= 0 \/ (n <= 0)%Z)
   /\ _auto_detect_type m_mean error_bar n = Ok ("UNKNOWN"%string, 0.0))
  \/ ((0 < error_bar /\ (0 < n)%Z)
      /\ exists t c,
           _auto_detect_type m_mean error_bar n = Ok (t, c)
           /\ t <> "UNKNOWN"%string /\ 0.5 <= c).
Proof.
  destruct (Rle_lt_dec error_bar 0) as [He | He].
  { left. split; [now left|].
    apply _auto_detect_type_implausible. now left. }
  destruct (Z_le_gt_dec n 0) as [Hn | Hn].
  { left. split; [now right|].
    apply _auto_detect_type_implausible. now right. }
  right. assert (Hn0 : (0 < n)%Z) by lia. split; [now split|].
  destruct (_auto_detect_type_answer m_mean error_bar n He Hn0)
    as ([t c] & Hr & Hin & Hfirst).
  destruct (candidates_of_types m_mean error_bar n (t, c) Hin)
    as (_ & Hne & _).
  pose proof (score_sd_of_bounds m_mean error_bar
                (error_bar / sqrt (IZR n))) as ((Hsd & _) & _).
  exists t, c. split; [exact Hr|]. split; [exact Hne|].
  cbn [snd] in Hfirst.
  destruct Hfirst as [E | H]; [injection E as Et Ec; rewrite Ec|]; lra.
Qed.

Lemma recognized_not_unknown :
  dict_mem nd supported_types = true -> nd <> "UNKNOWN"%string.
Proof.
  unfold nd. rewrite normalized_supported. intros Hin.
  destruct (str_in_convertible_cases _ Hin)
    as [E | [E | [E | [E | [E | E]]]]]; rewrite E; discriminate.
Qed.

End DetectAnswer.

(** Closes the four facts about an answer that is a known type. *)
Ltac detect_finish :=
  repeat split; intros; try contradiction; try lra;
  try match goal with
      | H : _ = false /\ _ |- _ => destruct H; discriminate
      end.

(** X21.  With mean, error bar and sample size present, the detector
    answers UNKNOWN exactly when the declared type is not recognized and
    the error bar or the sample size is not positive, and then with
    confidence 0; every other answer carries a confidence of at least
    0.5. *)
Theorem X21_detect_unknown_iff
    (m_mean error_bar : R) (declared_type : string) (n : Z) :
  exists t c,
    detect_error_type (Some m_mean) (Some error_bar) declared_type (Some n)
    = Ok (t, c)
    /\ (t = "UNKNOWN"%string
        <-> dict_mem (_normalize_type declared_type) supported_types = false
            /\ (error_bar <= 0 \/ (n <= 0)%Z))
    /\ (t = "UNKNOWN"%string -> c = 0)
    /\ (t <> "UNKNOWN"%string -> 0.5 <= c).
Proof.
  set (nd := _normalize_type declared_type).
  destruct (dict_mem nd supported_types) eqn:Hmem.
  - (* a recognized declared type *)
    pose proof (recognized_not_unknown declared_type Hmem) as Hnd.
    fold nd in Hnd.
    destruct (_validate_declared_type_returns m_mean error_bar n nd)
      as (conf & Hv & Hconf).
    unfold detect_error_type, detect_error_type_with. fold nd.
    rewrite Hmem, Hv. cbn [bind].
    destruct (Rltb 0.5 conf) eqn:Ec; cbn [bind].
    + apply Rltb_true in Ec. exists nd, conf. split; [reflexivity|].
      detect_finish.
    + destruct (_auto_detect_type_dichotomy m_mean error_bar n)
        as [(_ & Ha) | (_ & t & c & Ha & Ht & Hc)];
        rewrite Ha; cbn [bind].
      * assert (E7 : Rltb 0.0 0.7 = true) by (apply Rltb_true; lra).
        rewrite E7. cbn [andb]. exists nd, 0.6. split; [reflexivity|].
        detect_finish.
      * destruct (Rltb c 0.7); cbn [andb].
        -- exists nd, 0.6. split; [reflexivity|].
           detect_finish.
        -- exists t, c. split; [reflexivity|].
           detect_finish.
  - (* an unrecognized declared type: auto-detection decides *)
    rewrite (detect_unrecognized m_mean error_bar declared_type n Hmem).
    destruct (_auto_detect_type_dichotomy m_mean error_bar n)
      as [(Himp & Ha) | ((He & Hn) & t & c & Ha & Ht & Hc)].
    + exists "UNKNOWN"%string, 0.0. split; [exact Ha|].
      repeat split; intros; try tauto; try lra.
    + exists t, c. split; [exact Ha|].
      repeat split; intros; try contradiction; try lra.
      match goal with
      | H : _ /\ (_ \/ _) |- _ => destruct H as (_ & [H | H]); [lra | lia]
      end.
Qed.

(** X22.  For a positive error bar and a sample size of at least 2 the
    fallback to the declared type with confidence 0.6 never applies: a
    recognized declared type whose validation confidence is at most 0.5 is
    overridden by the answer of auto-detection, which is SD, SE or 2SE
    with a confidence of at least 0.7. *)
Theorem X22_auto_detection_overrides_declared
    (m_mean error_bar : R) (declared_type : string) (n : Z)
    (confidence : R) :
  0 < error_bar -> (2 <= n)%Z ->
  dict_mem (_normalize_type declared_type) supported_types = true ->
  _validate_declared_type m_mean error_bar (_normalize_type declared_type) n
  = Ok confidence ->
  confidence <= 0.5 ->
  exists t c,
    _auto_detect_type m_mean error_bar n = Ok (t, c)
    /\ detect_error_type (Some m_mean) (Some error_bar) declared_type
                         (Some n)
       = Ok (t, c)
    /\ (t = "SD" \/ t = "SE" \/ t = "2SE")%string
    /\ 0.7 <= c.
Proof.
  intros He Hn Hmem Hv Hconf.
  destruct (_auto_detect_type_answer_n2 m_mean error_bar n He Hn)
    as (t & c & Ha & Ht & Hc).
  exists t, c. split; [exact Ha|]. split; [|split; [exact Ht | lra]].
  unfold detect_error_type, detect_error_type_with.
  rewrite Hmem, Hv. cbn [bind].
  apply Rltb_false in Hconf. rewrite Hconf. cbn [bind].
  rewrite Ha. cbn [bind].
  assert (E : Rltb c 0.7 = false) by (apply Rltb_false; lra).
  now rewrite E.
Qed.

Lemma validate_example_large_error_bar :
  _validate_declared_type 1 4 "SD" 30 = Ok 0.3.
Proof.
  unfold _validate_declared_type, _validate_declared_type_body.
  assert (E1 : Rleb 4 0 = false) by (apply Rleb_false; lra).
  assert (E2 : Rltb (Rabs 1 * 3) 4 = true).
  { apply Rltb_true. rewrite Rabs_right; lra. }
  rewrite E1. cbn [orb Z.leb Z.compare]. now rewrite E2.
Qed.

Lemma X22_auto_detection_overrides_declared_witness :
  exists t c,
    _auto_detect_type 1 4 30 = Ok (t, c)
    /\ detect_error_type (Some 1) (Some 4) "SD" (Some 30%Z) = Ok (t, c)
    /\ (t = "SD" \/ t = "SE" \/ t = "2SE")%string
    /\ 0.7 <= c.
Proof.
  apply (X22_auto_detection_overrides_declared 1 4 "SD" 30 0.3).
  - lra.
  - discriminate.
  - reflexivity.
  - exact validate_example_large_error_bar.
  - lra.
Defined.

(** * Input validation and suggestions *)

Section InputValidation.

Variables (m_mean error_bar : R) (ty : string) (n : Z).

Ltac decide_tests :=
  repeat match goal with
         | |- context [Rltb ?x ?y] =>
             let E := fresh "E" in
             destruct (Rltb x y) eqn:E;
             [apply Rltb_true in E | apply Rltb_false in E]
         | |- context [Rleb ?x ?y] =>
             let E := fresh "E" in
             destruct (Rleb x y) eqn:E;
             [apply Rleb_true in E | apply Rleb_false in E]
         end.

Lemma validate_conversion_input_accepts :
  fst (validate_conversion_input m_mean error_bar ty n) = true
  <-> (0 < n)%Z /\ 0 < error_bar
      /\ (dict_mem ty supported_types = true \/ ty = "UNKNOWN"%string)
      /\ error_bar <= 5 * Rabs m_mean.
Proof.
  unfold validate_conversion_input.
  pose proof (Rabs_pos m_mean) as Hm.
  destruct (n <=? 0)%Z eqn:En;
    [apply Z.leb_le in En | apply Z.leb_gt in En].
  { cbn. split; [discriminate | intros (H & _); lia]. }
  destruct (Rleb error_bar 0) eqn:Ee;
    [apply Rleb_true in Ee | apply Rleb_false in Ee].
  { cbn. split; [discriminate | intros (_ & H & _); lra]. }
  destruct (dict_mem ty supported_types) eqn:Emem; cbn [negb andb].
  - decide_tests; cbn [andb fst]; split; intros H;
      try discriminate; try reflexivity;
      try (repeat split; try assumption; try lra; now left);
      destruct H as (_ & _ & _ & H); lra.
  - destruct (String.eqb ty "UNKNOWN") eqn:Eu; cbn [negb].
    + apply String.eqb_eq in Eu.
      decide_tests; cbn [andb fst]; split; intros H;
        try discriminate; try reflexivity;
        try (repeat split; try assumption; try lra; now right);
        destruct H as (_ & _ & _ & H); lra.
    + apply String.eqb_neq in Eu. cbn [fst].
      split; [discriminate|].
      intros (_ & _ & [H | H] & _); [discriminate | contradiction].
Qed.

End InputValidation.

(** X23.  [validate_conversion_input] accepts an input exactly when the
    sample size and the error bar are positive, the type is a key of
    [supported_types] or UNKNOWN, and the error bar is at most five times
    the magnitude of the mean; the separate test on a mean close to 0 never
    changes the verdict.  In particular an input with mean 0 is never
    accepted, and the reason of an accepted input is the "passed" text. *)
Theorem X23_input_validation_accepts_iff
    (m_mean error_bar : R) (ty : string) (n : Z) :
  (fst (validate_conversion_input m_mean error_bar ty n) = true
   <-> (0 < n)%Z /\ 0 < error_bar
       /\ (dict_mem ty supported_types = true \/ ty = "UNKNOWN"%string)
       /\ error_bar <= 5 * Rabs m_mean)
  /\ (m_mean = 0 ->
      fst (validate_conversion_input m_mean error_bar ty n) = false)
  /\ (fst (validate_conversion_input m_mean error_bar ty n) = true
      <-> snd (validate_conversion_input m_mean error_bar ty n) = Passed).
Proof.
  pose proof (validate_conversion_input_accepts m_mean error_bar ty n)
    as Hacc.
  split; [exact Hacc|]. split.
  - intros Hm.
    destruct (fst (validate_conversion_input m_mean error_bar ty n));
      [|reflexivity].
    destruct (proj1 Hacc eq_refl) as (_ & He & _ & Hb).
    rewrite Hm, Rabs_R0 in Hb. lra.
  - unfold validate_conversion_input.
    repeat match goal with
           | |- context [if ?t then _ else _] => destruct t
           end; cbn [fst snd]; split; intros; try reflexivity;
      discriminate.
Qed.

(** X24.  An input that [validate_conversion_input] accepts is not always
    convertible: the conversion returns for it exactly when its type is one
    of the six convertible types, and raises the unsupported-type error for
    the other types the validation lets through, the aliases SEM, STD and
    STDERR and the label UNKNOWN. *)
Theorem X24_accepted_input_conversion
    (m_mean error_bar : R) (ty : string) (n : Z) :
  fst (validate_conversion_input m_mean error_bar ty n) = true ->
  (str_in ty convertible_types = true
   /\ returns (convert_to_mean_sd m_mean error_bar ty n))
  \/ (str_in ty ["SEM"; "STD"; "STDERR"; "UNKNOWN"]%string = true
      /\ convert_to_mean_sd m_mean error_bar ty n
         = Raise (ValueError (unsupported_type_message ty))).
Proof.
  intros Hacc.
  apply validate_conversion_input_accepts in Hacc.
  destruct Hacc as (Hn & _ & Hty & _).
  destruct (str_in ty convertible_types) eqn:Hin.
  - left. split; [reflexivity|].
    apply convert_returns_iff. split; [exact Hin | now left].
  - right. split.
    + destruct Hty as [Hmem | ->]; [|reflexivity].
      revert Hmem Hin.
      unfold dict_mem, supported_types, str_in, convertible_types.
      cbn [dict_lookup existsb].
      repeat match goal with
             | |- context [String.eqb ty ?k] => destruct (String.eqb ty k)
             end; cbn; intros; try reflexivity; discriminate.
    + unfold convert_to_mean_sd.
      now rewrite (lookup_not_convertible ty Hin).
Qed.

Lemma X24_accepted_input_conversion_witness :
  convert_to_mean_sd 10 2 "SEM" 30
  = Raise (ValueError (unsupported_type_message "SEM")).
Proof.
  assert (Hacc : fst (validate_conversion_input 10 2 "SEM" 30) = true).
  { apply validate_conversion_input_accepts.
    split; [reflexivity|]. split; [lra|]. split; [now left|].
    rewrite Rabs_right; lra. }
  destruct (X24_accepted_input_conversion 10 2 "SEM" 30 Hacc)
    as [(Hin & _) | (_ & H)]; [discriminate | exact H].
Defined.

Lemma Rabs_div_gt_1 (x y : R) : y <> 0 -> (1 < Rabs (x / y) <-> Rabs y < Rabs x).
Proof.
  intros Hy. unfold Rdiv. rewrite Rabs_mult, Rabs_inv.
  assert (Hp : 0 < Rabs y) by now apply Rabs_pos_lt.
  split; intros H.
  - apply Rmult_lt_reg_r with (/ Rabs y);
      [now apply Rinv_0_lt_compat|].
    rewrite Rinv_r by lra. lra.
  - apply Rmult_lt_compat_r with (r := / Rabs y) in H;
      [|now apply Rinv_0_lt_compat].
    rewrite Rinv_r in H by lra. lra.
Qed.

(** X25.  [suggest_improvements] never raises, and each advisory text is
    in its answer exactly under its own condition: the sample-size advice
    for a sample size below 10, the advice to declare the type for UNKNOWN,
    the large-error-bar advice when the error bar exceeds the magnitude of
    the mean, and the coefficient-of-variation advice for the type SD with a
    non-zero mean smaller in magnitude than the error bar.  So a large
    negative error bar of type SD draws the last advice without the third;
    and no advice at all is given when none of the conditions holds. *)
Theorem X25_suggestions_iff
    (m_mean error_bar : R) (ty : string) (n : Z) :
  exists suggestions,
    suggest_improvements m_mean error_bar ty n = Ok suggestions
    /\ (In IncreaseSampleSize suggestions <-> (n < 10)%Z)
    /\ (In DeclareErrorType suggestions <-> ty = "UNKNOWN"%string)
    /\ (In CheckLargeErrorBar suggestions <-> Rabs m_mean < error_bar)
    /\ (In CheckLargeCv suggestions
        <-> ty = "SD"%string /\ m_mean <> 0
            /\ Rabs m_mean < Rabs error_bar)
    /\ (suggestions = []
        <-> (10 <= n)%Z /\ ty <> "UNKNOWN"%string
            /\ error_bar <= Rabs m_mean
            /\ ~ (ty = "SD"%string /\ m_mean <> 0
                  /\ Rabs m_mean < Rabs error_bar)).
Proof.
  unfold suggest_improvements.
  destruct (n <? 10)%Z eqn:En;
    [apply Z.ltb_lt in En | apply Z.ltb_ge in En];
    (destruct (String.eqb ty "UNKNOWN") eqn:Eu;
     [apply String.eqb_eq in Eu | apply String.eqb_neq in Eu]);
    (destruct (Rltb (Rabs m_mean) error_bar) eqn:Eb;
     [apply Rltb_true in Eb | apply Rltb_false in Eb]);
    (destruct (String.eqb ty "SD") eqn:Es;
     [apply String.eqb_eq in Es | apply String.eqb_neq in Es]);
    (destruct (Reqb m_mean 0) eqn:Em;
     [apply Reqb_true in Em | apply Reqb_false in Em]);
    cbn [andb negb bind app];
    try (rewrite (py_div_ok _ _ Em); cbn [bind];
         pose proof (Rabs_div_gt_1 error_bar m_mean Em) as Hcv;
         destruct (Rltb 1.0 (Rabs (error_bar / m_mean))) eqn:Ec;
         [apply Rltb_true in Ec | apply Rltb_false in Ec]);
    eexists; (split; [reflexivity|]); cbn [In app];
    repeat split; intros;
    repeat match goal with
           | H : _ \/ _ |- _ => destruct H
           | H : _ /\ _ |- _ => destruct H
           | H : False |- _ => contradiction
           end;
    try discriminate; try lia; try lra; try congruence; try tauto;
    try (exfalso; subst; discriminate);
    try (apply Hcv; lra);
    try (exfalso;
         match goal with
         | H : ~ _ |- _ => apply H; repeat split; try assumption
         end; apply Hcv; lra);
    try (intros (_ & _ & Hlt); apply Hcv in Hlt; lra).
Qed.

(** X26.  The method table of the detector and that of the engine are the
    same for every string.  Among the six convertible types the method
    name is "unknown" exactly for ASYMMETRIC: a conversion of an
    asymmetric error bar succeeds and yet reports the method "unknown". *)
Theorem X26_method_tables_agree
    (m_mean error_bar : R) (ty : string) (n : Z) :
  get_conversion_method ty = _get_method_name ty
  /\ (str_in ty convertible_types = true ->
      (_get_method_name ty = "unknown"%string
       <-> ty = "ASYMMETRIC"%string)
      /\ ((0 < n)%Z ->
          exists r,
            convert_to_mean_sd m_mean error_bar ty n = Ok r
            /\ method_used r = get_conversion_method ty)).
Proof.
  split; [reflexivity|]. intros Hin. split.
  - destruct (str_in_convertible_cases ty Hin)
      as [-> | [-> | [-> | [-> | [-> | ->]]]]];
      cbn; split; intros; try reflexivity; discriminate.
  - intros Hn.
    destruct (proj2 (convert_returns_iff m_mean error_bar ty n))
      as (r & Hr); [split; [exact Hin | now left]|].
    exists r. split; [exact Hr|].
    now destruct (convert_to_mean_sd_metadata _ _ _ _ _ Hr)
      as (_ & _ & _ & _ & ->).
Qed.

Lemma X26_method_tables_agree_witness :
  exists r,
    convert_to_mean_sd 10 2 "ASYMMETRIC" 30 = Ok r
    /\ method_used r = "unknown"%string.
Proof.
  destruct (X26_method_tables_agree 10 2 "ASYMMETRIC" 30) as (_ & H).
  destruct (H eq_refl) as (_ & Hr).
  destruct (Hr eq_refl) as (r & Hc & Hm).
  exists r. split; [exact Hc | exact Hm].
Defined.

(** * More on conversions and their validation *)

(** X27.  With a non-negative error bar, enlarging the sample size never
    lowers the SD and never raises the SE that a supported conversion
    returns: for the SD type the SD stays and the SE shrinks, for the
    other types the SE stays and the SD grows. *)
Theorem X27_conversion_monotone_in_sample_size
    (m_mean error_bar : R) (ty : string) (n n' : Z) :
  str_in ty convertible_types = true -> 0 <= error_bar ->
  (0 < n)%Z -> (n <= n')%Z ->
  exists r r',
    convert_to_mean_sd m_mean error_bar ty n = Ok r
    /\ convert_to_mean_sd m_mean error_bar ty n' = Ok r'
    /\ sd r <= sd r' /\ se r' <= se r.
Proof.
  intros Hin He Hn Hnn.
  assert (Hn' : (0 < n')%Z) by lia.
  pose proof (sqrt_IZR_ge_1 n Hn) as Hs.
  assert (Hss : sqrt (IZR n) <= sqrt (IZR n'))
    by (apply sqrt_le_1_alt, IZR_le; exact Hnn).
  set (s := sqrt (IZR n)) in *. set (s' := sqrt (IZR n')) in *.
  assert (Hinv : / s' <= / s) by (apply Rinv_le_contravar; lra).
  destruct (str_in_convertible_cases ty Hin)
    as [-> | [-> | [-> | [-> | [-> | ->]]]]].
  - destruct (row_SD m_mean error_bar n Hn) as (r & Hr & _ & Hse & Hsd & _).
    destruct (row_SD m_mean error_bar n' Hn')
      as (r' & Hr' & _ & Hse' & Hsd' & _).
    exists r, r'. split; [exact Hr|]. split; [exact Hr'|].
    rewrite Hsd, Hsd', Hse, Hse'. split; [lra|].
    apply py_round_mono. fold s s'. unfold Rdiv. nra.
  - destruct (row_SE m_mean error_bar n Hn) as (r & Hr & _ & Hse & Hsd & _).
    destruct (row_SE m_mean error_bar n' Hn')
      as (r' & Hr' & _ & Hse' & Hsd' & _).
    exists r, r'. split; [exact Hr|]. split; [exact Hr'|].
    rewrite Hsd, Hsd', Hse, Hse'. split; [|lra].
    apply py_round_mono. fold s s'. nra.
  - destruct (row_CI95 m_mean error_bar n Hn)
      as (r & Hr & _ & Hse & Hsd & _).
    destruct (row_CI95 m_mean error_bar n' Hn')
      as (r' & Hr' & _ & Hse' & Hsd' & _).
    exists r, r'. split; [exact Hr|]. split; [exact Hr'|].
    rewrite Hsd, Hsd', Hse, Hse'. split; [|lra].
    apply py_round_mono. fold s s'.
    assert (0 <= error_bar / 1.96) by (unfold Rdiv; lra). nra.
  - destruct (row_CI99 m_mean error_bar n Hn)
      as (r & Hr & _ & Hse & Hsd & _).
    destruct (row_CI99 m_mean error_bar n' Hn')
      as (r' & Hr' & _ & Hse' & Hsd' & _).
    exists r, r'. split; [exact Hr|]. split; [exact Hr'|].
    rewrite Hsd, Hsd', Hse, Hse'. split; [|lra].
    apply py_round_mono. fold s s'.
    assert (0 <= error_bar / 2.576) by (unfold Rdiv; lra). nra.
  - destruct (row_2SE m_mean error_bar n Hn) as (r & Hr & _ & Hse & Hsd & _).
    destruct (row_2SE m_mean error_bar n' Hn')
      as (r' & Hr' & _ & Hse' & Hsd' & _).
    exists r, r'. split; [exact Hr|]. split; [exact Hr'|].
    rewrite Hsd, Hsd', Hse, Hse'. split; [|lra].
    apply py_round_mono. fold s s'.
    assert (0 <= error_bar / 2) by (unfold Rdiv; lra). nra.
  - destruct (row_ASYMMETRIC m_mean error_bar n Hn)
      as (r & Hr & _ & Hse & Hsd & _).
    destruct (row_ASYMMETRIC m_mean error_bar n' Hn')
      as (r' & Hr' & _ & Hse' & Hsd' & _).
    exists r, r'. split; [exact Hr|]. split; [exact Hr'|].
    rewrite Hsd, Hsd', Hse, Hse'. split; [|lra].
    apply py_round_mono. fold s s'. nra.
Qed.

Lemma X27_conversion_monotone_in_sample_size_witness :
  exists r r',
    convert_to_mean_sd 10 0.5 "SE" 25 = Ok r
    /\ convert_to_mean_sd 10 0.5 "SE" 100 = Ok r'
    /\ sd r <= sd r' /\ se r' <= se r.
Proof.
  apply (X27_conversion_monotone_in_sample_size 10 0.5 "SE" 25 100);
    [reflexivity | lra | reflexivity | discriminate].
Defined.

(** X28.  The validation of a conversion result never raises, and its
    quality tier is decided by the coefficient of variation and the sample
    size alone: "poor" exactly when the mean is not 0 and [|sd/mean| > 2];
    "good" exactly when the mean is 0 or [|sd/mean| <= 1], and the sample
    size is at least 10; "fair" otherwise.  A mean of 0 thus never lowers
    the tier, and an invalid result ([sd <= 0] or [se <= 0]) can still be
    rated "good".  No warning at all is recorded exactly when SD and SE are
    positive and consistent within 0.001, the tier is "good", and so the
    sample size is at least 10. *)
Theorem X28_validation_quality_tier (r : ConversionResult) :
  exists v,
    validate_conversion_result r = Ok v
    /\ (quality_assessment v = poor
        <-> mean r <> 0 /\ 2 < Rabs (sd r / mean r))
    /\ (quality_assessment v = good
        <-> (mean r = 0 \/ Rabs (sd r / mean r) <= 1)
            /\ (10 <= sample_size r)%Z)
    /\ (warnings v = []
        <-> 0 < sd r /\ 0 < se r
            /\ Rabs (se r - sd r / sqrt (IZR (sample_size r))) <= 0.001
            /\ (mean r = 0 \/ Rabs (sd r / mean r) <= 1)
            /\ (10 <= sample_size r)%Z).
Proof.
  unfold validate_conversion_result.
  destruct (sample_size r <? 10)%Z eqn:E10;
    [apply Z.ltb_lt in E10 | apply Z.ltb_ge in E10];
    (destruct (0 <? sample_size r)%Z eqn:En;
     [apply Z.ltb_lt in En | apply Z.ltb_ge in En]);
    try lia;
    try (pose proof (sqrt_n_ne_0 _ En) as Hs;
         rewrite (math_sqrt_IZR _ En); cbn [bind];
         rewrite (py_div_ok _ _ Hs));
    cbn [bind];
    match goal with
    | |- context [Rltb 0.001 ?x] =>
        destruct (Rltb 0.001 x) eqn:Ew;
        [apply Rltb_true in Ew | apply Rltb_false in Ew]
    end;
    (destruct (Rleb (sd r) 0) eqn:Esd;
     [apply Rleb_true in Esd | apply Rleb_false in Esd]);
    (destruct (Rleb (se r) 0) eqn:Ese;
     [apply Rleb_true in Ese | apply Rleb_false in Ese]);
    (destruct (Reqb (mean r) 0) eqn:Em;
     [apply Reqb_true in Em | apply Reqb_false in Em]);
    cbn [negb bind];
    try (rewrite (py_div_ok _ _ Em); cbn [bind];
         destruct (Rltb 2.0 (Rabs (sd r / mean r))) eqn:E2;
         [apply Rltb_true in E2
         |apply Rltb_false in E2;
          destruct (Rltb 1.0 (Rabs (sd r / mean r))) eqn:E1;
          [apply Rltb_true in E1 | apply Rltb_false in E1]]);
    eexists; (split; [reflexivity|]); cbn;
    repeat split; intros;
    repeat match goal with
           | H : _ /\ _ |- _ => destruct H
           | H : _ \/ _ |- _ => destruct H
           end;
    try discriminate; try contradiction; try lia; try lra;
    try (left; assumption); try (right; lra); try (left; lra).
Qed.

Section DeclaredKept.

Variables (m_mean error_bar : R) (n : Z).
Hypothesis He : 0 < error_bar.
Hypothesis Hn : (0 < n)%Z.
Hypothesis Hm : error_bar <= 3 * Rabs m_mean.

Lemma validate_plausible_prefix (ty : string) :
  _validate_declared_type_body m_mean error_bar ty n
  = (if String.eqb ty "SD" then
       s <- math_sqrt (IZR n) ;;
       expected_se <- py_div error_bar s ;;
       if Rltb 0 expected_se && Rltb expected_se error_bar then Ok 0.9
       else Ok 0.6
     else if String.eqb ty "SE" then
       s <- math_sqrt (IZR n) ;;
       if Rltb error_bar (error_bar * s)
          && Rltb (error_bar * s) (Rabs m_mean * 2)
       then Ok 0.9 else Ok 0.6
     else _validate_declared_type_body m_mean error_bar ty n).
Proof.
  unfold _validate_declared_type_body.
  assert (E1 : Rleb error_bar 0 = false) by (apply Rleb_false; lra).
  assert (E2 : (n <=? 0)%Z = false) by (apply Z.leb_gt; lia).
  assert (E3 : Rltb (Rabs m_mean * 3) error_bar = false)
    by (apply Rltb_false; lra).
  rewrite E1, E2, E3. cbn [orb].
  destruct (String.eqb ty "SD"); [reflexivity|].
  destruct (String.eqb ty "SE"); reflexivity.
Qed.

Lemma validate_SD_plausible :
  _validate_declared_type m_mean error_bar "SD" n
  = Ok (if (2 <=? n)%Z then 0.9 else 0.6).
Proof.
  unfold _validate_declared_type. rewrite validate_plausible_prefix.
  cbn [String.eqb Ascii.eqb Bool.eqb].
  pose proof (sqrt_IZR_ge_1 n Hn) as Hs.
  rewrite (math_sqrt_IZR n Hn). cbn [bind].
  rewrite py_div_ok by lra. cbn [bind].
  assert (E0 : Rltb 0 (error_bar / sqrt (IZR n)) = true).
  { apply Rltb_true. apply Rdiv_lt_0_compat; lra. }
  rewrite E0. cbn [andb].
  destruct (2 <=? n)%Z eqn:E2;
    [apply Z.leb_le in E2 | apply Z.leb_gt in E2].
  - pose proof (sqrt_IZR_gt_1 n E2) as Hs1.
    assert (E : Rltb (error_bar / sqrt (IZR n)) error_bar = true).
    { apply Rltb_true.
      apply Rmult_lt_reg_r with (sqrt (IZR n)); [lra|].
      unfold Rdiv. rewrite Rmult_assoc, Rinv_l by lra. nra. }
    now rewrite E.
  - assert (E1 : n = 1%Z) by lia. subst n.
    rewrite sqrt_1.
    assert (E : Rltb (error_bar / 1) error_bar = false).
    { apply Rltb_false. lra. }
    now rewrite E.
Qed.

Lemma validate_SE_plausible :
  exists c,
    _validate_declared_type m_mean error_bar "SE" n = Ok c
    /\ (c = 0.9 \/ c = 0.6).
Proof.
  unfold _validate_declared_type. rewrite validate_plausible_prefix.
  cbn [String.eqb Ascii.eqb Bool.eqb].
  rewrite (math_sqrt_IZR n Hn). cbn [bind].
  match goal with
  | |- context [if ?t then _ else _] => destruct t
  end; cbn; eauto.
Qed.

Lemma validate_ASYMMETRIC_plausible :
  _validate_declared_type m_mean error_bar "ASYMMETRIC" n = Ok 0.7.
Proof.
  unfold _validate_declared_type, _validate_declared_type_body.
  assert (E1 : Rleb error_bar 0 = false) by (apply Rleb_false; lra).
  assert (E2 : (n <=? 0)%Z = false) by (apply Z.leb_gt; lia).
  assert (E3 : Rltb (Rabs m_mean * 3) error_bar = false)
    by (apply Rltb_false; lra).
  rewrite E1, E2, E3. reflexivity.
Qed.

End DeclaredKept.

(** X29.  With a positive error bar of at most three times the magnitude
    of the mean and a positive sample size, a declared type that
    normalizes to SD, SE or ASYMMETRIC is always kept by the detector:
    SD with confidence 0.9 for a sample size of at least 2 and 0.6 for a
    single measurement, SE with confidence 0.9 or 0.6, ASYMMETRIC with
    confidence 0.7. *)
Theorem X29_plausible_declared_type_kept
    (m_mean error_bar : R) (declared_type : string) (n : Z) :
  0 < error_bar -> (0 < n)%Z -> error_bar <= 3 * Rabs m_mean ->
  let nd := _normalize_type declared_type in
  let answer :=
    detect_error_type (Some m_mean) (Some error_bar) declared_type
                      (Some n) in
  (nd = "SD"%string ->
   answer = Ok (nd, if (2 <=? n)%Z then 0.9 else 0.6))
  /\ (nd = "SE"%string -> answer = Ok (nd, 0.9) \/ answer = Ok (nd, 0.6))
  /\ (nd = "ASYMMETRIC"%string -> answer = Ok (nd, 0.7)).
Proof.
  intros He Hn Hm nd answer. subst answer. unfold detect_error_type.
  split; [|split]; intros End.
  - apply detect_declared_plausible; fold nd; rewrite ?End.
    + reflexivity.
    + now apply validate_SD_plausible.
    + destruct (2 <=? n)%Z; lra.
  - destruct (validate_SE_plausible m_mean error_bar n He Hn Hm)
      as (c & Hv & [-> | ->]); [left | right];
      apply detect_declared_plausible; fold nd; rewrite ?End;
      try reflexivity; try exact Hv; lra.
  - apply detect_declared_plausible; fold nd; rewrite ?End.
    + reflexivity.
    + now apply validate_ASYMMETRIC_plausible.
    + lra.
Qed.

Lemma X29_plausible_declared_type_kept_witness :
  detect_error_type (Some 10) (Some 2) " std" (Some 1%Z)
  = Ok ("SD"%string, 0.6).
Proof.
  assert (H2 : 0 < 2) by lra.
  assert (Hm : 2 <= 3 * Rabs 10) by (rewrite Rabs_right; lra).
  destruct (X29_plausible_declared_type_kept 10 2 " std" 1 H2 eq_refl Hm)
    as (H & _).
  apply H. reflexivity.
Defined.
